(** * Server health checks (src/src/checks.c)

    A shallow embedding of the four functions of checks.c,
    [set_server_down], [event_srv_chk_w], [event_srv_chk_r] and
    [process_chk], over an explicit program state, followed by the
    properties of the liveness state machine, of the reply classification
    and of the scheduling of the check task, and by those of the two
    handlers, of sequences of calls and of a probe after its start.

    Conventions.
    - C [int] fields are integers of [Z]; the arithmetic of checks.c on
      them is [++], [--] and comparisons on small counters, and flag words
      are handled with [Z.land], [Z.lor] and [Z.lnot] as in the source.
    - The source is taken as compiled without CONFIG_HAP_CTTPROXY and
      without DEBUG_FULL.
    - One server [s], its backend [s->proxy] and its check task [t] are
      modelled; sessions live in a store indexed by their address, so that
      two pending connections naming one session alias it.
    - What the operating system answers to a system call is read from a
      record [sys]; at most one probe is started per call of
      [process_chk] (each path that follows the start of a probe first
      moves the deadline past [now]), so one record per call is enough.
    - The calls made to the collaborators of checks.c (log sink, timer
      wheel, backend) are kept, in program order, in [trace]. *)

From Stdlib.Strings Require Import Byte String.
From Stdlib Require Import ZArith List Bool Lia.
Import ListNotations.
Local Open Scope Z_scope.

(** ** Constants of the headers *)

(** Modelled from the spec: the headers that define the flags and the
    states (types/server.h, types/proxy.h, types/session.h, types/fd.h)
    are missing. The spec names the flags (sections 3, 4.5 and 6); each
    is given one bit, distinct from the other flags of the same word, and
    no property below depends on which bit it is. *)

Definition SRV_RUNNING : Z := 1.
Definition SRV_BACKUP : Z := 2.
Definition SRV_BIND_SRC : Z := 8.
Definition SRV_CHECKED : Z := 16.

Definition PR_O_REDISP : Z := 1.
Definition PR_O_BIND_SRC : Z := 512.
Definition PR_O_HTTP_CHK : Z := 8192.
Definition PR_O_SSL3_CHK : Z := 16777216.
Definition PR_O_SMTP_CHK : Z := 33554432.

Definition SN_DIRECT : Z := 1.
Definition SN_ASSIGNED : Z := 2.
Definition SN_ADDR_SET : Z := 4.

Definition FD_POLL_RD : Z := 1.
Definition FD_POLL_WR : Z := 2.
Definition FD_POLL_ERR : Z := 4.

(** <syslog.h> *)
Definition LOG_EMERG : Z := 0.
Definition LOG_ALERT : Z := 1.
Definition LOG_NOTICE : Z := 5.

(** <errno.h>, Linux values *)
Definition EBADF : Z := 9.
Definition EAGAIN : Z := 11.
Definition EISCONN : Z := 106.
Definition EALREADY : Z := 114.
Definition EINPROGRESS : Z := 115.

Inductive proxy_state : Type :=
| PR_STNEW | PR_STIDLE | PR_STRUN | PR_STSTOPPED | PR_STPAUSED | PR_STERROR.

Inductive fd_state : Type :=
| FD_STCLOSE | FD_STLISTEN | FD_STCONN | FD_STREADY | FD_STERROR.

Inductive callback : Type :=
| cb_none | cb_event_srv_chk_r | cb_event_srv_chk_w.

Definition proxy_state_eqb (a b : proxy_state) : bool :=
  match a, b with
  | PR_STNEW, PR_STNEW | PR_STIDLE, PR_STIDLE | PR_STRUN, PR_STRUN
  | PR_STSTOPPED, PR_STSTOPPED | PR_STPAUSED, PR_STPAUSED
  | PR_STERROR, PR_STERROR => true
  | _, _ => false
  end.

Definition fd_state_eqb (a b : fd_state) : bool :=
  match a, b with
  | FD_STCLOSE, FD_STCLOSE | FD_STLISTEN, FD_STLISTEN | FD_STCONN, FD_STCONN
  | FD_STREADY, FD_STREADY | FD_STERROR, FD_STERROR => true
  | _, _ => false
  end.

(** [x & mask] used as a C condition, [x & ~mask] and [x | mask]. *)
Definition flag (word mask : Z) : bool := negb (Z.land word mask =? 0).
Definition clear (word mask : Z) : Z := Z.land word (Z.lnot mask).
Definition raise (word mask : Z) : Z := Z.lor word mask.

(** ** Data model *)

(** Modelled from the spec: the declarations of [struct server],
    [struct proxy], [struct session], [struct pendconn] and of the entries
    of [fdtab] (types/*.h) are missing. Each record holds the fields that
    checks.c reads or writes, under the names of the source (section 3 of
    the spec lists them). *)

Record session : Type := mk_session {
  sess_flags : Z;            (* sess->flags *)
  sess_srv : option nat;     (* sess->srv, NULL is None *)
  sess_be_options : Z;       (* sess->be->options; checks.c never writes it *)
  sess_txn_cookie : bool;    (* cookie-derived routing state of sess->txn in force *)
  sess_task : nat            (* sess->task *)
}.

Record pendconn : Type := mk_pendconn {
  pc_addr : nat;             (* the address of the node: its identity *)
  pc_sess : nat              (* pc->sess *)
}.

Record server : Type := mk_server {
  srv_id : nat;              (* the address of the server *)
  state : Z;
  health : Z;
  rise : Z;
  fall : Z;
  inter : Z;
  result : Z;                (* 0 no result yet, 1 success, -1 failure *)
  curfd : Z;                 (* -1: no check running *)
  failed_checks : Z;
  down_trans : Z;
  maxconn : Z;
  cur_sess : Z;
  nbpend : Z;
  pendconns : list pendconn;
  check_addr : Z;            (* check_addr.sin_addr.s_addr *)
  addr : Z;
  check_port : Z
}.

Record proxy : Type := mk_proxy {
  px_options : Z;
  px_state : proxy_state;
  srv_act : Z;
  srv_bck : Z;
  px_nbpend : Z;
  px_pendconns : list pendconn;
  check_req : list byte;
  check_len : Z;
  px_peers : list Z          (* the state words of the other servers of the backend *)
}.

Record fdentry : Type := mk_fdentry {
  owner : nat;               (* fdtab[fd].owner, a task *)
  cb_rd : callback;          (* fdtab[fd].cb[DIR_RD].f *)
  cb_wr : callback;          (* fdtab[fd].cb[DIR_WR].f *)
  fdst : fd_state;           (* fdtab[fd].state *)
  ev : Z;                    (* fdtab[fd].ev *)
  poll_rd : bool;            (* EV_FD_SET / EV_FD_CLR on DIR_RD *)
  poll_wr : bool             (* EV_FD_SET / EV_FD_CLR on DIR_WR *)
}.

(** The text of a message is kept as its format and its arguments. *)
Inductive msg : Type :=
| MsgServerDown (backup : bool) (act bck : Z) (on_backup : bool)
                (cur requeued remaining : Z)
| MsgServerUp (backup : bool) (act bck : Z) (on_backup : bool)
              (requeued total : Z)
| MsgNoServer
| MsgBindServer
| MsgBindProxy.

Inductive event : Type :=
| EvWarning (m : msg)
| EvAlert (m : msg)
| EvSendLog (level : Z) (m : msg)
| EvRecount
| EvRecalcMap
| EvTaskWakeup (t : nat)
| EvTaskQueue (t : nat)
| EvFdInsert (fd : Z)
| EvFdDelete (fd : Z)
| EvClose (fd : Z).

Record world : Type := mk_world {
  srv : server;              (* s = t->context *)
  px : proxy;                (* s->proxy *)
  sessions : nat -> session; (* the sessions, by address *)
  task : nat;                (* t *)
  expire : Z;                (* t->expire, in milliseconds *)
  fdtab : Z -> fdentry;
  os_open : Z -> bool;       (* the descriptors the process holds open *)
  maxsock : Z;               (* global.maxsock *)
  trace : list event
}.

(** What the system calls of one activation return. *)
Record sys : Type := mk_sys {
  socket_ret : Z;
  fcntl_ret : Z;
  nodelay_ret : Z;           (* setsockopt(TCP_NODELAY) *)
  bind_ret : Z;
  connect_ret : Z;
  connect_errno : Z;         (* errno after connect() *)
  send_ret : Z;
  send_errno : Z;            (* errno after send() *)
  getsockopt_ret : Z;
  skerr : Z;
  recv_len : Z;
  recv_errno : Z;            (* errno after recv() *)
  recv_reply : list byte     (* the 64 bytes of reply[] after recv() *)
}.

(** ** Field updates *)

Definition set_state (v : Z) (s : server) : server :=
  mk_server (srv_id s) v (health s) (rise s) (fall s) (inter s) (result s)
    (curfd s) (failed_checks s) (down_trans s) (maxconn s) (cur_sess s)
    (nbpend s) (pendconns s) (check_addr s) (addr s) (check_port s).

Definition set_health (v : Z) (s : server) : server :=
  mk_server (srv_id s) (state s) v (rise s) (fall s) (inter s) (result s)
    (curfd s) (failed_checks s) (down_trans s) (maxconn s) (cur_sess s)
    (nbpend s) (pendconns s) (check_addr s) (addr s) (check_port s).

Definition set_result (v : Z) (s : server) : server :=
  mk_server (srv_id s) (state s) (health s) (rise s) (fall s) (inter s) v
    (curfd s) (failed_checks s) (down_trans s) (maxconn s) (cur_sess s)
    (nbpend s) (pendconns s) (check_addr s) (addr s) (check_port s).

Definition set_curfd (v : Z) (s : server) : server :=
  mk_server (srv_id s) (state s) (health s) (rise s) (fall s) (inter s)
    (result s) v (failed_checks s) (down_trans s) (maxconn s) (cur_sess s)
    (nbpend s) (pendconns s) (check_addr s) (addr s) (check_port s).

Definition set_failed_checks (v : Z) (s : server) : server :=
  mk_server (srv_id s) (state s) (health s) (rise s) (fall s) (inter s)
    (result s) (curfd s) v (down_trans s) (maxconn s) (cur_sess s)
    (nbpend s) (pendconns s) (check_addr s) (addr s) (check_port s).

Definition set_down_trans (v : Z) (s : server) : server :=
  mk_server (srv_id s) (state s) (health s) (rise s) (fall s) (inter s)
    (result s) (curfd s) (failed_checks s) v (maxconn s) (cur_sess s)
    (nbpend s) (pendconns s) (check_addr s) (addr s) (check_port s).

Definition set_queue (n : Z) (q : list pendconn) (s : server) : server :=
  mk_server (srv_id s) (state s) (health s) (rise s) (fall s) (inter s)
    (result s) (curfd s) (failed_checks s) (down_trans s) (maxconn s)
    (cur_sess s) n q (check_addr s) (addr s) (check_port s).

Definition set_counts (act bck : Z) (p : proxy) : proxy :=
  mk_proxy (px_options p) (px_state p) act bck (px_nbpend p)
    (px_pendconns p) (check_req p) (check_len p) (px_peers p).

Definition set_px_queue (n : Z) (q : list pendconn) (p : proxy) : proxy :=
  mk_proxy (px_options p) (px_state p) (srv_act p) (srv_bck p) n q
    (check_req p) (check_len p) (px_peers p).

Definition set_check_req (r : list byte) (p : proxy) : proxy :=
  mk_proxy (px_options p) (px_state p) (srv_act p) (srv_bck p) (px_nbpend p)
    (px_pendconns p) r (check_len p) (px_peers p).

Definition set_sess_flags (v : Z) (x : session) : session :=
  mk_session v (sess_srv x) (sess_be_options x) (sess_txn_cookie x) (sess_task x).

Definition set_sess_srv (v : option nat) (x : session) : session :=
  mk_session (sess_flags x) v (sess_be_options x) (sess_txn_cookie x) (sess_task x).

Definition set_fdst (v : fd_state) (e : fdentry) : fdentry :=
  mk_fdentry (owner e) (cb_rd e) (cb_wr e) v (ev e) (poll_rd e) (poll_wr e).

Definition set_ev (v : Z) (e : fdentry) : fdentry :=
  mk_fdentry (owner e) (cb_rd e) (cb_wr e) (fdst e) v (poll_rd e) (poll_wr e).

Definition set_poll_rd (v : bool) (e : fdentry) : fdentry :=
  mk_fdentry (owner e) (cb_rd e) (cb_wr e) (fdst e) (ev e) v (poll_wr e).

Definition set_poll_wr (v : bool) (e : fdentry) : fdentry :=
  mk_fdentry (owner e) (cb_rd e) (cb_wr e) (fdst e) (ev e) (poll_rd e) v.

Definition with_srv (f : server -> server) (w : world) : world :=
  mk_world (f (srv w)) (px w) (sessions w) (task w) (expire w) (fdtab w)
    (os_open w) (maxsock w) (trace w).

Definition with_px (f : proxy -> proxy) (w : world) : world :=
  mk_world (srv w) (f (px w)) (sessions w) (task w) (expire w) (fdtab w)
    (os_open w) (maxsock w) (trace w).

Definition with_session (a : nat) (f : session -> session) (w : world) : world :=
  mk_world (srv w) (px w)
    (fun b => if Nat.eqb b a then f (sessions w a) else sessions w b)
    (task w) (expire w) (fdtab w) (os_open w) (maxsock w) (trace w).

Definition set_expire (e : Z) (w : world) : world :=
  mk_world (srv w) (px w) (sessions w) (task w) e (fdtab w) (os_open w)
    (maxsock w) (trace w).

Definition with_fd (fd : Z) (f : fdentry -> fdentry) (w : world) : world :=
  mk_world (srv w) (px w) (sessions w) (task w) (expire w)
    (fun k => if k =? fd then f (fdtab w fd) else fdtab w k)
    (os_open w) (maxsock w) (trace w).

Definition set_open (fd : Z) (b : bool) (w : world) : world :=
  mk_world (srv w) (px w) (sessions w) (task w) (expire w) (fdtab w)
    (fun k => if k =? fd then b else os_open w k) (maxsock w) (trace w).

Definition emit (e : event) (w : world) : world :=
  mk_world (srv w) (px w) (sessions w) (task w) (expire w) (fdtab w)
    (os_open w) (maxsock w) (trace w ++ [e]).

(** ** Collaborators of checks.c

    The functions below are called by checks.c and defined elsewhere in the
    tree (proto/backend.h, proto/queue.h, proto/task.h, proto/fd.h,
    proto/log.h, proto/proto_http.h, common/time.h), outside the sources at
    hand. *)

(** Modelled from the spec: the timer arithmetic of common/time.h
    ([tv_isle], [tv_ms_add]) is missing; section 4.1 writes it
    [expire <= now] and [expire += inter] on millisecond deadlines. *)
Definition tv_isle (a b : Z) : bool := a <=? b.
Definition tv_ms_add (from ms : Z) : Z := from + ms.

(** Modelled from the spec: [recount_servers] is missing; section 8 has
    that after a recount [srv_act] and [srv_bck] are the numbers of UP
    servers of each role on the backend. *)
Definition count_running (backup : bool) (states : list Z) : Z :=
  Z.of_nat (length (filter
    (fun st => flag st SRV_RUNNING && Bool.eqb (flag st SRV_BACKUP) backup)
    states)).

Definition recount_servers (w : world) : world :=
  let all := state (srv w) :: px_peers (px w) in
  emit EvRecount
    (with_px (set_counts (count_running false all) (count_running true all)) w).

(** Modelled from the spec: [recalc_server_map] is missing; the map itself
    is outside the engine (section 1), the call is recorded. *)
Definition recalc_server_map (w : world) : world := emit EvRecalcMap w.

(** Modelled from the spec: [pendconn_from_px] is missing; section 6 has it
    give the oldest entry of the backend queue, or none. The entry leaves
    the queue when [pendconn_free] is called on it. *)
Definition pendconn_from_px (p : proxy) : option pendconn :=
  match px_pendconns p with
  | [] => None
  | pc :: _ => Some pc
  end.

(** Modelled from the spec: [pendconn_free] is missing; section 6 has it
    remove the entry from wherever it is queued. The counter of a queue
    follows the length of the queue. *)
Definition unlink (p : pendconn) (q : list pendconn) : list pendconn :=
  filter (fun x => negb (Nat.eqb (pc_addr x) (pc_addr p))) q.

Definition removed (p : pendconn) (q : list pendconn) : Z :=
  Z.of_nat (length q) - Z.of_nat (length (unlink p q)).

Definition pendconn_free (p : pendconn) (w : world) : world :=
  with_px
    (fun b => set_px_queue (px_nbpend b - removed p (px_pendconns b))
                (unlink p (px_pendconns b)) b)
    (with_srv
       (fun s => set_queue (nbpend s - removed p (pendconns s))
                   (unlink p (pendconns s)) s)
       w).

(** Modelled from the spec: [http_flush_cookie_flags] is missing;
    section 4.5 has it invalidate the cookie-derived routing state. *)
Definition http_flush_cookie_flags (x : session) : session :=
  mk_session (sess_flags x) (sess_srv x) (sess_be_options x) false (sess_task x).

(** Modelled from the spec: [task_wakeup] and [task_queue] are missing;
    section 6 has them wake a task and re-insert it with its deadline. *)
Definition task_wakeup (t : nat) (w : world) : world := emit (EvTaskWakeup t) w.
Definition task_queue (w : world) : world := emit (EvTaskQueue (task w)) w.

(** Modelled from the spec: [fd_insert] and [fd_delete] are missing;
    section 6 has them register and unregister a descriptor, and section
    4.5 has the release of a probe close and deregister it. *)
Definition fd_insert (fd : Z) (w : world) : world := emit (EvFdInsert fd) w.

Definition fd_delete (fd : Z) (w : world) : world :=
  emit (EvFdDelete fd)
    (set_open fd false
       (with_fd fd
          (fun e => set_fdst FD_STCLOSE (set_poll_rd false (set_poll_wr false e)))
          w)).

(** Modelled from the spec: [Warning], [Alert] and [send_log]
    (proto/log.h) are missing; section 6 has them emit one message, at a
    syslog level for [send_log]. *)
Definition Warning (m : msg) (w : world) : world := emit (EvWarning m) w.
Definition Alert (m : msg) (w : world) : world := emit (EvAlert m) w.
Definition send_log (level : Z) (m : msg) (w : world) : world :=
  emit (EvSendLog level m) w.

(** close(2) *)
Definition sys_close (fd : Z) (w : world) : world :=
  emit (EvClose fd) (set_open fd false w).

(** ** set_server_down (checks.c, lines 51-100) *)

Definition sticky : Z := Z.lor (Z.lor SN_DIRECT SN_ASSIGNED) SN_ADDR_SET.

Definition redispatchable (w : world) (pc : pendconn) : bool :=
  flag (sess_be_options (sessions w (pc_sess pc))) PR_O_REDISP.

Definition unstick (x : session) : session :=
  http_flush_cookie_flags
    (set_sess_srv None (set_sess_flags (clear (sess_flags x) sticky) x)).

(** The loop over [s->pendconns]: FOREACH_ITEM_SAFE walks the nodes the
    queue holds on entry and tolerates the removal of the current one. *)
Fixpoint redispatch (pcs : list pendconn) (xferred : Z) (w : world) : Z * world :=
  match pcs with
  | [] => (xferred, w)
  | pc :: rest =>
      if redispatchable w pc then
        let w1 := with_session (pc_sess pc) unstick w in
        let w2 := pendconn_free pc w1 in
        let w3 := task_wakeup (sess_task (sessions w2 (pc_sess pc))) w2 in
        redispatch rest (xferred + 1) w3
      else redispatch rest xferred w
  end.

Definition down_msg (xferred : Z) (w : world) : msg :=
  MsgServerDown (flag (state (srv w)) SRV_BACKUP)
    (srv_act (px w)) (srv_bck (px w))
    (negb (srv_bck (px w) =? 0) && (srv_act (px w) =? 0))
    (cur_sess (srv w)) xferred (nbpend (srv w)).

Definition set_server_down (w : world) : world :=
  let w := with_srv (fun s => set_state (clear (state s) SRV_RUNNING) s) w in
  let w :=
    if health (srv w) =? rise (srv w) then
      let w := recalc_server_map (recount_servers w) in
      let r := redispatch (pendconns (srv w)) 0 w in
      let w := snd r in
      let trash := down_msg (fst r) w in
      let w := send_log LOG_ALERT trash (Warning trash w) in
      let w :=
        if (srv_bck (px w) =? 0) && (srv_act (px w) =? 0)
        then send_log LOG_EMERG MsgNoServer (Alert MsgNoServer w)
        else w in
      with_srv (fun s => set_down_trans (down_trans s + 1) s) w
    else w in
  with_srv (set_health 0) w.

(** The failure step of [process_chk] (lines 430-435 and 497-502). *)
Definition chk_failure (w : world) : world :=
  if rise (srv w) <? health (srv w) then
    with_srv
      (fun s => set_failed_checks (failed_checks s + 1)
                  (set_health (health s - 1) s))
      w
  else set_server_down w.

(** ** event_srv_chk_w (checks.c, lines 111-197) *)

Definition byte_of_Z (z : Z) : byte :=
  match Byte.of_N (Z.to_N (z mod 256)) with
  | Some b => b
  | None => x00
  end.

(** The four bytes of [htonl(v)] as [memcpy] lays them out. *)
Definition htonl_bytes (v : Z) : list byte :=
  let u := v mod 4294967296 in
  [byte_of_Z (u / 16777216); byte_of_Z (u / 65536); byte_of_Z (u / 256); byte_of_Z u].

Definition patch_time (req : list byte) (sec : Z) : list byte :=
  firstn 11 req ++ htonl_bytes sec ++ skipn 15 req.

Definition w_out_nowake (fd : Z) (w : world) : Z * world :=
  (1, with_fd fd (fun e => set_ev (clear (ev e) FD_POLL_WR) (set_poll_wr false e)) w).

Definition w_out_wakeup (fd : Z) (w : world) : Z * world :=
  w_out_nowake fd (task_wakeup (owner (fdtab w fd)) w).

Definition w_out_poll (fd : Z) (w : world) : Z * world :=
  (0, with_fd fd (fun e => set_ev (clear (ev e) FD_POLL_WR) e) w).

Definition w_out_error (fd : Z) (w : world) : Z * world :=
  w_out_wakeup fd (with_fd fd (set_fdst FD_STERROR) (with_srv (set_result (-1)) w)).

Definition event_srv_chk_w (fd now : Z) (y : sys) (w : world) : Z * world :=
  let e := fdtab w fd in
  if fd_state_eqb (fdst e) FD_STERROR || flag (ev e) FD_POLL_ERR then
    w_out_error fd w
  else if negb (result (srv w) =? -1) then
    let o := px_options (px w) in
    if flag o PR_O_HTTP_CHK || flag o PR_O_SSL3_CHK || flag o PR_O_SMTP_CHK then
      let w :=
        if flag o PR_O_SSL3_CHK
        then with_px (fun p => set_check_req (patch_time (check_req p) (now / 1000)) p) w
        else w in
      let ret := send_ret y in
      if ret =? check_len (px w) then
        w_out_nowake fd (with_fd fd (set_poll_rd true) w)
      else if (ret =? 0) || (send_errno y =? EAGAIN) then w_out_poll fd w
      else w_out_error fd w
    else
      let errno := if connect_ret y =? 0 then 0 else connect_errno y in
      if (errno =? EALREADY) || (errno =? EINPROGRESS) then w_out_poll fd w
      else if negb (errno =? 0) && negb (errno =? EISCONN) then w_out_error fd w
      else w_out_wakeup fd (with_srv (set_result 1) w)
  else w_out_wakeup fd w.

(** ** event_srv_chk_r (checks.c, lines 209-272) *)

(** [int] converted to [size_t] for the comparison with [sizeof]. *)
Definition to_size_t (z : Z) : Z := z mod 18446744073709551616.

Definition bytes_of (s : String.string) : list byte := String.list_byte_of_string s.

(** [sizeof("HTTP/1.0 000")]: the characters and the terminating NUL. *)
Definition sizeof_status : Z :=
  Z.of_nat (length (bytes_of "HTTP/1.0 000"%string)) + 1.

Fixpoint bytes_eqb (a b : list byte) : bool :=
  match a, b with
  | [], [] => true
  | x :: a', y :: b' => Byte.eqb x y && bytes_eqb a' b'
  | _, _ => false
  end.

Definition byte_at (reply : list byte) (i : nat) : byte := nth i reply x00.

(** The value of the local [result] after lines 246-259. *)
Definition classify (options len : Z) (reply : list byte) : Z :=
  if flag options PR_O_HTTP_CHK && (sizeof_status <=? to_size_t len)
     && bytes_eqb (firstn 7 reply) (bytes_of "HTTP/1."%string)
     && (Byte.eqb (byte_at reply 9) "2"%byte || Byte.eqb (byte_at reply 9) "3"%byte)
  then 1
  else if flag options PR_O_SSL3_CHK && (5 <=? len)
          && (Byte.eqb (byte_at reply 0) x15 || Byte.eqb (byte_at reply 0) x16)
  then 1
  else if flag options PR_O_SMTP_CHK && (3 <=? len)
          && Byte.eqb (byte_at reply 0) "2"%byte
  then 1
  else -1.

Definition r_out_wakeup (fd : Z) (w : world) : Z * world :=
  let t := owner (fdtab w fd) in
  (1, with_fd fd (fun e => set_ev (clear (ev e) FD_POLL_RD) e)
        (task_wakeup t (with_fd fd (set_poll_rd false) w))).

(** The condition of lines 221-224. *)
Definition read_error (fd : Z) (y : sys) (w : world) : bool :=
  let e := fdtab w fd in
  fd_state_eqb (fdst e) FD_STERROR || flag (ev e) FD_POLL_ERR
  || (getsockopt_ret y =? -1) || negb (skerr y =? 0).

(** The condition of line 240. *)
Definition read_again (y : sys) : bool :=
  (recv_len y <? 0) && (recv_errno y =? EAGAIN).

Definition event_srv_chk_r (fd : Z) (y : sys) (w : world) : Z * world :=
  if read_error fd y w then
    r_out_wakeup fd (with_fd fd (set_fdst FD_STERROR) (with_srv (set_result (-1)) w))
  else
    let len := recv_len y in
    if read_again y then
      (0, with_fd fd (fun e => set_ev (clear (ev e) FD_POLL_RD) e) w)
    else
      let res := classify (px_options (px w)) len (recv_reply y) in
      let w := if res =? -1 then with_fd fd (set_fdst FD_STERROR) w else w in
      let w := if negb (result (srv w) =? -1) then with_srv (set_result res) w else w in
      r_out_wakeup fd w.

(** ** process_chk (checks.c, lines 278-517) *)

Section Process.

(** [srv_dynamic_maxconn] (proto/queue.h) is not part of the sources at
    hand; it reads the server and its backend. *)
Variable srv_dynamic_maxconn : server -> proxy -> Z.

(** [while (tv_isle(&t->expire, &now)) tv_ms_add(&t->expire, &t->expire, s->inter);]
    The loop does not end when [inter <= 0]: it runs on fuel. *)
Fixpoint advance (fuel : nat) (now step e : Z) : option Z :=
  if tv_isle e now then
    match fuel with
    | O => None
    | S f => advance f now step (tv_ms_add e step)
    end
  else Some e.

(** The loop of lines 461-472. Each turn takes the head of the backend
    queue out of it, so [n] turns are enough for a queue of [n] entries;
    [None] stands for a loop cut short. *)
Fixpoint drain (n : nat) (xferred : Z) (w : world) : option (Z * world) :=
  if (maxconn (srv w) =? 0) || (xferred <? srv_dynamic_maxconn (srv w) (px w)) then
    match pendconn_from_px (px w) with
    | None => Some (xferred, w)
    | Some p =>
        match n with
        | O => None
        | S n' =>
            let w1 := with_session (pc_sess p) (set_sess_srv (Some (srv_id (srv w)))) w in
            let sess := pc_sess p in
            let w2 := pendconn_free p w1 in
            let w3 := task_wakeup (sess_task (sessions w2 sess)) w2 in
            drain n' (xferred + 1) w3
        end
    end
  else Some (xferred, w).

Definition up_msg (xferred : Z) (w : world) : msg :=
  MsgServerUp (flag (state (srv w)) SRV_BACKUP)
    (srv_act (px w)) (srv_bck (px w))
    (negb (srv_bck (px w) =? 0) && (srv_act (px w) =? 0))
    xferred (nbpend (srv w)).

(** Lines 455-483, the body of [if (s->health == s->rise)]. *)
Definition up_edge (w : world) : option world :=
  let w := recalc_server_map (recount_servers w) in
  match drain (length (px_pendconns (px w))) 0 w with
  | None => None
  | Some (xferred, w) =>
      let trash := up_msg xferred w in
      Some (send_log LOG_NOTICE trash (Warning trash w))
  end.

(** The success step (lines 448-487). *)
Definition chk_success (w : world) : option world :=
  let w := with_srv (fun s => set_health (health s + 1) s) w in
  if rise (srv w) <=? health (srv w) then
    let w := with_srv (fun s => set_state (raise (state s) SRV_RUNNING) s) w in
    match (if health (srv w) =? rise (srv w) then up_edge w else Some w) with
    | None => None
    | Some w => Some (with_srv (fun s => set_health (rise s + fall s - 1) s) w)
    end
  else Some w.

(** Lines 396-412: the descriptor is taken over by the task. *)
Definition take_over (fd now : Z) (w : world) : world :=
  let w := with_srv (set_curfd fd) w in
  let w := fd_insert fd w in
  let w := with_fd fd
    (fun e => mk_fdentry (task w) cb_event_srv_chk_r cb_event_srv_chk_w
                FD_STCONN 0 (poll_rd e) true) w in
  let w := set_expire (tv_ms_add now (inter (srv w))) w in
  task_queue w.

(** Lines 331-388 without CONFIG_HAP_CTTPROXY. *)
Definition bind_source (y : sys) (w : world) : world :=
  if flag (state (srv w)) SRV_BIND_SRC then
    if bind_ret y =? -1
    then with_srv (set_result (-1)) (Alert MsgBindServer w)
    else w
  else if flag (px_options (px w)) PR_O_BIND_SRC then
    if bind_ret y =? -1
    then with_srv (set_result (-1)) (Alert MsgBindProxy w)
    else w
  else w.

(** Lines 390-417. *)
Definition try_connect (fd now : Z) (y : sys) (w : world) : world :=
  if result (srv w) =? 0 then
    if negb (connect_ret y =? -1) || (connect_errno y =? EINPROGRESS) then
      take_over fd now w
    else if negb (connect_errno y =? EALREADY) && negb (connect_errno y =? EISCONN)
            && negb (connect_errno y =? EAGAIN)
    then with_srv (set_result (-1)) w
    else w
  else w.

(** Lines 309-420: [s->result = 0], the socket, and [close(fd)]. *)
Definition initiate (now : Z) (y : sys) (w : world) : world :=
  let w := with_srv (set_result 0) w in
  let fd := socket_ret y in
  if negb (fd =? -1) then
    let w := set_open fd true w in
    let w :=
      if (fd <? maxsock w) && negb (fcntl_ret y =? -1) && negb (nodelay_ret y =? -1)
      then try_connect fd now y (bind_source y w)
      else w in
    sys_close fd w
  else w.

(** One pass from the label [new_chk]: either the function returns, with
    the deadline written to [*next], or it jumps back to [new_chk]. *)
Inductive flow : Type :=
| Again (w : world)
| Out (w : world) (next : Z).

Definition rephase (fuel : nat) (now : Z) (w : world) : option flow :=
  match advance fuel now (inter (srv w)) (expire w) with
  | None => None
  | Some e => Some (Again (set_expire e w))
  end.

(** [s->curfd = -1; fd_delete(fd);] *)
Definition release (fd : Z) (w : world) : world :=
  fd_delete fd (with_srv (set_curfd (-1)) w).

Definition pass (fuel : nat) (now : Z) (y : sys) (w : world) : option flow :=
  let s := srv w in
  let fd := curfd s in
  if fd <? 0 then
    if negb (tv_isle (expire w) now) then
      Some (Out (task_queue w) (expire w))
    else if negb (flag (state s) SRV_CHECKED) || proxy_state_eqb (px_state (px w)) PR_STSTOPPED then
      match advance fuel now (inter s) (expire w) with
      | None => None
      | Some e => let w := task_queue (set_expire e w) in Some (Out w (expire w))
      end
    else
      let w := initiate now y w in
      if result (srv w) =? 0 then rephase fuel now w
      else rephase fuel now (chk_failure w)
  else
    if 0 <? result s then
      match chk_success w with
      | None => None
      | Some w => rephase fuel now (release fd w)
      end
    else if (result s <? 0) || tv_isle (expire w) now then
      rephase fuel now (release fd (chk_failure w))
    else
      let w := task_queue (with_srv (set_result 0) w) in
      Some (Out w (expire w)).

Fixpoint process_chk (fuel : nat) (now : Z) (y : sys) (w : world) : option (world * Z) :=
  match fuel with
  | O => None
  | S f =>
      match pass f now y w with
      | None => None
      | Some (Out w' next) => Some (w', next)
      | Some (Again w') => process_chk f now y w'
      end
  end.

End Process.

(** * Vocabulary of the properties *)

(** [same_frame w w']: [w'] differs from [w] at most by the two queues and
    their counters, the sessions and the trace. *)
Definition same_frame (w w' : world) : Prop :=
  set_queue 0 [] (srv w') = set_queue 0 [] (srv w) /\
  set_px_queue 0 [] (px w') = set_px_queue 0 [] (px w) /\
  task w' = task w /\ expire w' = expire w /\ fdtab w' = fdtab w /\
  os_open w' = os_open w /\ maxsock w' = maxsock w.

Definition freed (w : world) (pcs : list pendconn) : list pendconn :=
  filter (redispatchable w) pcs.

Definition unlink_all (ps q : list pendconn) : list pendconn :=
  fold_left (fun q p => unlink p q) ps q.

Definition wakeups (w : world) (ps : list pendconn) : list event :=
  map (fun pc => EvTaskWakeup (sess_task (sessions w (pc_sess pc)))) ps.

Definition names (ps : list pendconn) (a : nat) : bool :=
  existsb (fun pc => Nat.eqb (pc_sess pc) a) ps.

(** The entries of the server's queue whose session may be redispatched. *)
Definition rescued (w : world) : list pendconn := freed w (pendconns (srv w)).

(** The state words of the servers of the backend once [s] has lost RUNNING. *)
Definition states_after_down (w : world) : list Z :=
  clear (state (srv w)) SRV_RUNNING :: px_peers (px w).

Definition emptied (w : world) : bool :=
  (count_running true (states_after_down w) =? 0)
  && (count_running false (states_after_down w) =? 0).

(** The number of turns of the loop that moves a deadline [e] past [now]
    by steps of [step]. *)
Definition lag (now step e : Z) : Z :=
  if e <=? now then (now - e) / step + 1 else 0.

(** [srv_config s] keeps the fields of [s] that the failure and success
    steps never write: everything but [state], [health], [failed_checks],
    [down_trans] and the queue. *)
Definition srv_config (s : server) : server :=
  set_queue 0 [] (set_health 0 (set_state 0 (set_failed_checks 0 (set_down_trans 0 s)))).

(** The state after the deadline loop. *)
Definition settle (now : Z) (w : world) : world :=
  set_expire (expire w + lag now (inter (srv w)) (expire w) * inter (srv w)) w.

(** The text of the ALERT message of a DOWN edge taken in state [w], with
    [remaining] entries left in the queue of the server. *)
Definition down_text (w : world) (remaining : Z) : msg :=
  let act := count_running false (states_after_down w) in
  let bck := count_running true (states_after_down w) in
  MsgServerDown (flag (state (srv w)) SRV_BACKUP) act bck
    (negb (bck =? 0) && (act =? 0)) (cur_sess (srv w))
    (Z.of_nat (length (rescued w))) remaining.

Definition is_wakeup (e : event) : bool :=
  match e with
  | EvTaskWakeup _ => true
  | _ => false
  end.

(** The state in which the UP edge runs: health incremented, RUNNING set. *)
Definition risen (w : world) : world :=
  with_srv (fun s => set_state (raise (state s) SRV_RUNNING) s)
    (with_srv (fun s => set_health (health s + 1) s) w).

(** The state words of the servers of the backend once [s] has RUNNING. *)
Definition states_after_up (w : world) : list Z :=
  raise (state (srv w)) SRV_RUNNING :: px_peers (px w).

(** The number of messages sent to the log at [level]: DOWN edges log at
    ALERT, UP edges at NOTICE. *)
Definition logged (level : Z) (tr : list event) : nat :=
  length (filter (fun e => match e with
                           | EvSendLog l _ => l =? level
                           | _ => false
                           end) tr).

(** [n] failed probes in a row. *)
Fixpoint failures (n : nat) (w : world) : world :=
  match n with
  | O => w
  | S k => failures k (chk_failure w)
  end.

(** No check is running, the deadline is reached, the server is checked
    and its backend is not stopped: [process_chk] starts a probe. *)
Definition due (now : Z) (w : world) : Prop :=
  curfd (srv w) < 0 /\ expire w <= now /\
  flag (state (srv w)) SRV_CHECKED = true /\ px_state (px w) <> PR_STSTOPPED.

(** The socket was created and set up (lines 310-313). *)
Definition usable (y : sys) (w : world) : bool :=
  negb (socket_ret y =? -1) && (socket_ret y <? maxsock w)
  && negb (fcntl_ret y =? -1) && negb (nodelay_ret y =? -1).

(** A source address is configured and [bind] refused it. *)
Definition bind_fails (y : sys) (w : world) : bool :=
  (flag (state (srv w)) SRV_BIND_SRC || flag (px_options (px w)) PR_O_BIND_SRC)
  && (bind_ret y =? -1).

Definition bind_alert (w : world) : msg :=
  if flag (state (srv w)) SRV_BIND_SRC then MsgBindServer else MsgBindProxy.

(** The two tests of lines 391 and 414. *)
Definition connect_accepted (y : sys) : bool :=
  negb (connect_ret y =? -1) || (connect_errno y =? EINPROGRESS).

Definition connect_tolerated (y : sys) : bool :=
  (connect_errno y =? EALREADY) || (connect_errno y =? EISCONN)
  || (connect_errno y =? EAGAIN).

(** The state when the socket is there: [result] reset, descriptor open. *)
Definition opened (y : sys) (w : world) : world :=
  set_open (socket_ret y) true (with_srv (set_result 0) w).

(** The capacity does not read the queues: it is the same whatever the
    two queues and their counters hold. *)
Definition queue_blind (dyn : server -> proxy -> Z) : Prop :=
  forall s p, dyn (set_queue 0 [] s) (set_px_queue 0 [] p) = dyn s p.

(** The number of entries the loop of lines 461-472 takes from a queue of
    [len] entries when [xferred] were taken already. *)
Definition share (unbounded : bool) (cap xferred : Z) (len : nat) : nat :=
  if unbounded then len else Nat.min len (Z.to_nat (cap - xferred)).

Definition assign (s : nat) (x : session) : session := set_sess_srv (Some s) x.

Section Vocabulary.

Variable dyn : server -> proxy -> Z.

(** [runs now y w w' next]: the call [process_chk(t, &next)] made in state
    [w] at time [now] returns, in state [w'] and with [next] written. *)
Definition runs (now : Z) (y : sys) (w w' : world) (next : Z) : Prop :=
  exists n, forall fuel, (n <= fuel)%nat ->
    process_chk dyn fuel now y w = Some (w', next).

(** [n] successful probes in a row. *)
Fixpoint successes (n : nat) (w : world) : option world :=
  match n with
  | O => Some w
  | S k =>
      match chk_success dyn w with
      | None => None
      | Some w1 => successes k w1
      end
  end.

(** The value of [srv_dynamic_maxconn(s)] as the loop reads it: the
    server has RUNNING and the backend has been recounted. *)
Definition capacity (w : world) : Z :=
  dyn (srv (risen w)) (px (recount_servers (risen w))).

End Vocabulary.

(** ** States of the scenarios of section 8

    rise = 2, fall = 3, inter = 2000 ms, HTTP check, one server, UP with
    [health = rise], no check running, deadline 1000. *)

Definition demo_session : session :=
  mk_session 7 (Some 1%nat) PR_O_REDISP true 10%nat.

Definition demo_server : server :=
  mk_server 1%nat (SRV_RUNNING + SRV_CHECKED) 2 2 3 2000 0 (-1) 0 0 0 0 0 []
    0 167772161 80.

Definition demo_proxy : proxy :=
  mk_proxy PR_O_HTTP_CHK PR_STRUN 1 0 0 [] (bytes_of "OPTIONS / HTTP/1.0"%string) 18 [].

Definition demo_fdentry : fdentry :=
  mk_fdentry 0%nat cb_none cb_none FD_STCLOSE 0 false false.

Definition demo_world : world :=
  mk_world demo_server demo_proxy (fun _ => demo_session) 100%nat 1000
    (fun _ => demo_fdentry) (fun _ => false) 1024 [].

(** Every call succeeds; [socket] gives descriptor 5; the reply is a 200. *)
Definition demo_sys : sys :=
  mk_sys 5 0 0 0 0 0 18 0 0 0 13 0 (bytes_of "HTTP/1.0 200 "%string).

(** The same with a check running on descriptor 5 and [result = r]. *)
Definition demo_running (r : Z) : world :=
  with_fd 5
    (fun _ => mk_fdentry 100%nat cb_event_srv_chk_r cb_event_srv_chk_w
                FD_STCONN 0 true false)
    (set_open 5 true (with_srv (fun s => set_result r (set_curfd 5 s)) demo_world)).

(** The capacity used in the examples: the static [maxconn]. *)
Definition demo_dyn (s : server) (p : proxy) : Z := maxconn s.

Definition demo_queue : list pendconn :=
  [mk_pendconn 1 11; mk_pendconn 2 12; mk_pendconn 3 13].

(** The example server one success short of UP, [maxconn = 2], a check
    running on descriptor 5 with a success stored, and three sessions
    waiting in the backend queue. *)
Definition demo_rising : world :=
  mk_world
    (mk_server 1%nat SRV_CHECKED 1 2 3 2000 1 5 0 0 2 0 0 [] 0 167772161 80)
    (set_px_queue 3 demo_queue demo_proxy)
    (fun _ => demo_session) 100%nat 1000
    (fun _ => demo_fdentry) (fun _ => false) 1024 [].

(** ** Vocabulary of the handlers, of the ticks and of the probe cycles *)

(** The test of lines 117 and 221-222 on the descriptor itself. *)
Definition fd_error (fd : Z) (w : world) : bool :=
  fd_state_eqb (fdst (fdtab w fd)) FD_STERROR || flag (ev (fdtab w fd)) FD_POLL_ERR.

(** One of the three check options is set: the check sends a request. *)
Definition has_request (p : proxy) : bool :=
  flag (px_options p) PR_O_HTTP_CHK || flag (px_options p) PR_O_SSL3_CHK
  || flag (px_options p) PR_O_SMTP_CHK.

(** [errno] as lines 171-174 read it: cleared when [connect] returns 0. *)
Definition reconnect_errno (y : sys) : Z :=
  if connect_ret y =? 0 then 0 else connect_errno y.

(** The owner of the descriptor was woken, and nothing else was traced. *)
Definition woken (fd : Z) (w w' : world) : Prop :=
  trace w' = trace w ++ [EvTaskWakeup (owner (fdtab w fd))].

(** [probe_frame fd w w']: [w'] differs from [w] at most by [result], the
    text of the request, the state and the polling of [fd], and the trace. *)
Definition probe_frame (fd : Z) (w w' : world) : Prop :=
  set_result 0 (srv w') = set_result 0 (srv w) /\
  set_check_req [] (px w') = set_check_req [] (px w) /\
  sessions w' = sessions w /\ task w' = task w /\ expire w' = expire w /\
  os_open w' = os_open w /\ maxsock w' = maxsock w /\
  (forall k, k <> fd -> fdtab w' k = fdtab w k) /\
  owner (fdtab w' fd) = owner (fdtab w fd) /\
  cb_rd (fdtab w' fd) = cb_rd (fdtab w fd) /\
  cb_wr (fdtab w' fd) = cb_wr (fdtab w fd).

(** Four bytes in network order, read as an unsigned number. *)
Definition ntohl_bytes (bs : list byte) : Z :=
  fold_left (fun a b => a * 256 + Z.of_N (Byte.to_N b)) bs 0.

(** The liveness fields of a server agree: health is within its range and
    RUNNING is set exactly when health is at or above [rise]. *)
Definition well_formed (s : server) : Prop :=
  1 <= rise s /\ 1 <= fall s /\
  0 <= health s <= rise s + fall s - 1 /\
  (flag (state s) SRV_RUNNING = true <-> rise s <= health s).

(** The configuration of a server: what is left of it without the fields
    that checks.c writes. *)
Definition srv_static (s : server) : server :=
  set_result 0 (set_curfd 0 (srv_config s)).

(** The configuration of a backend: its options, its state, its request
    and its other servers. *)
Definition px_static (p : proxy) : proxy :=
  set_counts 0 0 (set_px_queue 0 [] p).

(** [tick_frame y w w']: what a call of [process_chk] made in [w] with the
    system calls [y] leaves alone in [w']. *)
Definition tick_frame (y : sys) (w w' : world) : Prop :=
  srv_static (srv w') = srv_static (srv w) /\
  px_static (px w') = px_static (px w) /\
  task w' = task w /\ maxsock w' = maxsock w /\
  (curfd (srv w') = curfd (srv w) \/ curfd (srv w') = -1 \/ curfd (srv w') = socket_ret y) /\
  (forall k, k <> curfd (srv w) -> k <> socket_ret y ->
     fdtab w' k = fdtab w k /\ os_open w' k = os_open w k).

(** An entry of [ps] has the address of [pc]. *)
Definition held (ps : list pendconn) (pc : pendconn) : bool :=
  existsb (fun p => Nat.eqb (pc_addr pc) (pc_addr p)) ps.

(** [due] as a test. *)
Definition is_due (now : Z) (w : world) : bool :=
  (curfd (srv w) <? 0) && (expire w <=? now)
  && flag (state (srv w)) SRV_CHECKED
  && negb (proxy_state_eqb (px_state (px w)) PR_STSTOPPED).

(** The probe that is started fails at once: the socket is set up and
    [bind] or [connect] refuses. *)
Definition start_refused (y : sys) (w : world) : bool :=
  usable y w
  && (bind_fails y w || (negb (connect_accepted y) && negb (connect_tolerated y))).

(** The step that a call of [process_chk] applies to the server:
    a success ([Some true]), a failure ([Some false]) or none. *)
Definition verdict (now : Z) (y : sys) (w : world) : option bool :=
  if curfd (srv w) <? 0 then
    if is_due now w && start_refused y w then Some false else None
  else if 0 <? result (srv w) then Some true
  else if (result (srv w) <? 0) || (expire w <=? now) then Some false
  else None.

Definition liveness (s : server) : Z * Z := (health s, state s).

Definition after_failure (s : server) : Z * Z :=
  if rise s <? health s then (health s - 1, state s)
  else (0, clear (state s) SRV_RUNNING).

Definition after_success (s : server) : Z * Z :=
  if rise s <=? health s + 1 then (rise s + fall s - 1, raise (state s) SRV_RUNNING)
  else (health s + 1, state s).

(** Nothing is to be done at [now]: no probe is due, or the probe that
    runs has no result and its deadline is ahead. *)
Definition quiet (now : Z) (w : world) : bool :=
  if curfd (srv w) <? 0 then negb (is_due now w)
  else (result (srv w) =? 0) && (now <? expire w).

(** The state in which [process_chk] leaves a probe that it started at
    [now]: the descriptor is registered for the task, the deadline is one
    interval ahead. *)
Definition started (now : Z) (y : sys) (w : world) : world :=
  task_queue (with_srv (set_result 0)
    (settle now (sys_close (socket_ret y) (take_over (socket_ret y) now (opened y w))))).

(** The probe can be started: it is due, the socket is set up, [bind]
    does not fail and [connect] is accepted. *)
Definition startable (now : Z) (y : sys) (w : world) : Prop :=
  0 < inter (srv w) /\ due now w /\ usable y w = true /\ bind_fails y w = false /\
  connect_accepted y = true /\ 0 <= socket_ret y.

(** The DOWN edges that are not accounted for by an ALERT message. *)
Definition unlogged_downs (w : world) : Z :=
  down_trans (srv w) - Z.of_nat (logged LOG_ALERT (trace w)).

(** ** Histories of calls *)

(** The entry points of checks.c: the scheduler calls [process_chk], the
    poller calls the two handlers. *)
Inductive action : Type :=
| Tick (now : Z) (y : sys)
| WriteEvent (fd now : Z) (y : sys)
| ReadEvent (fd : Z) (y : sys).

(** The probes that a call of [process_chk] consumes: none, or one with
    its outcome. *)
Definition outcome (v : option bool) : list bool :=
  match v with
  | Some ok => [ok]
  | None => []
  end.

(** What the liveness state machine reads and writes, and what it logs. *)
Record gauge : Type := mk_gauge {
  g_health : Z;
  g_state : Z;
  g_rise : Z;
  g_fall : Z;
  g_inter : Z;
  g_failed : Z;
  g_down : Z;
  g_alert : nat;             (* messages logged at ALERT *)
  g_notice : nat             (* messages logged at NOTICE *)
}.

Definition gauge_of (w : world) : gauge :=
  mk_gauge (health (srv w)) (state (srv w)) (rise (srv w)) (fall (srv w))
    (inter (srv w)) (failed_checks (srv w)) (down_trans (srv w))
    (logged LOG_ALERT (trace w)) (logged LOG_NOTICE (trace w)).

(** The failure step (lines 430-435 and 497-502, with [set_server_down])
    and the success step (lines 448-487), on the gauge. *)
Definition fail_step (g : gauge) : gauge :=
  if g_rise g <? g_health g then
    mk_gauge (g_health g - 1) (g_state g) (g_rise g) (g_fall g) (g_inter g)
      (g_failed g + 1) (g_down g) (g_alert g) (g_notice g)
  else
    mk_gauge 0 (clear (g_state g) SRV_RUNNING) (g_rise g) (g_fall g) (g_inter g)
      (g_failed g)
      (if g_health g =? g_rise g then g_down g + 1 else g_down g)
      (if g_health g =? g_rise g then S (g_alert g) else g_alert g)
      (g_notice g).

Definition ok_step (g : gauge) : gauge :=
  if g_rise g <=? g_health g + 1 then
    mk_gauge (g_rise g + g_fall g - 1) (raise (g_state g) SRV_RUNNING) (g_rise g)
      (g_fall g) (g_inter g) (g_failed g) (g_down g) (g_alert g)
      (if g_health g + 1 =? g_rise g then S (g_notice g) else g_notice g)
  else
    mk_gauge (g_health g + 1) (g_state g) (g_rise g) (g_fall g) (g_inter g)
      (g_failed g) (g_down g) (g_alert g) (g_notice g).

Definition probe_step (g : gauge) (ok : bool) : gauge :=
  if ok then ok_step g else fail_step g.

Definition steps (l : list bool) (g : gauge) : gauge := fold_left probe_step l g.

(** ** Descriptors that are not open *)

(** What the system calls answer on a descriptor that is not open
    (POSIX): -1, with [errno] set to EBADF. *)
Definition bad_descriptor (y : sys) : Prop :=
  connect_ret y = -1 /\ connect_errno y = EBADF /\
  send_ret y = -1 /\ send_errno y = EBADF /\
  getsockopt_ret y = -1 /\ recv_len y = -1 /\ recv_errno y = EBADF.

(** The answers [y] are those of the operating system in state [w], as far
    as the descriptor [fd] goes. *)
Definition os_answers (fd : Z) (w : world) (y : sys) : Prop :=
  os_open w fd = false -> bad_descriptor y.

(** ** Sequences of calls *)

Section Histories.

Variable dyn : server -> proxy -> Z.

(** [history w l w']: a sequence of calls of [process_chk] and of the
    handlers, each made in the state that the one before left, leads from
    [w] to [w']; [l] holds the outcomes of the probes that the calls of
    [process_chk] consume, in order. *)
Inductive history : world -> list bool -> world -> Prop :=
| history_nil (w : world) : history w [] w
| history_tick (now : Z) (y : sys) (w w1 : world) (next : Z) (l : list bool) (w' : world) :
    runs dyn now y w w1 next -> history w1 l w' ->
    history w (outcome (verdict now y w) ++ l) w'
| history_write (fd now : Z) (y : sys) (w : world) (l : list bool) (w' : world) :
    history (snd (event_srv_chk_w fd now y w)) l w' -> history w l w'
| history_read (fd : Z) (y : sys) (w : world) (l : list bool) (w' : world) :
    history (snd (event_srv_chk_r fd y w)) l w' -> history w l w'.

(** The same as a program: the calls [acts] are made one after the other,
    each call of [process_chk] with [fuel]. *)
Definition perform (fuel : nat) (a : action) (w : world) : option (world * list bool) :=
  match a with
  | Tick now y =>
      match process_chk dyn fuel now y w with
      | Some (w', _) => Some (w', outcome (verdict now y w))
      | None => None
      end
  | WriteEvent fd now y => Some (snd (event_srv_chk_w fd now y w), [])
  | ReadEvent fd y => Some (snd (event_srv_chk_r fd y w), [])
  end.

Fixpoint play (fuel : nat) (acts : list action) (w : world) : option (world * list bool) :=
  match acts with
  | [] => Some (w, [])
  | a :: rest =>
      match perform fuel a w with
      | None => None
      | Some (w1, l1) =>
          match play fuel rest w1 with
          | None => None
          | Some (w', l) => Some (w', l1 ++ l)
          end
      end
  end.

End Histories.

(** ** More states for the examples *)

(** The example backend without check option: a connection is enough. *)
Definition demo_tcp_proxy : proxy := mk_proxy 0 PR_STRUN 1 0 0 [] [] 0 [].

(** The example with a check running on the backend without check option. *)
Definition demo_tcp : world := with_px (fun _ => demo_tcp_proxy) (demo_running 0).

(** The example with an SSLv3 check running; the hello has 20 bytes. *)
Definition demo_ssl3 : world :=
  with_px (fun _ => mk_proxy PR_O_SSL3_CHK PR_STRUN 1 0 0 [] (repeat x16 20) 20 [])
    (demo_running 0).

(** [recv] fails with ECONNRESET (104) and leaves the buffer as it was. *)
Definition demo_recv_failed : sys :=
  mk_sys 5 0 0 0 0 0 18 0 0 0 (-1) 104 (bytes_of "HTTP/1.0 200 "%string).

(** The example server with an interval of 0. *)
Definition demo_no_interval : world :=
  with_srv (fun s => mk_server 1%nat (SRV_RUNNING + SRV_CHECKED) 2 2 3 0 0 (-1) 0 0 0 0 0 []
                       0 167772161 80) demo_world.

(** The example server in steady UP state. *)
Definition demo_steady : world := with_srv (set_health 4) demo_world.

(** The example server with three sessions waiting in its own queue. *)
Definition demo_queued : world := with_srv (set_queue 3 demo_queue) demo_world.

(** The system calls fail as on a descriptor that is not open. *)
Definition demo_closed : sys :=
  mk_sys 5 0 0 0 (-1) EBADF (-1) EBADF (-1) 0 (-1) EBADF [].

(** Three probes in a row on the example server: each is started by a
    call of [process_chk], fails in the write-side handler, and is
    consumed by the next call of [process_chk]. *)
Definition demo_three_probes : list action :=
  [Tick 1500 demo_sys; WriteEvent 5 1600 demo_closed; Tick 1700 demo_sys;
   Tick 3500 demo_sys; WriteEvent 5 3600 demo_closed; Tick 3700 demo_sys;
   Tick 5500 demo_sys; WriteEvent 5 5600 demo_closed; Tick 5700 demo_sys].

(** The example server fully DOWN, with a probe running and a success
    stored. *)
Definition demo_down_running : world :=
  with_srv (fun s => set_health 0 (set_state SRV_CHECKED s)) (demo_running 1).

(** The success is consumed, the next probe fails in the write-side
    handler and is consumed. *)
Definition demo_success_failure : list action :=
  [Tick 1500 demo_sys; Tick 3000 demo_sys; WriteEvent 5 3100 demo_closed;
   Tick 3200 demo_sys].

(** * Properties *)

(** ** Flag words *)

Lemma flag_clear (x m : Z) : flag (clear x m) m = false.
Proof.
  unfold flag, clear.
  rewrite <- Z.land_assoc, (Z.land_comm (Z.lnot m) m), Z.land_lnot_diag, Z.land_0_r.
  reflexivity.
Qed.

Lemma land_clear (x m : Z) : Z.land (clear x m) m = 0.
Proof.
  unfold clear.
  now rewrite <- Z.land_assoc, (Z.land_comm (Z.lnot m) m), Z.land_lnot_diag, Z.land_0_r.
Qed.

Lemma clear_idem (x m : Z) : clear (clear x m) m = clear x m.
Proof. unfold clear. now rewrite <- Z.land_assoc, Z.land_diag. Qed.

Lemma clear_part (x m k : Z) : Z.land m k = k -> Z.land (clear x m) k = 0.
Proof.
  intros H. unfold clear. rewrite <- H.
  rewrite Z.land_assoc, <- (Z.land_assoc x), (Z.land_comm (Z.lnot m) m).
  now rewrite Z.land_lnot_diag, Z.land_0_r, Z.land_0_l.
Qed.

Lemma flag_raise (x m : Z) : m <> 0 -> flag (raise x m) m = true.
Proof.
  intros H. unfold flag, raise.
  assert (E : Z.land (Z.lor x m) m = m).
  { apply Z.bits_inj'. intros n _.
    rewrite Z.land_spec, Z.lor_spec.
    destruct (Z.testbit x n), (Z.testbit m n); reflexivity. }
  rewrite E. apply negb_true_iff, Z.eqb_neq, H.
Qed.

Lemma flag_clear_other (x m k : Z) :
  Z.land m k = 0 -> flag (clear x m) k = flag x k.
Proof.
  intros H. unfold flag, clear. f_equal. f_equal.
  apply Z.bits_inj'. intros n Hn.
  rewrite !Z.land_spec, Z.lnot_spec by exact Hn.
  assert (B : Z.testbit (Z.land m k) n = false) by (rewrite H; apply Z.bits_0).
  rewrite Z.land_spec in B.
  destruct (Z.testbit x n), (Z.testbit m n), (Z.testbit k n); simpl in *; congruence.
Qed.

(** ** The reply classification *)

Lemma bytes_eqb_eq (a b : list byte) : bytes_eqb a b = true <-> a = b.
Proof.
  revert b. induction a as [|x a IH]; intros [|y b]; simpl; split;
    try congruence; try reflexivity.
  - intros H. apply andb_true_iff in H as [H1 H2].
    apply Byte.byte_dec_bl in H1. apply IH in H2. congruence.
  - intros H. injection H as -> ->. apply andb_true_iff. split.
    + apply Byte.byte_dec_lb. reflexivity.
    + apply IH. reflexivity.
Qed.

Lemma byte_eqb_eq (x y : byte) : Byte.eqb x y = true <-> x = y.
Proof.
  split; [apply Byte.byte_dec_bl | apply Byte.byte_dec_lb].
Qed.

(** C5 (amended). The local [result] of the read-side handler is success
    exactly in three cases: the backend has HTTP_CHK, at least
    [sizeof("HTTP/1.0 000")] = 13 bytes were read (the twelve characters
    and one more), the first seven are "HTTP/1." and the byte at offset 9
    is '2' or '3'; or the backend has SSL3_CHK, at least 5 bytes were read
    and byte 0 is 0x15 or 0x16; or the backend has SMTP_CHK, at least 3
    bytes were read and byte 0 is '2'. Every other reply is a failure. *)
Theorem classify_reply (options len : Z) (reply : list byte) :
  0 <= len <= 64 ->
  (classify options len reply = 1 <->
     (flag options PR_O_HTTP_CHK = true /\ 13 <= len /\
      firstn 7 reply = bytes_of "HTTP/1."%string /\
      (byte_at reply 9 = "2"%byte \/ byte_at reply 9 = "3"%byte))
     \/ (flag options PR_O_SSL3_CHK = true /\ 5 <= len /\
         (byte_at reply 0 = x15 \/ byte_at reply 0 = x16))
     \/ (flag options PR_O_SMTP_CHK = true /\ 3 <= len /\
         byte_at reply 0 = "2"%byte))
  /\ (classify options len reply <> 1 -> classify options len reply = -1).
Proof.
  intros Hlen.
  assert (Hs : to_size_t len = len).
  { unfold to_size_t. apply Z.mod_small. lia. }
  assert (H13 : sizeof_status = 13) by reflexivity.
  unfold classify. rewrite Hs, H13.
  set (A := flag options PR_O_HTTP_CHK && (13 <=? len)
            && bytes_eqb (firstn 7 reply) (bytes_of "HTTP/1."%string)
            && (Byte.eqb (byte_at reply 9) "2"%byte || Byte.eqb (byte_at reply 9) "3"%byte)).
  set (B := flag options PR_O_SSL3_CHK && (5 <=? len)
            && (Byte.eqb (byte_at reply 0) x15 || Byte.eqb (byte_at reply 0) x16)).
  set (C := flag options PR_O_SMTP_CHK && (3 <=? len)
            && Byte.eqb (byte_at reply 0) "2"%byte).
  assert (HA : A = true <->
               flag options PR_O_HTTP_CHK = true /\ 13 <= len /\
               firstn 7 reply = bytes_of "HTTP/1."%string /\
               (byte_at reply 9 = "2"%byte \/ byte_at reply 9 = "3"%byte)).
  { unfold A. rewrite !andb_true_iff, orb_true_iff, Z.leb_le, bytes_eqb_eq, !byte_eqb_eq.
    tauto. }
  assert (HB : B = true <->
               flag options PR_O_SSL3_CHK = true /\ 5 <= len /\
               (byte_at reply 0 = x15 \/ byte_at reply 0 = x16)).
  { unfold B. rewrite !andb_true_iff, orb_true_iff, Z.leb_le, !byte_eqb_eq. tauto. }
  assert (HC : C = true <->
               flag options PR_O_SMTP_CHK = true /\ 3 <= len /\
               byte_at reply 0 = "2"%byte).
  { unfold C. rewrite !andb_true_iff, Z.leb_le, byte_eqb_eq. tauto. }
  rewrite <- HA, <- HB, <- HC.
  destruct A, B, C; (split; [split; [intros E | intros E] | intros E]);
    try reflexivity; try tauto; try discriminate;
    try (destruct E as [E|[E|E]]; discriminate).
Qed.

Lemma classify_reply_witness :
  0 <= 13 <= 64 /\
  classify PR_O_HTTP_CHK 13 (bytes_of "HTTP/1.0 302 "%string) = 1.
Proof.
  split; [lia|].
  apply (proj1 (classify_reply PR_O_HTTP_CHK 13 (bytes_of "HTTP/1.0 302 "%string)
                  ltac:(lia))).
  left. split; [reflexivity|]. split; [lia|]. split; [reflexivity|].
  right. reflexivity.
Defined.

(** C5 as stated fails: a reply of exactly the twelve bytes
    "HTTP/1.0 200" meets the three conditions of the claim for an HTTP
    check (length at least the length of "HTTP/1.0 000", prefix
    "HTTP/1.", '2' at offset 9) and is classified as a failure. *)
Lemma classify_twelve_bytes :
  Z.of_nat (length (bytes_of "HTTP/1.0 000"%string)) <= 12 /\
  firstn 7 (bytes_of "HTTP/1.0 200"%string) = bytes_of "HTTP/1."%string /\
  byte_at (bytes_of "HTTP/1.0 200"%string) 9 = "2"%byte /\
  classify PR_O_HTTP_CHK 12 (bytes_of "HTTP/1.0 200"%string) = -1.
Proof.
  split; [simpl; lia|]. repeat split; reflexivity.
Qed.

(** The edge cases of section 8. *)
Example classify_404 :
  classify PR_O_HTTP_CHK 22 (bytes_of "HTTP/1.1 404 Not Found"%string) = -1.
Proof. reflexivity. Qed.

Example classify_302 :
  classify PR_O_HTTP_CHK 13 (bytes_of "HTTP/1.0 302 "%string) = 1.
Proof. reflexivity. Qed.

Example classify_ssl3_short :
  classify PR_O_SSL3_CHK 4 [x16; x03; x00; x00] = -1.
Proof. reflexivity. Qed.

Example classify_ssl3_handshake :
  classify PR_O_SSL3_CHK 5 [x16; x03; x00; x00; x2a] = 1.
Proof. reflexivity. Qed.

Example classify_smtp_short :
  classify PR_O_SMTP_CHK 1 (bytes_of "2"%string) = -1.
Proof. reflexivity. Qed.

Example classify_smtp_banner :
  classify PR_O_SMTP_CHK 8 (bytes_of "220 mail"%string) = 1.
Proof. reflexivity. Qed.

(** ** The result of a probe under the read-side handler *)

Lemma write_side_keeps_failure (fd now : Z) (y : sys) (w : world) :
  result (srv w) = -1 ->
  result (srv (snd (event_srv_chk_w fd now y w))) = -1.
Proof.
  intros H. unfold event_srv_chk_w.
  destruct (fd_state_eqb (fdst (fdtab w fd)) FD_STERROR || flag (ev (fdtab w fd)) FD_POLL_ERR);
    [reflexivity|].
  rewrite H. exact H.
Qed.

(** C6 (amended). Neither handler replaces a failure stored in [result]:
    a result equal to failure stays failure across the write-side handler
    and across the read-side handler, whatever is read. A result other
    than failure is replaced by the classification of the reply when the
    read-side handler classifies one (no descriptor error, no EAGAIN); in
    particular a stored success is replaced by failure when the reply
    classifies as failure. *)
Theorem result_gate (fd : Z) (y : sys) (w : world) :
  (result (srv w) = -1 ->
   result (srv (snd (event_srv_chk_r fd y w))) = -1 /\
   forall now, result (srv (snd (event_srv_chk_w fd now y w))) = -1)
  /\ (result (srv w) <> -1 -> read_error fd y w = false -> read_again y = false ->
      result (srv (snd (event_srv_chk_r fd y w)))
      = classify (px_options (px w)) (recv_len y) (recv_reply y)).
Proof.
  split.
  - intros H. split.
    + unfold event_srv_chk_r.
      destruct (read_error fd y w); [reflexivity|].
      destruct (read_again y); [exact H|].
      destruct (classify (px_options (px w)) (recv_len y) (recv_reply y) =? -1);
        cbn; rewrite H; cbn; exact H.
    + intros now. apply write_side_keeps_failure, H.
  - intros H He Ha. unfold event_srv_chk_r. rewrite He, Ha.
    apply Z.eqb_neq in H.
    destruct (classify (px_options (px w)) (recv_len y) (recv_reply y) =? -1);
      cbn; rewrite H; reflexivity.
Qed.

Lemma result_gate_witness :
  result (srv (demo_running 0)) <> -1 /\
  read_error 5 demo_sys (demo_running 0) = false /\
  read_again demo_sys = false /\
  result (srv (snd (event_srv_chk_r 5 demo_sys (demo_running 0)))) = 1 /\
  (result (srv (demo_running (-1))) = -1 /\
   result (srv (snd (event_srv_chk_r 5 demo_sys (demo_running (-1))))) = -1).
Proof.
  assert (H0 : result (srv (demo_running 0)) <> -1) by (cbn; lia).
  split; [exact H0|]. split; [reflexivity|]. split; [reflexivity|].
  split.
  - exact (proj2 (result_gate 5 demo_sys (demo_running 0)) H0 eq_refl eq_refl).
  - split; [reflexivity|].
    exact (proj1 (proj1 (result_gate 5 demo_sys (demo_running (-1))) eq_refl)).
Defined.

(** C6 as stated fails: with a success stored in [result], a reply that
    classifies as failure ("HTTP/1.1 404 ") leaves [result] at failure. *)
Lemma read_side_overwrites_success :
  let y := mk_sys 5 0 0 0 0 0 18 0 0 0 13 0 (bytes_of "HTTP/1.1 404 "%string) in
  result (srv (demo_running 1)) = 1 /\
  classify (px_options (px (demo_running 1))) (recv_len y) (recv_reply y) = -1 /\
  result (srv (snd (event_srv_chk_r 5 y (demo_running 1)))) = -1.
Proof.
  repeat split; reflexivity.
Qed.

(** A bare TCP check: the connection is there, the probe succeeds. *)
Example write_side_tcp_success :
  let w := with_px (fun p => mk_proxy 0 PR_STRUN 1 0 0 [] [] 0 []) (demo_running 0) in
  result (srv (snd (event_srv_chk_w 5 1500 demo_sys w))) = 1 /\
  fst (event_srv_chk_w 5 1500 demo_sys w) = 1.
Proof. split; reflexivity. Qed.

(** An HTTP check: the request is sent, the reply is awaited. *)
Example write_side_http_sent :
  result (srv (snd (event_srv_chk_w 5 1500 demo_sys (demo_running 0)))) = 0 /\
  poll_rd (fdtab (snd (event_srv_chk_w 5 1500 demo_sys (demo_running 0))) 5) = true /\
  trace (snd (event_srv_chk_w 5 1500 demo_sys (demo_running 0))) = [].
Proof. repeat split; reflexivity. Qed.

(** ** What the queue loops leave alone *)

Lemma same_frame_refl (w : world) : same_frame w w.
Proof. repeat split. Qed.

Lemma same_frame_trans (a b c : world) :
  same_frame a b -> same_frame b c -> same_frame a c.
Proof.
  intros (H1 & H2 & H3 & H4 & H5 & H6 & H7) (G1 & G2 & G3 & G4 & G5 & G6 & G7).
  repeat split; congruence.
Qed.

Lemma same_frame_srv (w w' : world) (f : server -> Z) :
  (forall s, f (set_queue 0 [] s) = f s) ->
  same_frame w w' -> f (srv w') = f (srv w).
Proof.
  intros Hf (H & _). rewrite <- (Hf (srv w')), <- (Hf (srv w)). now rewrite H.
Qed.

Lemma same_frame_px (w w' : world) (A : Type) (f : proxy -> A) :
  (forall p, f (set_px_queue 0 [] p) = f p) ->
  same_frame w w' -> f (px w') = f (px w).
Proof.
  intros Hf (_ & H & _). rewrite <- (Hf (px w')), <- (Hf (px w)). now rewrite H.
Qed.

Lemma pendconn_free_frame (p : pendconn) (w : world) :
  same_frame w (pendconn_free p w).
Proof. repeat split. Qed.

Lemma with_session_frame (a : nat) (f : session -> session) (w : world) :
  same_frame w (with_session a f w).
Proof. repeat split. Qed.

Lemma emit_frame (e : event) (w : world) : same_frame w (emit e w).
Proof. repeat split. Qed.

(** ** The rescue loop of set_server_down in closed form *)

Lemma unstick_idem (x : session) : unstick (unstick x) = unstick x.
Proof.
  unfold unstick, http_flush_cookie_flags, set_sess_srv, set_sess_flags; cbn.
  now rewrite clear_idem.
Qed.

Lemma redispatch_spec (pcs : list pendconn) : forall (x : Z) (w : world),
  let r := redispatch pcs x w in
  let f := freed w pcs in
  fst r = x + Z.of_nat (length f) /\
  same_frame w (snd r) /\
  pendconns (srv (snd r)) = unlink_all f (pendconns (srv w)) /\
  px_pendconns (px (snd r)) = unlink_all f (px_pendconns (px w)) /\
  nbpend (srv (snd r)) - Z.of_nat (length (pendconns (srv (snd r))))
    = nbpend (srv w) - Z.of_nat (length (pendconns (srv w))) /\
  px_nbpend (px (snd r)) - Z.of_nat (length (px_pendconns (px (snd r))))
    = px_nbpend (px w) - Z.of_nat (length (px_pendconns (px w))) /\
  trace (snd r) = trace w ++ wakeups w f /\
  (forall a, sessions (snd r) a
             = if names f a then unstick (sessions w a) else sessions w a).
Proof.
  induction pcs as [|pc rest IH]; intros x w; cbn zeta.
  - cbn. rewrite Z.add_0_r, app_nil_r.
    repeat split; reflexivity.
  - cbn [redispatch freed filter].
    destruct (redispatchable w pc) eqn:Er.
    + set (w3 := task_wakeup _ _).
      specialize (IH (x + 1) w3). cbn zeta in IH.
      assert (Hb : forall a, sess_be_options (sessions w3 a) = sess_be_options (sessions w a)).
      { intros a. subst w3. cbn. destruct (Nat.eqb a (pc_sess pc)) eqn:E; [|reflexivity].
        apply Nat.eqb_eq in E. subst a. reflexivity. }
      assert (Ht : forall a, sess_task (sessions w3 a) = sess_task (sessions w a)).
      { intros a. subst w3. cbn. destruct (Nat.eqb a (pc_sess pc)) eqn:E; [|reflexivity].
        apply Nat.eqb_eq in E. subst a. reflexivity. }
      assert (Hf : freed w3 rest = freed w rest).
      { unfold freed. apply filter_ext. intros q. unfold redispatchable. now rewrite Hb. }
      assert (Hw : forall ps, wakeups w3 ps = wakeups w ps).
      { intros ps. unfold wakeups. apply map_ext. intros q. now rewrite Ht. }
      rewrite Hf, Hw in IH. fold (freed w rest).
      destruct IH as (I1 & I2 & I3 & I4 & I5 & I6 & I7 & I8).
      split; [rewrite I1; cbn [length]; lia|].
      split; [eapply same_frame_trans; [|exact I2]; subst w3; repeat split|].
      split; [rewrite I3; reflexivity|].
      split; [rewrite I4; reflexivity|].
      split; [rewrite I5; subst w3; cbn; unfold removed; lia|].
      split; [rewrite I6; subst w3; cbn; unfold removed; lia|].
      split.
      * rewrite I7. subst w3. cbn. rewrite Nat.eqb_refl. cbn.
        rewrite <- app_assoc. reflexivity.
      * intros a. rewrite I8. cbn [names existsb].
        fold (names (freed w rest) a).
        subst w3. cbn. rewrite (Nat.eqb_sym (pc_sess pc) a).
        destruct (Nat.eqb a (pc_sess pc)) eqn:E; cbn [orb].
        -- apply Nat.eqb_eq in E. subst a.
           destruct (names (freed w rest) (pc_sess pc)); [apply unstick_idem | reflexivity].
        -- reflexivity.
    + fold (freed w rest). apply IH.
Qed.

(** ** set_server_down *)

Lemma set_server_down_quiet (w : world) :
  health (srv w) <> rise (srv w) ->
  set_server_down w
  = with_srv (fun s => set_health 0 (set_state (clear (state s) SRV_RUNNING) s)) w.
Proof.
  intros H. unfold set_server_down. cbn.
  apply Z.eqb_neq in H. rewrite H. reflexivity.
Qed.

Lemma set_server_down_edge (w : world) :
  health (srv w) = rise (srv w) ->
  let w' := set_server_down w in
  let act := count_running false (states_after_down w) in
  let bck := count_running true (states_after_down w) in
  let m := MsgServerDown (flag (state (srv w)) SRV_BACKUP) act bck
             (negb (bck =? 0) && (act =? 0)) (cur_sess (srv w))
             (Z.of_nat (length (rescued w))) (nbpend (srv w')) in
  set_queue 0 [] (srv w')
  = set_queue 0 []
      (set_health 0 (set_down_trans (down_trans (srv w) + 1)
         (set_state (clear (state (srv w)) SRV_RUNNING) (srv w)))) /\
  set_px_queue 0 [] (px w') = set_px_queue 0 [] (set_counts act bck (px w)) /\
  pendconns (srv w') = unlink_all (rescued w) (pendconns (srv w)) /\
  px_pendconns (px w') = unlink_all (rescued w) (px_pendconns (px w)) /\
  nbpend (srv w') - Z.of_nat (length (pendconns (srv w')))
    = nbpend (srv w) - Z.of_nat (length (pendconns (srv w))) /\
  (forall a, sessions w' a
             = if names (rescued w) a then unstick (sessions w a) else sessions w a) /\
  trace w' = trace w ++ [EvRecount; EvRecalcMap] ++ wakeups w (rescued w)
             ++ [EvWarning m; EvSendLog LOG_ALERT m]
             ++ (if emptied w
                 then [EvAlert MsgNoServer; EvSendLog LOG_EMERG MsgNoServer]
                 else []) /\
  task w' = task w /\ expire w' = expire w /\ fdtab w' = fdtab w /\
  os_open w' = os_open w /\ maxsock w' = maxsock w.
Proof.
  intros H. cbn zeta. unfold set_server_down. cbn [with_srv srv health set_state rise].
  rewrite H, Z.eqb_refl.
  set (w1 := with_srv (fun s => set_state (clear (state s) SRV_RUNNING) s) w).
  set (w2 := recalc_server_map (recount_servers w1)).
  pose proof (redispatch_spec (pendconns (srv w2)) 0 w2) as R. cbn zeta in R.
  change (freed w2 (pendconns (srv w2))) with (rescued w) in R.
  change (wakeups w2 (rescued w)) with (wakeups w (rescued w)) in R.
  set (r := redispatch (pendconns (srv w2)) 0 w2) in *.
  destruct R as (R1 & R2 & R3 & R4 & R5 & R6 & R7 & R8).
  set (w4 := send_log LOG_ALERT _ _).
  assert (Ebck : srv_bck (px w4) = count_running true (states_after_down w)).
  { change (srv_bck (px w4)) with (srv_bck (px (snd r))).
    rewrite (same_frame_px w2 (snd r) Z srv_bck (fun p => eq_refl) R2). reflexivity. }
  assert (Eact : srv_act (px w4) = count_running false (states_after_down w)).
  { change (srv_act (px w4)) with (srv_act (px (snd r))).
    rewrite (same_frame_px w2 (snd r) Z srv_act (fun p => eq_refl) R2). reflexivity. }
  rewrite Ebck, Eact. fold (emptied w).
  destruct R2 as (Q1 & Q2 & Q3 & Q4 & Q5 & Q6 & Q7).
  assert (G1 : forall X Y, set_queue 0 [] X = set_queue 0 [] Y ->
               set_queue 0 [] (set_health 0 (set_down_trans (down_trans X + 1) X))
               = set_queue 0 [] (set_health 0 (set_down_trans (down_trans Y + 1) Y))).
  { intros X Y E.
    change (set_health 0 (set_down_trans (down_trans (set_queue 0 [] X) + 1) (set_queue 0 [] X))
            = set_health 0 (set_down_trans (down_trans (set_queue 0 [] Y) + 1) (set_queue 0 [] Y))).
    now rewrite E. }
  assert (Est : state (srv (snd r)) = clear (state (srv w)) SRV_RUNNING)
    by exact (f_equal state Q1).
  assert (Ecs : cur_sess (srv (snd r)) = cur_sess (srv w))
    by exact (f_equal cur_sess Q1).
  change (srv_bck (px w4)) with (srv_bck (px (snd r))) in Ebck.
  change (srv_act (px w4)) with (srv_act (px (snd r))) in Eact.
  destruct (emptied w) eqn:Ee.
  - split; [apply (G1 (srv (snd r)) (srv w2) Q1)|].
    split; [exact Q2|].
    split; [exact R3|]. split; [exact R4|]. split; [exact R5|].
    split; [exact R8|].
    split.
    + unfold w4, send_log, Warning, Alert, emit, with_srv, down_msg. cbn [trace srv px].
      rewrite R7, Est, Ecs, Ebck, Eact, R1, flag_clear_other by reflexivity.
      cbn [trace w2 w1 recalc_server_map recount_servers emit with_px with_srv].
      rewrite <- !app_assoc. reflexivity.
    + repeat split; assumption.
  - split; [apply (G1 (srv (snd r)) (srv w2) Q1)|].
    split; [exact Q2|].
    split; [exact R3|]. split; [exact R4|]. split; [exact R5|].
    split; [exact R8|].
    split.
    + unfold w4, send_log, Warning, Alert, emit, with_srv, down_msg. cbn [trace srv px].
      rewrite R7, Est, Ecs, Ebck, Eact, R1, flag_clear_other by reflexivity.
      cbn [trace w2 w1 recalc_server_map recount_servers emit with_px with_srv].
      rewrite <- !app_assoc. reflexivity.
    + repeat split; assumption.
Qed.

(** ** The deadline loop *)

Lemma lag_nonneg (now step e : Z) : 0 < step -> 0 <= lag now step e.
Proof.
  intros H. unfold lag. destruct (e <=? now) eqn:E; [|lia].
  apply Z.leb_le in E. assert (0 <= (now - e) / step) by (apply Z.div_pos; lia). lia.
Qed.

Lemma lag_late (now step e : Z) : 0 < step -> e <= now -> 1 <= lag now step e.
Proof.
  intros H E. unfold lag. apply Z.leb_le in E. rewrite E. apply Z.leb_le in E.
  assert (0 <= (now - e) / step) by (apply Z.div_pos; lia). lia.
Qed.

Lemma lag_early (now step e : Z) : now < e -> lag now step e = 0.
Proof. intros E. unfold lag. apply Z.leb_gt in E. now rewrite E. Qed.

Lemma lag_past (now step e : Z) : 0 < step -> now < e + lag now step e * step.
Proof.
  intros H. unfold lag. destruct (e <=? now) eqn:E.
  - apply Z.leb_le in E.
    pose proof (Z.mod_pos_bound (now - e) step H).
    pose proof (Z.div_mod (now - e) step). nia.
  - apply Z.leb_gt in E. lia.
Qed.

Lemma lag_least (now step e : Z) :
  0 < step -> e <= now -> e + (lag now step e - 1) * step <= now.
Proof.
  intros H E. unfold lag. apply Z.leb_le in E. rewrite E. apply Z.leb_le in E.
  pose proof (Z.mod_pos_bound (now - e) step H).
  pose proof (Z.div_mod (now - e) step). nia.
Qed.

Lemma lag_step (now step e : Z) :
  0 < step -> e <= now -> lag now step (e + step) = lag now step e - 1.
Proof.
  intros H E. unfold lag.
  apply Z.leb_le in E. rewrite E. apply Z.leb_le in E.
  destruct (e + step <=? now) eqn:E'.
  - apply Z.leb_le in E'.
    replace (now - (e + step)) with (now - e + (-1) * step) by lia.
    rewrite Z.div_add by lia. lia.
  - apply Z.leb_gt in E'. rewrite Z.div_small by lia. lia.
Qed.

Lemma advance_lag (now step : Z) : 0 < step ->
  forall (n : nat) (e : Z), Z.to_nat (lag now step e) = n ->
  forall fuel, (n <= fuel)%nat ->
  advance fuel now step e = Some (e + lag now step e * step).
Proof.
  intros H. induction n as [|n IH]; intros e Hn fuel Hf.
  - assert (L : lag now step e = 0) by (pose proof (lag_nonneg now step e H); lia).
    assert (E : now < e).
    { destruct (Z_lt_le_dec now e) as [G|G]; [exact G|].
      pose proof (lag_late now step e H G). lia. }
    rewrite L, Z.mul_0_l, Z.add_0_r.
    apply Z.leb_gt in E.
    destruct fuel; cbn [advance]; unfold tv_isle; rewrite E; reflexivity.
  - assert (E : e <= now).
    { destruct (Z_lt_le_dec now e) as [G|G]; [|exact G].
      rewrite (lag_early now step e G) in Hn. discriminate. }
    destruct fuel as [|f]; [lia|].
    cbn [advance]. unfold tv_isle, tv_ms_add.
    apply Z.leb_le in E. rewrite E. apply Z.leb_le in E.
    rewrite (IH (e + step)).
    + f_equal. rewrite (lag_step now step e H E). lia.
    + rewrite (lag_step now step e H E). lia.
    + lia.
Qed.

(** ** The fields the state machine leaves alone *)

Lemma srv_config_of_frame (s s' : server) :
  set_queue 0 [] s' = set_queue 0 [] s -> srv_config s' = srv_config s.
Proof.
  intros H.
  change (set_health 0 (set_state 0 (set_failed_checks 0 (set_down_trans 0 (set_queue 0 [] s'))))
          = set_health 0 (set_state 0 (set_failed_checks 0 (set_down_trans 0 (set_queue 0 [] s))))).
  now rewrite H.
Qed.

Lemma chk_failure_config (w : world) :
  srv_config (srv (chk_failure w)) = srv_config (srv w) /\
  task (chk_failure w) = task w /\ expire (chk_failure w) = expire w /\
  fdtab (chk_failure w) = fdtab w /\ os_open (chk_failure w) = os_open w /\
  maxsock (chk_failure w) = maxsock w.
Proof.
  unfold chk_failure. destruct (rise (srv w) <? health (srv w)).
  - repeat split.
  - destruct (Z.eq_dec (health (srv w)) (rise (srv w))) as [E|E].
    + destruct (set_server_down_edge w E) as (H1 & _ & _ & _ & _ & _ & _ & H).
      split; [|exact H].
      rewrite (srv_config_of_frame _ _ H1). reflexivity.
    + rewrite (set_server_down_quiet w E). repeat split.
Qed.

Lemma chk_failure_inter (w : world) : inter (srv (chk_failure w)) = inter (srv w).
Proof. exact (f_equal inter (proj1 (chk_failure_config w))). Qed.

Lemma chk_failure_curfd (w : world) : curfd (srv (chk_failure w)) = curfd (srv w).
Proof. exact (f_equal curfd (proj1 (chk_failure_config w))). Qed.

Lemma chk_failure_result (w : world) : result (srv (chk_failure w)) = result (srv w).
Proof. exact (f_equal result (proj1 (chk_failure_config w))). Qed.

Section Ticks.

Variable dyn : server -> proxy -> Z.

Lemma rephase_settles (now : Z) (w : world) :
  0 < inter (srv w) ->
  forall fuel, (Z.to_nat (lag now (inter (srv w)) (expire w)) <= fuel)%nat ->
  rephase fuel now w = Some (Again (settle now w)).
Proof.
  intros H fuel Hf. unfold rephase.
  rewrite (advance_lag now (inter (srv w)) H _ (expire w) eq_refl fuel Hf).
  reflexivity.
Qed.

Lemma settle_future (now : Z) (w : world) :
  0 < inter (srv w) -> now < expire (settle now w).
Proof. intros H. cbn. apply lag_past, H. Qed.

Lemma pass_idle (fuel : nat) (now : Z) (y : sys) (w : world) :
  curfd (srv w) < 0 -> now < expire w ->
  pass dyn fuel now y w = Some (Out (task_queue w) (expire w)).
Proof.
  intros Hc He. unfold pass, tv_isle.
  apply Z.ltb_lt in Hc. rewrite Hc.
  apply Z.leb_gt in He. rewrite He. reflexivity.
Qed.

Lemma runs_rephased (now : Z) (y : sys) (w w1 : world) :
  0 < inter (srv w1) -> curfd (srv w1) < 0 ->
  (forall fuel, pass dyn fuel now y w = rephase fuel now w1) ->
  runs dyn now y w (task_queue (settle now w1)) (expire (settle now w1)).
Proof.
  intros Hi Hc Hp.
  exists (S (S (Z.to_nat (lag now (inter (srv w1)) (expire w1))))).
  intros fuel Hf. destruct fuel as [|f]; [lia|].
  cbn [process_chk]. rewrite Hp, (rephase_settles now w1 Hi) by lia.
  destruct f as [|f']; [lia|].
  cbn [process_chk].
  rewrite (pass_idle f' now y (settle now w1) Hc (settle_future now w1 Hi)).
  reflexivity.
Qed.

Lemma runs_unique (now : Z) (y : sys) (w w1 w2 : world) (n1 n2 : Z) :
  runs dyn now y w w1 n1 -> runs dyn now y w w2 n2 -> w1 = w2 /\ n1 = n2.
Proof.
  intros [a Ha] [b Hb].
  specialize (Ha (a + b)%nat ltac:(lia)). specialize (Hb (a + b)%nat ltac:(lia)).
  rewrite Ha in Hb. injection Hb as -> ->. split; reflexivity.
Qed.

(** A check is running and is over by failure or by time (lines 494-507). *)
Lemma tick_failure (now : Z) (y : sys) (w : world) :
  0 < inter (srv w) -> 0 <= curfd (srv w) -> result (srv w) <= 0 ->
  result (srv w) < 0 \/ expire w <= now ->
  runs dyn now y w
    (task_queue (settle now (release (curfd (srv w)) (chk_failure w))))
    (expire (settle now (release (curfd (srv w)) (chk_failure w)))).
Proof.
  intros Hi Hc Hr Ho.
  destruct (chk_failure_config w) as (C1 & C2 & C3 & C4 & C5 & C6).
  apply runs_rephased.
  - cbn. rewrite chk_failure_inter. exact Hi.
  - cbn. lia.
  - intros fuel. unfold pass.
    assert (E1 : (curfd (srv w) <? 0) = false) by (apply Z.ltb_ge; lia).
    assert (E2 : (0 <? result (srv w)) = false) by (apply Z.ltb_ge; lia).
    assert (E3 : (result (srv w) <? 0) || tv_isle (expire w) now = true).
    { apply orb_true_iff. unfold tv_isle.
      destruct Ho; [left; apply Z.ltb_lt | right; apply Z.leb_le]; assumption. }
    rewrite E1, E2, E3. reflexivity.
Qed.

(** A check is running and no result came yet (lines 509-514). *)
Lemma tick_wait (now : Z) (y : sys) (w : world) :
  0 <= curfd (srv w) -> result (srv w) = 0 -> now < expire w ->
  runs dyn now y w (task_queue (with_srv (set_result 0) w)) (expire w).
Proof.
  intros Hc Hr He. exists 1%nat. intros fuel Hf.
  destruct fuel as [|f]; [lia|]. cbn [process_chk]. unfold pass, tv_isle.
  assert (E1 : (curfd (srv w) <? 0) = false) by (apply Z.ltb_ge; lia).
  apply Z.leb_gt in He.
  rewrite E1, Hr, He. reflexivity.
Qed.

(** No check is running and the deadline is ahead (lines 291-295). *)
Lemma tick_early (now : Z) (y : sys) (w : world) :
  curfd (srv w) < 0 -> now < expire w ->
  runs dyn now y w (task_queue w) (expire w).
Proof.
  intros Hc He. exists 1%nat. intros fuel Hf.
  destruct fuel as [|f]; [lia|]. cbn [process_chk].
  rewrite (pass_idle f now y w Hc He). reflexivity.
Qed.

End Ticks.

(** ** Lists of pending connections *)

Lemma clear_absent (x m : Z) : flag x m = false -> clear x m = x.
Proof.
  unfold flag, clear. intros H. apply negb_false_iff, Z.eqb_eq in H.
  apply Z.bits_inj'. intros n Hn.
  rewrite Z.land_spec, Z.lnot_spec by exact Hn.
  assert (B : Z.testbit (Z.land x m) n = false) by (rewrite H; apply Z.bits_0).
  rewrite Z.land_spec in B.
  destruct (Z.testbit x n), (Z.testbit m n); simpl in *; congruence.
Qed.

Lemma unlink_all_in (ps : list pendconn) : forall (q : list pendconn) (x : pendconn),
  In x (unlink_all ps q) ->
  In x q /\ forall p, In p ps -> pc_addr x <> pc_addr p.
Proof.
  induction ps as [|p ps IH]; intros q x H; cbn in H.
  - split; [exact H | intros p []].
  - apply IH in H as [H1 H2]. unfold unlink in H1.
    apply filter_In in H1 as [H1 H3].
    split; [exact H1|].
    intros p' [<-|Hp]; [|apply H2, Hp].
    apply negb_true_iff, Nat.eqb_neq in H3. exact H3.
Qed.

Lemma names_in (ps : list pendconn) (pc : pendconn) :
  In pc ps -> names ps (pc_sess pc) = true.
Proof.
  intros H. unfold names. apply existsb_exists. exists pc.
  split; [exact H | apply Nat.eqb_refl].
Qed.

Lemma names_out (ps : list pendconn) (a : nat) :
  (forall pc, In pc ps -> pc_sess pc <> a) -> names ps a = false.
Proof.
  intros H. unfold names.
  destruct (existsb (fun pc => Nat.eqb (pc_sess pc) a) ps) eqn:E; [|reflexivity].
  apply existsb_exists in E as (pc & Hin & Heq).
  apply Nat.eqb_eq in Heq. exfalso. exact (H pc Hin Heq).
Qed.

Lemma unstick_flags (x : session) :
  Z.land (sess_flags (unstick x)) SN_DIRECT = 0 /\
  Z.land (sess_flags (unstick x)) SN_ASSIGNED = 0 /\
  Z.land (sess_flags (unstick x)) SN_ADDR_SET = 0 /\
  sess_srv (unstick x) = None /\
  sess_txn_cookie (unstick x) = false /\
  sess_task (unstick x) = sess_task x /\
  sess_be_options (unstick x) = sess_be_options x.
Proof.
  cbn. repeat split; apply clear_part; reflexivity.
Qed.

(** ** A failed probe is consumed *)

Section Consumed.

Variable dyn : server -> proxy -> Z.

(** C2 (amended). When the scheduler consumes a running probe whose result
    is failure, or whose result is still unset and whose deadline has
    passed ([expire <= now]), the call returns and, apart from the release
    of the probe's descriptor and the re-queueing of the task:
    - if [health > rise], health is decremented, [failed_checks] is
      incremented and nothing else changes;
    - if [health == rise], a DOWN edge is taken once: RUNNING is cleared,
      health is 0, the servers are recounted and the map recomputed (one
      call each), every entry of the server's queue whose session's
      backend has REDISP has its session's DIRECT, ASSIGNED and ADDR_SET
      flags cleared, its server cleared, its cookie state invalidated, is
      out of the queue, and its session's task is woken; the other
      sessions are untouched; one message is logged at ALERT, one more
      at EMERG exactly when the recount leaves no active and no backup
      server, and [down_trans] is incremented;
    - if [health < rise], health ends at 0 and there is no edge effect.
    (A probe whose result is success is consumed as a success even when
    its deadline has passed.) *)
Theorem failure_consumed (now : Z) (y : sys) (w : world) :
  0 < inter (srv w) -> 0 <= curfd (srv w) ->
  result (srv w) < 0 \/ (result (srv w) = 0 /\ expire w <= now) ->
  exists w' next, runs dyn now y w w' next /\
  (rise (srv w) < health (srv w) ->
     health (srv w') = health (srv w) - 1 /\
     failed_checks (srv w') = failed_checks (srv w) + 1 /\
     state (srv w') = state (srv w) /\
     down_trans (srv w') = down_trans (srv w) /\
     pendconns (srv w') = pendconns (srv w) /\
     px w' = px w /\
     (forall a, sessions w' a = sessions w a) /\
     trace w' = trace w ++ [EvFdDelete (curfd (srv w)); EvTaskQueue (task w)]) /\
  (health (srv w) = rise (srv w) ->
     state (srv w') = clear (state (srv w)) SRV_RUNNING /\
     flag (state (srv w')) SRV_RUNNING = false /\
     health (srv w') = 0 /\
     down_trans (srv w') = down_trans (srv w) + 1 /\
     failed_checks (srv w') = failed_checks (srv w) /\
     srv_act (px w') = count_running false (states_after_down w) /\
     srv_bck (px w') = count_running true (states_after_down w) /\
     (forall pc, In pc (pendconns (srv w)) -> redispatchable w pc = true ->
        Z.land (sess_flags (sessions w' (pc_sess pc))) SN_DIRECT = 0 /\
        Z.land (sess_flags (sessions w' (pc_sess pc))) SN_ASSIGNED = 0 /\
        Z.land (sess_flags (sessions w' (pc_sess pc))) SN_ADDR_SET = 0 /\
        sess_srv (sessions w' (pc_sess pc)) = None /\
        sess_txn_cookie (sessions w' (pc_sess pc)) = false /\
        ~ In pc (pendconns (srv w')) /\
        In (EvTaskWakeup (sess_task (sessions w' (pc_sess pc))))
           (wakeups w (rescued w))) /\
     (forall a, (forall pc, In pc (rescued w) -> pc_sess pc <> a) ->
        sessions w' a = sessions w a) /\
     trace w' = trace w ++ [EvRecount; EvRecalcMap] ++ wakeups w (rescued w)
                ++ [EvWarning (down_text w (nbpend (srv w')));
                    EvSendLog LOG_ALERT (down_text w (nbpend (srv w')))]
                ++ (if emptied w
                    then [EvAlert MsgNoServer; EvSendLog LOG_EMERG MsgNoServer]
                    else [])
                ++ [EvFdDelete (curfd (srv w)); EvTaskQueue (task w)] /\
     (emptied w = true <-> srv_act (px w') = 0 /\ srv_bck (px w') = 0)) /\
  (health (srv w) < rise (srv w) ->
     health (srv w') = 0 /\
     state (srv w') = clear (state (srv w)) SRV_RUNNING /\
     (flag (state (srv w)) SRV_RUNNING = false -> state (srv w') = state (srv w)) /\
     down_trans (srv w') = down_trans (srv w) /\
     failed_checks (srv w') = failed_checks (srv w) /\
     pendconns (srv w') = pendconns (srv w) /\
     px w' = px w /\
     (forall a, sessions w' a = sessions w a) /\
     trace w' = trace w ++ [EvFdDelete (curfd (srv w)); EvTaskQueue (task w)]).
Proof.
  intros Hi Hc Hr.
  eexists _, _. split.
  { apply tick_failure; [exact Hi | exact Hc | lia | lia]. }
  set (W := chk_failure w).
  split; [|split].
  - intros Hh. subst W. unfold chk_failure.
    apply Z.ltb_lt in Hh. rewrite Hh. cbn. rewrite <- app_assoc.
    repeat split.
  - intros Hh.
    assert (EW : W = set_server_down w).
    { subst W. unfold chk_failure.
      assert (E : (rise (srv w) <? health (srv w)) = false) by (apply Z.ltb_ge; lia).
      now rewrite E. }
    destruct (set_server_down_edge w Hh)
      as (D1 & D2 & D3 & D4 & D5 & D6 & D7 & D8 & D9 & D10 & D11 & D12).
    rewrite <- EW in *. clearbody W.
    cbn [task_queue settle release fd_delete emit set_open with_fd with_srv set_expire
         srv px sessions trace task].
    assert (Est : state (srv W) = clear (state (srv w)) SRV_RUNNING)
      by exact (f_equal state D1).
    assert (Eact : srv_act (px W) = count_running false (states_after_down w))
      by exact (f_equal srv_act D2).
    assert (Ebck : srv_bck (px W) = count_running true (states_after_down w))
      by exact (f_equal srv_bck D2).
    split; [exact Est|].
    split; [cbn [state set_curfd]; rewrite Est; apply flag_clear|].
    split; [exact (f_equal health D1)|].
    split; [exact (f_equal down_trans D1)|].
    split; [exact (f_equal failed_checks D1)|].
    split; [exact Eact|]. split; [exact Ebck|].
    split.
    { intros pc Hin Hre.
      assert (Hres : In pc (rescued w)) by (apply filter_In; split; assumption).
      rewrite D6, (names_in _ _ Hres).
      destruct (unstick_flags (sessions w (pc_sess pc))) as (U1 & U2 & U3 & U4 & U5 & U6 & U7).
      repeat (split; [assumption|]).
      split.
      - cbn [pendconns set_curfd]. rewrite D3. intros Hx.
        apply unlink_all_in in Hx as [_ Hx]. exact (Hx pc Hres eq_refl).
      - rewrite U6. unfold wakeups.
        apply (in_map (fun pc => EvTaskWakeup (sess_task (sessions w (pc_sess pc))))).
        exact Hres. }
    split.
    { intros a Ha. rewrite D6, (names_out _ _ Ha). reflexivity. }
    split.
    { rewrite D7, D8. unfold down_text. cbn [nbpend set_curfd].
      rewrite <- !app_assoc. reflexivity. }
    rewrite Eact, Ebck. unfold emptied.
    rewrite andb_true_iff, !Z.eqb_eq. tauto.
  - intros Hh.
    assert (EW : W = with_srv (fun s => set_health 0 (set_state (clear (state s) SRV_RUNNING) s)) w).
    { subst W. unfold chk_failure.
      assert (E : (rise (srv w) <? health (srv w)) = false) by (apply Z.ltb_ge; lia).
      rewrite E. apply set_server_down_quiet. lia. }
    rewrite EW. cbn. rewrite <- app_assoc.
    repeat split. intros Hf. apply clear_absent, Hf.
Qed.
End Consumed.

(** ** More fuel changes nothing *)

Lemma advance_mono (now step : Z) : forall (n : nat) (e r : Z),
  advance n now step e = Some r ->
  forall m, (n <= m)%nat -> advance m now step e = Some r.
Proof.
  induction n as [|n IH]; intros e r H m Hm.
  - cbn in H. destruct (tv_isle e now) eqn:E; [discriminate|].
    destruct m; cbn; rewrite E; exact H.
  - cbn in H. destruct (tv_isle e now) eqn:E.
    + destruct m as [|m]; [lia|]. cbn. rewrite E. apply IH; [exact H | lia].
    + destruct m; cbn; rewrite E; exact H.
Qed.

Lemma rephase_mono (now : Z) (w : world) (n : nat) (r : flow) :
  rephase n now w = Some r ->
  forall m, (n <= m)%nat -> rephase m now w = Some r.
Proof.
  unfold rephase. intros H m Hm.
  destruct (advance n now (inter (srv w)) (expire w)) as [e|] eqn:E; [|discriminate].
  now rewrite (advance_mono _ _ _ _ _ E m Hm).
Qed.

Section Fuel.

Variable dyn : server -> proxy -> Z.

Lemma pass_mono (now : Z) (y : sys) (w : world) (n : nat) (r : flow) :
  pass dyn n now y w = Some r ->
  forall m, (n <= m)%nat -> pass dyn m now y w = Some r.
Proof.
  unfold pass. intros H m Hm.
  destruct (curfd (srv w) <? 0).
  - destruct (negb (tv_isle (expire w) now)); [exact H|].
    destruct (negb (flag (state (srv w)) SRV_CHECKED)
              || proxy_state_eqb (px_state (px w)) PR_STSTOPPED).
    + destruct (advance n now (inter (srv w)) (expire w)) as [e|] eqn:E; [|discriminate].
      now rewrite (advance_mono _ _ _ _ _ E m Hm).
    + destruct (result (srv (initiate now y w)) =? 0);
        eapply rephase_mono; eassumption.
  - destruct (0 <? result (srv w)).
    + destruct (chk_success dyn w); [|discriminate].
      eapply rephase_mono; eassumption.
    + destruct ((result (srv w) <? 0) || tv_isle (expire w) now); [|exact H].
      eapply rephase_mono; eassumption.
Qed.

Lemma process_chk_mono (now : Z) (y : sys) : forall (n : nat) (w : world) r,
  process_chk dyn n now y w = Some r ->
  forall m, (n <= m)%nat -> process_chk dyn m now y w = Some r.
Proof.
  induction n as [|n IH]; intros w r H m Hm; [discriminate|].
  destruct m as [|m]; [lia|].
  cbn [process_chk] in *.
  destruct (pass dyn n now y w) as [fl|] eqn:E; [|discriminate].
  rewrite (pass_mono now y w n fl E m) by lia.
  destruct fl; [|exact H]. apply IH; [exact H | lia].
Qed.

Lemma runs_of_run (now : Z) (y : sys) (n : nat) (w w' : world) (next : Z) :
  process_chk dyn n now y w = Some (w', next) -> runs dyn now y w w' next.
Proof.
  intros H. exists n. intros fuel Hf. exact (process_chk_mono now y n w _ H fuel Hf).
Qed.

End Fuel.

Lemma failure_consumed_witness :
  0 < inter (srv (demo_running (-1))) /\
  0 <= curfd (srv (demo_running (-1))) /\
  (result (srv (demo_running (-1))) < 0 \/
   (result (srv (demo_running (-1))) = 0 /\ expire (demo_running (-1)) <= 1500)) /\
  exists w' next, runs demo_dyn 1500 demo_sys (demo_running (-1)) w' next /\
                  health (srv w') = 0 /\ down_trans (srv w') = 1.
Proof.
  assert (H1 : 0 < inter (srv (demo_running (-1)))) by (cbn; lia).
  assert (H2 : 0 <= curfd (srv (demo_running (-1)))) by (cbn; lia).
  assert (H3 : result (srv (demo_running (-1))) < 0 \/
               (result (srv (demo_running (-1))) = 0 /\ expire (demo_running (-1)) <= 1500))
    by (left; cbn; lia).
  split; [exact H1|]. split; [exact H2|]. split; [exact H3|].
  destruct (failure_consumed demo_dyn 1500 demo_sys (demo_running (-1)) H1 H2 H3)
    as (w' & next & R & _ & E & _).
  exists w', next. split; [exact R|].
  destruct (E eq_refl) as (_ & _ & E3 & E4 & _).
  split; [exact E3 | exact E4].
Defined.

(** C2 as stated fails: a probe whose result is success and whose deadline
    has passed is consumed as a success. With [health = 3 > rise = 2],
    health goes to [rise + fall - 1 = 4] instead of 2, and [failed_checks]
    stays at 0. *)
Lemma success_after_deadline :
  let w := with_srv (set_health 3) (demo_running 1) in
  expire w <= 1000 /\ rise (srv w) < health (srv w) /\
  exists w' next, runs demo_dyn 1000 demo_sys w w' next /\
                  health (srv w') = 4 /\ failed_checks (srv w') = 0.
Proof.
  cbn zeta.
  split; [apply Z.leb_le; reflexivity|]. split; [apply Z.ltb_lt; reflexivity|].
  assert (E : exists r,
             process_chk demo_dyn 3 1000 demo_sys
               (with_srv (set_health 3) (demo_running 1)) = Some r /\
             health (srv (fst r)) = 4 /\ failed_checks (srv (fst r)) = 0).
  { vm_compute. eexists. split; [reflexivity|]. split; reflexivity. }
  destruct E as ([w' next] & E & H1 & H2).
  exists w', next. split; [|split; assumption].
  exact (runs_of_run demo_dyn 1000 demo_sys 3 _ _ _ E).
Qed.

(** ** The drain loop of the UP edge *)

Lemma unlink_head (p : pendconn) (q : list pendconn) :
  (length (unlink p (p :: q)) <= length q)%nat.
Proof.
  unfold unlink. cbn [filter]. rewrite Nat.eqb_refl. cbn [negb].
  apply filter_length_le.
Qed.

Lemma unlink_head_nodup (p : pendconn) (q : list pendconn) :
  NoDup (map pc_addr (p :: q)) -> unlink p (p :: q) = q.
Proof.
  intros H. unfold unlink. cbn [filter]. rewrite Nat.eqb_refl. cbn [negb].
  cbn [map] in H. apply NoDup_cons_iff in H as [H _].
  induction q as [|x q IH]; [reflexivity|].
  cbn [filter]. cbn [map] in H.
  destruct (Nat.eqb (pc_addr x) (pc_addr p)) eqn:E.
  - apply Nat.eqb_eq in E. exfalso. apply H. left. exact E.
  - cbn [negb]. f_equal. apply IH. intros G. apply H. right. exact G.
Qed.

Section Drain.

Variable dyn : server -> proxy -> Z.

Lemma drain_total : forall (n : nat) (x : Z) (w : world),
  (length (px_pendconns (px w)) <= n)%nat -> exists r, drain dyn n x w = Some r.
Proof.
  induction n as [|n IH]; intros x w Hn.
  - destruct (px_pendconns (px w)) as [|p q] eqn:E; [|cbn in Hn; lia].
    cbn. unfold pendconn_from_px. rewrite E.
    destruct ((maxconn (srv w) =? 0) || (x <? dyn (srv w) (px w))); eexists; reflexivity.
  - cbn [drain].
    destruct ((maxconn (srv w) =? 0) || (x <? dyn (srv w) (px w))); [|eexists; reflexivity].
    unfold pendconn_from_px.
    destruct (px_pendconns (px w)) as [|p q] eqn:E; [eexists; reflexivity|].
    apply IH. cbn. rewrite E. cbn in Hn.
    pose proof (unlink_head p q). lia.
Qed.

Lemma drain_frame : forall (n : nat) (x : Z) (w : world) (r : Z * world),
  drain dyn n x w = Some r ->
  same_frame w (snd r) /\
  exists tr, trace (snd r) = trace w ++ tr /\ forallb is_wakeup tr = true.
Proof.
  assert (Stop : forall (x : Z) (w : world) (r : Z * world), Some (x, w) = Some r ->
            same_frame w (snd r) /\
            exists tr, trace (snd r) = trace w ++ tr /\ forallb is_wakeup tr = true).
  { intros x w r E. injection E as <-. split; [apply same_frame_refl|].
    exists []. split; [now rewrite app_nil_r | reflexivity]. }
  induction n as [|n IH]; intros x w r H.
  - cbn in H.
    destruct ((maxconn (srv w) =? 0) || (x <? dyn (srv w) (px w))); [|eapply Stop; eassumption].
    destruct (pendconn_from_px (px w)); [discriminate | eapply Stop; eassumption].
  - cbn [drain] in H.
    destruct ((maxconn (srv w) =? 0) || (x <? dyn (srv w) (px w))); [|eapply Stop; eassumption].
    destruct (pendconn_from_px (px w)) as [p|]; [|eapply Stop; eassumption].
    apply IH in H as (F & tr & T & W).
    split.
    + eapply same_frame_trans; [|exact F]. repeat split.
    + rewrite T. cbn [trace task_wakeup emit]. rewrite <- app_assoc.
      eexists. split; [reflexivity|]. cbn. exact W.
Qed.

Lemma up_edge_spec (w : world) :
  exists (w' : world) (xferred : Z) (tr : list event),
    up_edge dyn w = Some w' /\
    same_frame (recalc_server_map (recount_servers w)) w' /\
    trace w' = trace w ++ [EvRecount; EvRecalcMap] ++ tr
               ++ [EvWarning (up_msg xferred w'); EvSendLog LOG_NOTICE (up_msg xferred w')] /\
    forallb is_wakeup tr = true.
Proof.
  unfold up_edge.
  set (w2 := recalc_server_map (recount_servers w)).
  destruct (drain_total (length (px_pendconns (px w2))) 0 w2 (le_n _)) as ([x w3] & E).
  rewrite E.
  destruct (drain_frame _ _ _ _ E) as (F & tr & T & W). cbn [snd] in *.
  eexists _, x, tr. split; [reflexivity|].
  split; [|split; [|exact W]].
  - eapply same_frame_trans; [exact F|]. repeat split.
  - cbn [trace send_log Warning emit]. rewrite T. subst w2. cbn [trace recalc_server_map recount_servers emit with_px].
    rewrite <- !app_assoc. reflexivity.
Qed.

Lemma chk_success_low (w : world) :
  health (srv w) + 1 < rise (srv w) ->
  chk_success dyn w = Some (with_srv (fun s => set_health (health s + 1) s) w).
Proof.
  intros H. unfold chk_success. cbn [with_srv srv rise health set_health].
  assert (E : (rise (srv w) <=? health (srv w) + 1) = false) by (apply Z.leb_gt; lia).
  rewrite E. reflexivity.
Qed.

Lemma chk_success_high (w : world) :
  rise (srv w) < health (srv w) + 1 ->
  chk_success dyn w
  = Some (with_srv (fun s => set_health (rise s + fall s - 1)
                               (set_state (raise (state s) SRV_RUNNING) s)) w).
Proof.
  intros H. unfold chk_success. cbn [with_srv srv rise health set_health set_state].
  assert (E : (rise (srv w) <=? health (srv w) + 1) = true) by (apply Z.leb_le; lia).
  assert (E' : (health (srv w) + 1 =? rise (srv w)) = false) by (apply Z.eqb_neq; lia).
  rewrite E, E'. reflexivity.
Qed.

Lemma chk_success_edge (w : world) :
  health (srv w) + 1 = rise (srv w) ->
  exists (w1 : world),
    up_edge dyn (risen w) = Some w1 /\
    chk_success dyn w
    = Some (with_srv (fun s => set_health (rise s + fall s - 1) s) w1).
Proof.
  intros H. unfold chk_success. cbn [with_srv srv rise health set_health set_state].
  assert (E : (rise (srv w) <=? health (srv w) + 1) = true) by (apply Z.leb_le; lia).
  assert (E' : (health (srv w) + 1 =? rise (srv w)) = true) by (apply Z.eqb_eq; lia).
  rewrite E, E'.
  destruct (up_edge_spec (risen w)) as (w1 & x & tr & U & _).
  exists w1. split; [exact U|].
  unfold risen in U. cbn [with_srv srv px sessions task expire fdtab os_open maxsock trace] in U.
  rewrite U. reflexivity.
Qed.

Lemma chk_success_config (w w' : world) :
  chk_success dyn w = Some w' ->
  srv_config (srv w') = srv_config (srv w) /\
  task w' = task w /\ expire w' = expire w /\
  fdtab w' = fdtab w /\ os_open w' = os_open w /\ maxsock w' = maxsock w.
Proof.
  intros H.
  destruct (Z.lt_trichotomy (health (srv w) + 1) (rise (srv w))) as [L|[L|L]].
  - rewrite (chk_success_low w L) in H. injection H as <-. repeat split.
  - destruct (chk_success_edge w L) as (w1 & U & E).
    rewrite E in H. injection H as <-.
    destruct (up_edge_spec (risen w)) as (w1' & x & tr & U' & F & _).
    rewrite U in U'. injection U' as <-.
    destruct F as (F1 & F2 & F3 & F4 & F5 & F6 & F7).
    split; [|repeat split; assumption].
    cbn [with_srv srv].
    change (srv_config (set_health (rise (srv w1) + fall (srv w1) - 1) (srv w1)))
      with (srv_config (srv w1)).
    rewrite (srv_config_of_frame _ _ F1). reflexivity.
  - rewrite (chk_success_high w L) in H. injection H as <-. repeat split.
Qed.

Lemma chk_success_total (w : world) : exists w', chk_success dyn w = Some w'.
Proof.
  destruct (Z.lt_trichotomy (health (srv w) + 1) (rise (srv w))) as [L|[L|L]].
  - eexists. apply chk_success_low, L.
  - destruct (chk_success_edge w L) as (w1 & _ & E). eexists. exact E.
  - eexists. apply chk_success_high, L.
Qed.

(** A check is running and succeeded (lines 446-493). *)
Lemma tick_success (now : Z) (y : sys) (w w1 : world) :
  0 < inter (srv w) -> 0 <= curfd (srv w) -> 0 < result (srv w) ->
  chk_success dyn w = Some w1 ->
  runs dyn now y w
    (task_queue (settle now (release (curfd (srv w)) w1)))
    (expire (settle now (release (curfd (srv w)) w1))).
Proof.
  intros Hi Hc Hr Hs.
  destruct (chk_success_config w w1 Hs) as (C1 & C2 & C3 & C4 & C5 & C6).
  apply runs_rephased.
  - cbn. change (0 < inter (srv_config (srv w1))). rewrite C1. exact Hi.
  - cbn. lia.
  - intros fuel. unfold pass.
    assert (E1 : (curfd (srv w) <? 0) = false) by (apply Z.ltb_ge; lia).
    assert (E2 : (0 <? result (srv w)) = true) by (apply Z.ltb_lt; lia).
    rewrite E1, E2, Hs. reflexivity.
Qed.

End Drain.

(** ** A successful probe is consumed *)

Lemma flag_raise_other (x m k : Z) :
  Z.land m k = 0 -> flag (raise x m) k = flag x k.
Proof.
  intros H. unfold flag, raise. f_equal. f_equal.
  apply Z.bits_inj'. intros n Hn.
  rewrite !Z.land_spec, Z.lor_spec.
  assert (B : Z.testbit (Z.land m k) n = false) by (rewrite H; apply Z.bits_0).
  rewrite Z.land_spec in B.
  destruct (Z.testbit x n), (Z.testbit m n), (Z.testbit k n); simpl in *; congruence.
Qed.

Section Succeeded.

Variable dyn : server -> proxy -> Z.

(** C3 (amended). When the scheduler consumes a running probe whose result
    is success, the call returns and health is incremented. While the
    incremented value is below [rise] it is kept and nothing else changes.
    Otherwise RUNNING is set and health is set to [rise + fall - 1],
    whatever it was: a success on an UP server refills the whole cushion
    (the new health is not [min(health + 1, rise + fall - 1)]). The UP
    edge (recount of the servers, recomputation of the map, drain of the
    backend queue, whose only events are task wake-ups, messages at
    Warning and NOTICE) is taken exactly when the incremented health
    equals [rise]. *)
Theorem success_consumed (now : Z) (y : sys) (w : world) :
  0 < inter (srv w) -> 0 <= curfd (srv w) -> 0 < result (srv w) ->
  exists w' next, runs dyn now y w w' next /\
  (health (srv w) + 1 < rise (srv w) ->
     health (srv w') = health (srv w) + 1 /\
     state (srv w') = state (srv w) /\
     px w' = px w /\
     (forall a, sessions w' a = sessions w a) /\
     trace w' = trace w ++ [EvFdDelete (curfd (srv w)); EvTaskQueue (task w)]) /\
  (rise (srv w) <= health (srv w) + 1 ->
     health (srv w') = rise (srv w) + fall (srv w) - 1 /\
     state (srv w') = raise (state (srv w)) SRV_RUNNING /\
     flag (state (srv w')) SRV_RUNNING = true) /\
  (health (srv w) + 1 = rise (srv w) ->
     srv_act (px w') = count_running false (states_after_up w) /\
     srv_bck (px w') = count_running true (states_after_up w) /\
     exists (xferred remaining : Z) (tr : list event),
       trace w' = trace w ++ [EvRecount; EvRecalcMap] ++ tr
                  ++ [EvWarning (MsgServerUp (flag (state (srv w)) SRV_BACKUP)
                                   (srv_act (px w')) (srv_bck (px w'))
                                   (negb (srv_bck (px w') =? 0) && (srv_act (px w') =? 0))
                                   xferred remaining);
                      EvSendLog LOG_NOTICE
                                (MsgServerUp (flag (state (srv w)) SRV_BACKUP)
                                   (srv_act (px w')) (srv_bck (px w'))
                                   (negb (srv_bck (px w') =? 0) && (srv_act (px w') =? 0))
                                   xferred remaining)]
                  ++ [EvFdDelete (curfd (srv w)); EvTaskQueue (task w)] /\
       forallb is_wakeup tr = true) /\
  (rise (srv w) < health (srv w) + 1 ->
     px w' = px w /\
     (forall a, sessions w' a = sessions w a) /\
     trace w' = trace w ++ [EvFdDelete (curfd (srv w)); EvTaskQueue (task w)]).
Proof.
  intros Hi Hc Hr.
  destruct (chk_success_total dyn w) as (w1 & Hs).
  eexists _, _. split; [exact (tick_success dyn now y w w1 Hi Hc Hr Hs)|].
  cbn [task_queue settle release fd_delete emit set_open with_fd with_srv set_expire
       srv px sessions trace task].
  destruct (chk_success_config dyn w w1 Hs) as (_ & Ct & _).
  rewrite Ct, <- !app_assoc. cbn [app].
  destruct (Z.lt_trichotomy (health (srv w) + 1) (rise (srv w))) as [L|[L|L]].
  - rewrite (chk_success_low dyn w L) in Hs. injection Hs as <-.
    split; [intros _; cbn; repeat split|].
    split; [intros G; lia|]. split; intros G; lia.
  - destruct (chk_success_edge dyn w L) as (w2 & U & E).
    rewrite E in Hs. injection Hs as <-.
    destruct (up_edge_spec dyn (risen w)) as (w2' & x & tr & U' & F & T & W).
    rewrite U in U'. injection U' as <-.
    destruct F as (F1 & F2 & _).
    assert (Est : state (srv w2) = raise (state (srv w)) SRV_RUNNING)
      by exact (f_equal state F1).
    assert (Eri : rise (srv w2) = rise (srv w)) by exact (f_equal rise F1).
    assert (Efa : fall (srv w2) = fall (srv w)) by exact (f_equal fall F1).
    assert (Eact : srv_act (px w2) = count_running false (states_after_up w))
      by exact (f_equal srv_act F2).
    assert (Ebck : srv_bck (px w2) = count_running true (states_after_up w))
      by exact (f_equal srv_bck F2).
    split; [intros G; lia|].
    split.
    { intros _. cbn [with_srv srv health state set_health set_curfd].
      rewrite Est, Eri, Efa.
      split; [reflexivity|]. split; [reflexivity|]. apply flag_raise. discriminate. }
    split; [|intros G; lia].
    intros _. cbn [with_srv srv px].
    split; [exact Eact|]. split; [exact Ebck|].
    exists x, (nbpend (srv w2)), tr. split; [|exact W].
    cbn [trace with_srv]. rewrite T. unfold up_msg.
    rewrite Est, (flag_raise_other _ SRV_RUNNING SRV_BACKUP eq_refl).
    cbn [trace risen with_srv]. rewrite <- !app_assoc. reflexivity.
  - rewrite (chk_success_high dyn w L) in Hs. injection Hs as <-.
    split; [intros G; lia|].
    split.
    { intros _. cbn. split; [reflexivity|]. split; [reflexivity|].
      apply flag_raise. discriminate. }
    split; [intros G; lia|].
    intros _. cbn. repeat split.
Qed.

End Succeeded.

Lemma success_consumed_witness :
  0 < inter (srv (demo_running 1)) /\
  0 <= curfd (srv (demo_running 1)) /\
  0 < result (srv (demo_running 1)) /\
  exists w' next, runs demo_dyn 1500 demo_sys (demo_running 1) w' next /\
                  health (srv w') = 4 /\
                  flag (state (srv w')) SRV_RUNNING = true.
Proof.
  assert (H1 : 0 < inter (srv (demo_running 1))) by (apply Z.ltb_lt; reflexivity).
  assert (H2 : 0 <= curfd (srv (demo_running 1))) by (apply Z.leb_le; reflexivity).
  assert (H3 : 0 < result (srv (demo_running 1))) by (apply Z.ltb_lt; reflexivity).
  split; [exact H1|]. split; [exact H2|]. split; [exact H3|].
  destruct (success_consumed demo_dyn 1500 demo_sys (demo_running 1) H1 H2 H3)
    as (w' & next & R & _ & E & _).
  exists w', next. split; [exact R|].
  assert (L : rise (srv (demo_running 1)) <= health (srv (demo_running 1)) + 1)
    by (apply Z.leb_le; reflexivity).
  destruct (E L) as (E1 & _ & E3).
  split; [exact E1 | exact E3].
Defined.

(** C3 as stated fails: with [rise = 2], [fall = 3] and [health = 2] (UP,
    cushion used up), a success sets health to 4, and
    [min(health + 1, rise + fall - 1)] is 3. *)
Lemma success_refills_cushion :
  Z.min (health (srv (demo_running 1)) + 1)
        (rise (srv (demo_running 1)) + fall (srv (demo_running 1)) - 1) = 3 /\
  exists w' next, runs demo_dyn 1500 demo_sys (demo_running 1) w' next /\
                  health (srv w') = 4.
Proof.
  split; [reflexivity|].
  assert (E : exists r,
             process_chk demo_dyn 3 1500 demo_sys (demo_running 1) = Some r /\
             health (srv (fst r)) = 4).
  { vm_compute. eexists. split; reflexivity. }
  destruct E as ([w' next] & E & H1).
  exists w', next. split; [|exact H1].
  exact (runs_of_run demo_dyn 1500 demo_sys 3 _ _ _ E).
Qed.

(** ** Hysteresis *)

Lemma logged_app (level : Z) (a b : list event) :
  logged level (a ++ b) = (logged level a + logged level b)%nat.
Proof. unfold logged. now rewrite filter_app, length_app. Qed.

Lemma logged_wakeups (level : Z) (tr : list event) :
  forallb is_wakeup tr = true -> logged level tr = 0%nat.
Proof.
  induction tr as [|e tr IH]; [reflexivity|].
  cbn [forallb]. intros H. apply andb_true_iff in H as [H1 H2].
  destruct e; try discriminate. unfold logged in *. cbn. apply IH, H2.
Qed.

Lemma wakeups_are_wakeups (w : world) (ps : list pendconn) :
  forallb is_wakeup (wakeups w ps) = true.
Proof. induction ps as [|p ps IH]; [reflexivity | exact IH]. Qed.

Lemma failures_add (n m : nat) : forall w,
  failures (n + m) w = failures m (failures n w).
Proof. induction n as [|n IH]; intros w; [reflexivity | apply IH]. Qed.

Lemma failures_cushion (n : nat) : forall w,
  Z.of_nat n <= health (srv w) - rise (srv w) ->
  health (srv (failures n w)) = health (srv w) - Z.of_nat n /\
  failed_checks (srv (failures n w)) = failed_checks (srv w) + Z.of_nat n /\
  state (srv (failures n w)) = state (srv w) /\
  down_trans (srv (failures n w)) = down_trans (srv w) /\
  rise (srv (failures n w)) = rise (srv w) /\
  fall (srv (failures n w)) = fall (srv w) /\
  trace (failures n w) = trace w.
Proof.
  induction n as [|n IH]; intros w H.
  - cbn. repeat split; lia.
  - cbn [failures].
    assert (E : chk_failure w
                = with_srv (fun s => set_failed_checks (failed_checks s + 1)
                                       (set_health (health s - 1) s)) w).
    { unfold chk_failure.
      assert (L : (rise (srv w) <? health (srv w)) = true) by (apply Z.ltb_lt; lia).
      now rewrite L. }
    rewrite E.
    destruct (IH (with_srv (fun s => set_failed_checks (failed_checks s + 1)
                                       (set_health (health s - 1) s)) w))
      as (I1 & I2 & I3 & I4 & I5 & I6 & I7).
    { cbn. lia. }
    rewrite I1, I2, I3, I4, I5, I6, I7. cbn. repeat split; lia.
Qed.

Lemma down_edge_logged (w : world) :
  health (srv w) = rise (srv w) ->
  logged LOG_ALERT (trace (chk_failure w)) = S (logged LOG_ALERT (trace w)) /\
  down_trans (srv (chk_failure w)) = down_trans (srv w) + 1 /\
  flag (state (srv (chk_failure w))) SRV_RUNNING = false /\
  health (srv (chk_failure w)) = 0.
Proof.
  intros H. unfold chk_failure.
  assert (L : (rise (srv w) <? health (srv w)) = false) by (apply Z.ltb_ge; lia).
  rewrite L.
  destruct (set_server_down_edge w H) as (D1 & _ & _ & _ & _ & _ & D7 & _).
  split; [|split; [|split]].
  - rewrite D7, !logged_app, (logged_wakeups _ _ (wakeups_are_wakeups w (rescued w))).
    destruct (emptied w); cbn; lia.
  - exact (f_equal down_trans D1).
  - change (flag (state (set_queue 0 [] (srv (set_server_down w)))) SRV_RUNNING = false).
    rewrite D1. apply flag_clear.
  - exact (f_equal health D1).
Qed.

Section Hysteresis.

Variable dyn : server -> proxy -> Z.

Lemma successes_add (n m : nat) : forall w,
  successes dyn (n + m) w
  = match successes dyn n w with
    | None => None
    | Some w1 => successes dyn m w1
    end.
Proof.
  induction n as [|n IH]; intros w; [reflexivity|].
  cbn [Nat.add successes]. destruct (chk_success dyn w); [apply IH | reflexivity].
Qed.

Lemma successes_low (n : nat) : forall w,
  health (srv w) + Z.of_nat n < rise (srv w) ->
  exists wn, successes dyn n w = Some wn /\
    health (srv wn) = health (srv w) + Z.of_nat n /\
    state (srv wn) = state (srv w) /\
    rise (srv wn) = rise (srv w) /\
    fall (srv wn) = fall (srv w) /\
    trace wn = trace w.
Proof.
  induction n as [|n IH]; intros w H.
  - exists w. cbn. repeat split; lia.
  - cbn [successes]. rewrite (chk_success_low dyn w) by lia.
    destruct (IH (with_srv (fun s => set_health (health s + 1) s) w))
      as (wn & E & I1 & I2 & I3 & I4 & I5).
    { cbn. lia. }
    exists wn. split; [exact E|].
    rewrite I1, I2, I3, I4, I5. cbn. repeat split; lia.
Qed.

Lemma up_edge_logged (w : world) :
  health (srv w) + 1 = rise (srv w) ->
  exists w', chk_success dyn w = Some w' /\
    logged LOG_NOTICE (trace w') = S (logged LOG_NOTICE (trace w)) /\
    flag (state (srv w')) SRV_RUNNING = true /\
    health (srv w') = rise (srv w) + fall (srv w) - 1.
Proof.
  intros H.
  destruct (chk_success_edge dyn w H) as (w1 & U & E).
  destruct (up_edge_spec dyn (risen w)) as (w1' & x & tr & U' & F & T & W).
  rewrite U in U'. injection U' as <-.
  destruct F as (F1 & _).
  eexists. split; [exact E|].
  cbn [with_srv srv trace health state set_health].
  split; [|split].
  - rewrite T, !logged_app, (logged_wakeups _ _ W). unfold logged. cbn. lia.
  - change (flag (state (set_queue 0 [] (srv w1))) SRV_RUNNING = true).
    rewrite F1. cbn. apply flag_raise. discriminate.
  - rewrite (f_equal rise F1 : rise (srv w1) = _), (f_equal fall F1 : fall (srv w1) = _).
    reflexivity.
Qed.

(** The thresholds on the steps of the state machine. From steady UP
    ([health = rise + fall - 1], at or above [rise]) fewer than [fall]
    failure steps take no DOWN edge, and [fall] of them take it, once.
    From fully DOWN ([health = 0], below [rise]) fewer than [rise]
    success steps take no UP edge, and [rise] of them take it, once. *)
Lemma thresholds_of_steps (w : world) :
  (rise (srv w) <= health (srv w) ->
   health (srv w) = rise (srv w) + fall (srv w) - 1 ->
   (forall n, Z.of_nat n < fall (srv w) ->
      logged LOG_ALERT (trace (failures n w)) = logged LOG_ALERT (trace w) /\
      down_trans (srv (failures n w)) = down_trans (srv w) /\
      state (srv (failures n w)) = state (srv w) /\
      rise (srv w) <= health (srv (failures n w))) /\
   logged LOG_ALERT (trace (failures (Z.to_nat (fall (srv w))) w))
     = S (logged LOG_ALERT (trace w)) /\
   down_trans (srv (failures (Z.to_nat (fall (srv w))) w)) = down_trans (srv w) + 1 /\
   flag (state (srv (failures (Z.to_nat (fall (srv w))) w))) SRV_RUNNING = false /\
   health (srv (failures (Z.to_nat (fall (srv w))) w)) = 0)
  /\
  (health (srv w) < rise (srv w) ->
   health (srv w) = 0 ->
   (forall n, Z.of_nat n < rise (srv w) ->
      exists wn, successes dyn n w = Some wn /\
        logged LOG_NOTICE (trace wn) = logged LOG_NOTICE (trace w) /\
        state (srv wn) = state (srv w) /\
        health (srv wn) < rise (srv w)) /\
   exists wr, successes dyn (Z.to_nat (rise (srv w))) w = Some wr /\
     logged LOG_NOTICE (trace wr) = S (logged LOG_NOTICE (trace w)) /\
     flag (state (srv wr)) SRV_RUNNING = true /\
     health (srv wr) = rise (srv w) + fall (srv w) - 1).
Proof.
  split.
  - intros Hup Hh. split.
    + intros n Hn.
      destruct (failures_cushion n w) as (I1 & _ & I3 & I4 & _ & _ & I7); [lia|].
      rewrite I1, I3, I4, I7. repeat split. lia.
    + assert (Hf : 1 <= fall (srv w)) by lia.
      replace (Z.to_nat (fall (srv w))) with (Z.to_nat (fall (srv w) - 1) + 1)%nat by lia.
      rewrite failures_add. cbn [failures].
      destruct (failures_cushion (Z.to_nat (fall (srv w) - 1)) w)
        as (I1 & _ & I3 & I4 & I5 & _ & I7); [lia|].
      destruct (down_edge_logged (failures (Z.to_nat (fall (srv w) - 1)) w))
        as (D1 & D2 & D3 & D4); [lia|].
      rewrite D1, D2, I4, I7. repeat split; assumption.
  - intros Hdown Hh. split.
    + intros n Hn.
      destruct (successes_low n w) as (wn & E & I1 & I2 & _ & _ & I5); [lia|].
      exists wn. split; [exact E|]. rewrite I1, I2, I5. repeat split. lia.
    + replace (Z.to_nat (rise (srv w))) with (Z.to_nat (rise (srv w) - 1) + 1)%nat by lia.
      rewrite successes_add.
      destruct (successes_low (Z.to_nat (rise (srv w) - 1)) w)
        as (wn & E & I1 & I2 & I3 & I4 & I5); [lia|].
      rewrite E. cbn [successes].
      destruct (up_edge_logged wn) as (wr & Es & U1 & U2 & U3); [lia|].
      rewrite Es. exists wr. split; [reflexivity|].
      rewrite U1, U3, I3, I4, I5. repeat split. exact U2.
Qed.

End Hysteresis.

(** Scenarios 1, 2 and 4 of section 8 on the steps of the state machine,
    with [rise = 2] and [fall = 3]. *)
Example scenario_successes :
  option_map (fun w => health (srv w)) (successes demo_dyn 1 demo_world) = Some 4 /\
  option_map (fun w => health (srv w)) (successes demo_dyn 3 demo_world) = Some 4 /\
  option_map (fun w => trace w) (successes demo_dyn 3 demo_world) = Some [].
Proof. repeat split; reflexivity. Qed.

Example scenario_failures :
  health (srv (failures 1 demo_world)) = 0 /\
  down_trans (srv (failures 1 demo_world)) = 1 /\
  down_trans (srv (failures 3 demo_world)) = 1 /\
  logged LOG_EMERG (trace (failures 1 demo_world)) = 1%nat.
Proof. repeat split; reflexivity. Qed.

Example scenario_from_down :
  let down := with_srv (fun s => set_health 0 (set_state SRV_CHECKED s)) demo_world in
  option_map (fun w => health (srv w)) (successes demo_dyn 1 down) = Some 1 /\
  option_map (fun w => health (srv w)) (successes demo_dyn 2 down) = Some 4 /\
  option_map (fun w => logged LOG_NOTICE (trace w)) (successes demo_dyn 2 down)
    = Some 1%nat.
Proof. repeat split; reflexivity. Qed.

(** ** The start of a probe *)

Lemma initiate_no_socket (now : Z) (y : sys) (w : world) :
  socket_ret y = -1 -> initiate now y w = with_srv (set_result 0) w.
Proof. intros H. unfold initiate. rewrite H. reflexivity. Qed.

Lemma initiate_unusable (now : Z) (y : sys) (w : world) :
  socket_ret y <> -1 -> usable y w = false ->
  initiate now y w = sys_close (socket_ret y) (opened y w).
Proof.
  intros H U. unfold initiate, usable in *.
  apply Z.eqb_neq in H. rewrite H in *. cbn [negb andb] in *.
  cbn [maxsock set_open with_srv]. rewrite U. reflexivity.
Qed.

Lemma initiate_usable (now : Z) (y : sys) (w : world) :
  usable y w = true ->
  initiate now y w
  = sys_close (socket_ret y)
      (try_connect (socket_ret y) now y (bind_source y (opened y w))).
Proof.
  intros U. unfold initiate, usable in *.
  destruct (socket_ret y =? -1); [discriminate|]. cbn [negb andb] in *.
  cbn [maxsock set_open with_srv]. rewrite U. reflexivity.
Qed.

Lemma initiate_bind_fails (now : Z) (y : sys) (w : world) :
  usable y w = true -> bind_fails y w = true ->
  initiate now y w
  = sys_close (socket_ret y)
      (with_srv (set_result (-1)) (Alert (bind_alert w) (opened y w))).
Proof.
  intros U B. rewrite (initiate_usable now y w U). f_equal.
  unfold bind_fails in B. apply andb_true_iff in B as [B1 B2].
  unfold bind_source, bind_alert.
  change (state (srv (opened y w))) with (state (srv w)).
  change (px_options (px (opened y w))) with (px_options (px w)).
  destruct (flag (state (srv w)) SRV_BIND_SRC).
  - rewrite B2. reflexivity.
  - cbn [orb] in B1. rewrite B1, B2. reflexivity.
Qed.

Lemma bind_source_quiet (y : sys) (w : world) :
  bind_fails y w = false -> bind_source y (opened y w) = opened y w.
Proof.
  intros B. unfold bind_fails in B. unfold bind_source.
  change (state (srv (opened y w))) with (state (srv w)).
  change (px_options (px (opened y w))) with (px_options (px w)).
  destruct (flag (state (srv w)) SRV_BIND_SRC); cbn [orb andb] in B.
  - now rewrite B.
  - destruct (flag (px_options (px w)) PR_O_BIND_SRC); cbn [andb] in B; [now rewrite B|].
    reflexivity.
Qed.

Lemma initiate_accepted (now : Z) (y : sys) (w : world) :
  usable y w = true -> bind_fails y w = false -> connect_accepted y = true ->
  initiate now y w
  = sys_close (socket_ret y) (take_over (socket_ret y) now (opened y w)).
Proof.
  intros U B C. rewrite (initiate_usable now y w U), (bind_source_quiet y w B).
  f_equal. unfold try_connect. unfold connect_accepted in C.
  cbn [opened set_open with_srv srv result set_result]. rewrite C. reflexivity.
Qed.

Lemma initiate_tolerated (now : Z) (y : sys) (w : world) :
  usable y w = true -> bind_fails y w = false ->
  connect_accepted y = false -> connect_tolerated y = true ->
  initiate now y w = sys_close (socket_ret y) (opened y w).
Proof.
  intros U B C T. rewrite (initiate_usable now y w U), (bind_source_quiet y w B).
  f_equal. unfold try_connect. unfold connect_accepted in C. unfold connect_tolerated in T.
  cbn [opened set_open with_srv srv result set_result]. rewrite C.
  cbn [Z.eqb].
  destruct (connect_errno y =? EALREADY); [reflexivity|].
  destruct (connect_errno y =? EISCONN); [reflexivity|].
  cbn [orb] in T. rewrite T. reflexivity.
Qed.

Lemma initiate_refused (now : Z) (y : sys) (w : world) :
  usable y w = true -> bind_fails y w = false ->
  connect_accepted y = false -> connect_tolerated y = false ->
  initiate now y w
  = sys_close (socket_ret y) (with_srv (set_result (-1)) (opened y w)).
Proof.
  intros U B C T. rewrite (initiate_usable now y w U), (bind_source_quiet y w B).
  f_equal. unfold try_connect. unfold connect_accepted in C. unfold connect_tolerated in T.
  cbn [opened set_open with_srv srv result set_result]. rewrite C.
  cbn [Z.eqb].
  apply orb_false_iff in T as [T T3]. apply orb_false_iff in T as [T1 T2].
  rewrite T1, T2, T3. reflexivity.
Qed.

(** What one failure step does to the counters of the server. *)
Lemma chk_failure_counts (w : world) :
  health (srv (chk_failure w))
    = (if rise (srv w) <? health (srv w) then health (srv w) - 1 else 0) /\
  failed_checks (srv (chk_failure w))
    = (if rise (srv w) <? health (srv w)
       then failed_checks (srv w) + 1 else failed_checks (srv w)) /\
  down_trans (srv (chk_failure w))
    = (if health (srv w) =? rise (srv w)
       then down_trans (srv w) + 1 else down_trans (srv w)) /\
  state (srv (chk_failure w))
    = (if rise (srv w) <? health (srv w)
       then state (srv w) else clear (state (srv w)) SRV_RUNNING) /\
  exists tr, trace (chk_failure w) = trace w ++ tr.
Proof.
  unfold chk_failure.
  destruct (rise (srv w) <? health (srv w)) eqn:L.
  - apply Z.ltb_lt in L.
    assert (E : (health (srv w) =? rise (srv w)) = false) by (apply Z.eqb_neq; lia).
    rewrite E. cbn. repeat split. exists []. now rewrite app_nil_r.
  - destruct (Z.eq_dec (health (srv w)) (rise (srv w))) as [E|E].
    + destruct (set_server_down_edge w E) as (D1 & _ & _ & _ & _ & _ & D7 & _).
      rewrite E, Z.eqb_refl.
      split; [exact (f_equal health D1)|].
      split; [exact (f_equal failed_checks D1)|].
      split; [exact (f_equal down_trans D1)|].
      split; [exact (f_equal state D1)|].
      eexists. exact D7.
    + rewrite (set_server_down_quiet w E).
      apply Z.eqb_neq in E. rewrite E. cbn. repeat split.
      exists []. now rewrite app_nil_r.
Qed.

Section Started.

Variable dyn : server -> proxy -> Z.

Lemma pass_due (fuel : nat) (now : Z) (y : sys) (w : world) :
  due now w ->
  pass dyn fuel now y w
  = (if result (srv (initiate now y w)) =? 0
     then rephase fuel now (initiate now y w)
     else rephase fuel now (chk_failure (initiate now y w))).
Proof.
  intros (H1 & H2 & H3 & H4). unfold pass, tv_isle.
  apply Z.ltb_lt in H1. apply Z.leb_le in H2. rewrite H1, H2, H3.
  assert (E : proxy_state_eqb (px_state (px w)) PR_STSTOPPED = false)
    by (destruct (px_state (px w)); try reflexivity; congruence).
  rewrite E. reflexivity.
Qed.

(** The probe could not be started and nothing is held against the server. *)
Lemma tick_absorbed (now : Z) (y : sys) (w : world) :
  due now w -> 0 < inter (srv (initiate now y w)) ->
  result (srv (initiate now y w)) = 0 -> curfd (srv (initiate now y w)) < 0 ->
  runs dyn now y w
    (task_queue (settle now (initiate now y w)))
    (expire (settle now (initiate now y w))).
Proof.
  intros Hd Hi Hr Hc. apply runs_rephased; [exact Hi | exact Hc|].
  intros fuel. rewrite (pass_due fuel now y w Hd), Hr. reflexivity.
Qed.

(** The probe failed at once. *)
Lemma tick_refused (now : Z) (y : sys) (w : world) :
  due now w -> 0 < inter (srv (initiate now y w)) ->
  result (srv (initiate now y w)) <> 0 -> curfd (srv (initiate now y w)) < 0 ->
  runs dyn now y w
    (task_queue (settle now (chk_failure (initiate now y w))))
    (expire (settle now (chk_failure (initiate now y w)))).
Proof.
  intros Hd Hi Hr Hc. apply runs_rephased.
  - rewrite chk_failure_inter. exact Hi.
  - rewrite chk_failure_curfd. exact Hc.
  - intros fuel. rewrite (pass_due fuel now y w Hd).
    apply Z.eqb_neq in Hr. rewrite Hr. reflexivity.
Qed.

(** The probe is started: the descriptor is in [curfd]. *)
Lemma tick_started (now : Z) (y : sys) (w : world) :
  due now w -> 0 < inter (srv (initiate now y w)) ->
  result (srv (initiate now y w)) = 0 -> 0 <= curfd (srv (initiate now y w)) ->
  now < expire (initiate now y w) ->
  runs dyn now y w
    (task_queue (with_srv (set_result 0) (settle now (initiate now y w))))
    (expire (initiate now y w)).
Proof.
  intros Hd Hi Hr Hc He.
  set (W := initiate now y w) in *.
  assert (L : lag now (inter (srv W)) (expire W) = 0) by (apply lag_early, He).
  assert (Ee : expire (settle now W) = expire W).
  { cbn. rewrite L. lia. }
  exists 2%nat. intros fuel Hf.
  destruct fuel as [|[|f]]; [lia | lia |].
  cbn [process_chk].
  rewrite (pass_due (S f) now y w Hd). fold W. rewrite Hr. cbn [Z.eqb].
  rewrite (rephase_settles now W Hi) by (rewrite L; cbn; lia).
  unfold pass, tv_isle.
  change (curfd (srv (settle now W))) with (curfd (srv W)).
  change (result (srv (settle now W))) with (result (srv W)).
  assert (E1 : (curfd (srv W) <? 0) = false) by (apply Z.ltb_ge; lia).
  assert (E2 : (expire (settle now W) <=? now) = false) by (apply Z.leb_gt; lia).
  rewrite E1, Hr, E2. cbn [Z.ltb Z.compare orb].
  rewrite <- Ee. reflexivity.
Qed.

End Started.

(** ** Lack of resources at the start of a probe *)

Section Resources.

Variable dyn : server -> proxy -> Z.

(** C10. When a probe is due and the socket cannot be created, or its
    descriptor is not below [global.maxsock], the call returns and the
    tick is void for liveness: no result is recorded, health,
    [failed_checks], [down_trans] and the state word are unchanged, nothing
    is registered, the descriptor (if any) is closed, and the task is
    queued again with its deadline moved by whole intervals just past
    [now]. When instead the socket is fine and [bind] refuses the
    configured source address, an Alert is issued, [result] is failure and
    one failure step is applied to the server at once. *)
Theorem resource_failures (now : Z) (y : sys) (w : world) :
  0 < inter (srv w) -> due now w ->
  (socket_ret y = -1 \/ maxsock w <= socket_ret y ->
   exists w' next, runs dyn now y w w' next /\
     result (srv w') = 0 /\
     curfd (srv w') = curfd (srv w) /\
     health (srv w') = health (srv w) /\
     failed_checks (srv w') = failed_checks (srv w) /\
     state (srv w') = state (srv w) /\
     down_trans (srv w') = down_trans (srv w) /\
     fdtab w' = fdtab w /\
     (socket_ret y <> -1 -> os_open w' (socket_ret y) = false) /\
     trace w' = trace w
                ++ (if socket_ret y =? -1 then [] else [EvClose (socket_ret y)])
                ++ [EvTaskQueue (task w)] /\
     next = expire w' /\ now < expire w' /\
     exists k, 1 <= k /\ expire w' = expire w + k * inter (srv w) /\
               expire w' - inter (srv w) <= now)
  /\
  (usable y w = true -> bind_fails y w = true ->
   exists w' next, runs dyn now y w w' next /\
     result (srv w') = -1 /\
     In (EvAlert (bind_alert w)) (trace w') /\
     health (srv w')
       = (if rise (srv w) <? health (srv w) then health (srv w) - 1 else 0) /\
     failed_checks (srv w')
       = (if rise (srv w) <? health (srv w)
          then failed_checks (srv w) + 1 else failed_checks (srv w)) /\
     down_trans (srv w')
       = (if health (srv w) =? rise (srv w)
          then down_trans (srv w) + 1 else down_trans (srv w)) /\
     state (srv w')
       = (if rise (srv w) <? health (srv w)
          then state (srv w) else clear (state (srv w)) SRV_RUNNING) /\
     curfd (srv w') = curfd (srv w) /\
     os_open w' (socket_ret y) = false /\
     next = expire w' /\ now < expire w').
Proof.
  intros Hi Hd. pose proof Hd as (Hc & He & _).
  split.
  - intros Hs.
    assert (HW : exists W, initiate now y w = W /\
                   srv W = set_result 0 (srv w) /\ expire W = expire w /\
                   fdtab W = fdtab w /\ task W = task w /\
                   os_open W (socket_ret y)
                     = (if socket_ret y =? -1 then os_open w (-1) else false) /\
                   trace W = trace w
                     ++ (if socket_ret y =? -1 then [] else [EvClose (socket_ret y)])).
    { destruct (Z.eq_dec (socket_ret y) (-1)) as [E|E].
      - eexists. split; [apply initiate_no_socket, E|].
        rewrite E. cbn. rewrite app_nil_r. repeat split.
      - eexists. split.
        + apply initiate_unusable; [exact E|].
          unfold usable. assert (L : (socket_ret y <? maxsock w) = false)
            by (apply Z.ltb_ge; lia).
          rewrite L, andb_false_r. reflexivity.
        + apply Z.eqb_neq in E. rewrite E. cbn. rewrite Z.eqb_refl. repeat split. }
    destruct HW as (W & EW & W1 & W2 & W3 & W4 & W5 & W6).
    eexists _, _. split.
    { apply tick_absorbed; [exact Hd | | |]; rewrite EW, W1; cbn; [exact Hi | reflexivity | exact Hc]. }
    rewrite EW.
    cbn [task_queue settle emit set_expire srv px sessions trace task expire fdtab os_open].
    rewrite W1, W2, W3, W4, W5, W6. cbn [result health failed_checks state down_trans curfd inter set_result].
    repeat (split; [reflexivity|]).
    split; [intros N; apply Z.eqb_neq in N; now rewrite N|].
    split; [now rewrite <- app_assoc|].
    split; [reflexivity|].
    split; [apply lag_past, Hi|].
    exists (lag now (inter (srv w)) (expire w)).
    split; [apply lag_late; assumption|]. split; [reflexivity|].
    pose proof (lag_least now (inter (srv w)) (expire w) Hi He). lia.
  - intros U B.
    pose proof (initiate_bind_fails now y w U B) as EW.
    set (W := initiate now y w) in *.
    assert (W1 : srv W = set_result (-1) (srv w)) by (rewrite EW; reflexivity).
    assert (W6 : trace W = (trace w ++ [EvAlert (bind_alert w)]) ++ [EvClose (socket_ret y)])
      by (rewrite EW; reflexivity).
    assert (W5 : os_open W (socket_ret y) = false)
      by (rewrite EW; cbn; now rewrite Z.eqb_refl).
    eexists _, _. split.
    { apply tick_refused; [exact Hd | | |]; fold W; rewrite W1; cbn;
        [exact Hi | discriminate | exact Hc]. }
    fold W.
    cbn [task_queue settle emit set_expire srv px sessions trace task expire fdtab os_open].
    destruct (chk_failure_counts W) as (K1 & K2 & K3 & K4 & tr & K5).
    destruct (chk_failure_config W) as (_ & _ & _ & _ & K6 & _).
    rewrite W1 in K1, K2, K3, K4. cbn in K1, K2, K3, K4.
    rewrite chk_failure_result, chk_failure_curfd, K1, K2, K3, K4, K5, K6, W1, W5, W6.
    cbn [result curfd set_result].
    split; [reflexivity|].
    split.
    { rewrite <- !app_assoc. apply in_or_app. right. left. reflexivity. }
    repeat (split; [reflexivity|]).
    rewrite chk_failure_inter, W1. cbn [inter set_result].
    destruct (chk_failure_config W) as (_ & _ & K7 & _). rewrite K7.
    assert (W2 : expire W = expire w) by (rewrite EW; reflexivity).
    rewrite W2. apply lag_past, Hi.
Qed.

End Resources.

Lemma resource_failures_witness :
  let y0 := mk_sys (-1) 0 0 0 0 0 0 0 0 0 0 0 [] in
  let y1 := mk_sys 5 0 0 (-1) 0 0 0 0 0 0 0 0 [] in
  let w1 := with_srv (set_state (SRV_RUNNING + SRV_CHECKED + SRV_BIND_SRC)) demo_world in
  (0 < inter (srv demo_world) /\ due 1500 demo_world /\
   (socket_ret y0 = -1 \/ maxsock demo_world <= socket_ret y0) /\
   exists w' next, runs demo_dyn 1500 y0 demo_world w' next /\
                   result (srv w') = 0 /\ health (srv w') = 2 /\ next = 3000) /\
  (0 < inter (srv w1) /\ due 1500 w1 /\
   usable y1 w1 = true /\ bind_fails y1 w1 = true /\
   exists w' next, runs demo_dyn 1500 y1 w1 w' next /\
                   result (srv w') = -1 /\ health (srv w') = 0 /\
                   down_trans (srv w') = 1).
Proof.
  cbn zeta.
  assert (H1 : 0 < inter (srv demo_world)) by (apply Z.ltb_lt; reflexivity).
  assert (H2 : due 1500 demo_world).
  { split; [apply Z.ltb_lt; reflexivity|]. split; [apply Z.leb_le; reflexivity|].
    split; [reflexivity | discriminate]. }
  assert (H3 : due 1500 (with_srv (set_state (SRV_RUNNING + SRV_CHECKED + SRV_BIND_SRC))
                           demo_world)).
  { split; [apply Z.ltb_lt; reflexivity|]. split; [apply Z.leb_le; reflexivity|].
    split; [reflexivity | discriminate]. }
  split.
  - split; [exact H1|]. split; [exact H2|]. split; [left; reflexivity|].
    destruct (proj1 (resource_failures demo_dyn 1500
                       (mk_sys (-1) 0 0 0 0 0 0 0 0 0 0 0 []) demo_world H1 H2)
                (or_introl eq_refl))
      as (w' & next & R & A & _ & B & _ & _ & _ & _ & _ & _ & C & D & k & K1 & K2 & K3).
    exists w', next. split; [exact R|]. split; [exact A|]. split; [exact B|].
    rewrite C. change (expire w' = 1000 + k * 2000) in K2.
    change (expire w' - 2000 <= 1500) in K3. lia.
  - split; [exact H1|]. split; [exact H3|]. split; [reflexivity|]. split; [reflexivity|].
    destruct (proj2 (resource_failures demo_dyn 1500
                       (mk_sys 5 0 0 (-1) 0 0 0 0 0 0 0 0 [])
                       (with_srv (set_state (SRV_RUNNING + SRV_CHECKED + SRV_BIND_SRC))
                          demo_world) H1 H3)
                eq_refl eq_refl)
      as (w' & next & R & A & _ & B & _ & C & _).
    exists w', next. split; [exact R|]. split; [exact A|]. split; [exact B | exact C].
Defined.

(** ** The outcome of connect() *)

Section Connect.

Variable dyn : server -> proxy -> Z.

(** C7 (amended). When a probe is due, the socket is set up and no bind
    error occurred, the outcome of [connect] is handled as follows. A
    return value other than -1, or errno EINPROGRESS, is taken as "in
    progress": the descriptor is recorded in [curfd], the two callbacks
    are registered with the task as owner, the entry is in state
    FD_STCONN, write-readiness is enabled and the deadline is
    [now + inter]. With errno EALREADY, EISCONN or EAGAIN nothing is
    recorded: [result] stays unset (it is not a success), [curfd] stays
    "none", nothing is registered, the socket is closed and the task is
    queued again for a later interval, the server being left as it was.
    Any other errno sets [result] to failure, and one failure step is
    applied to the server at once. *)
Theorem connect_outcomes (now : Z) (y : sys) (w : world) :
  0 < inter (srv w) -> due now w ->
  usable y w = true -> bind_fails y w = false ->
  (connect_accepted y = true -> 0 <= socket_ret y ->
   exists w' next, runs dyn now y w w' next /\
     curfd (srv w') = socket_ret y /\
     owner (fdtab w' (socket_ret y)) = task w /\
     cb_rd (fdtab w' (socket_ret y)) = cb_event_srv_chk_r /\
     cb_wr (fdtab w' (socket_ret y)) = cb_event_srv_chk_w /\
     fdst (fdtab w' (socket_ret y)) = FD_STCONN /\
     poll_wr (fdtab w' (socket_ret y)) = true /\
     expire w' = now + inter (srv w) /\ next = expire w' /\
     result (srv w') = 0 /\
     health (srv w') = health (srv w) /\
     failed_checks (srv w') = failed_checks (srv w) /\
     state (srv w') = state (srv w))
  /\
  (connect_accepted y = false -> connect_tolerated y = true ->
   exists w' next, runs dyn now y w w' next /\
     curfd (srv w') = curfd (srv w) /\
     result (srv w') = 0 /\
     fdtab w' = fdtab w /\
     os_open w' (socket_ret y) = false /\
     health (srv w') = health (srv w) /\
     failed_checks (srv w') = failed_checks (srv w) /\
     state (srv w') = state (srv w) /\
     next = expire w' /\ now < expire w' /\
     exists k, 1 <= k /\ expire w' = expire w + k * inter (srv w))
  /\
  (connect_accepted y = false -> connect_tolerated y = false ->
   exists w' next, runs dyn now y w w' next /\
     curfd (srv w') = curfd (srv w) /\
     result (srv w') = -1 /\
     fdtab w' = fdtab w /\
     os_open w' (socket_ret y) = false /\
     health (srv w')
       = (if rise (srv w) <? health (srv w) then health (srv w) - 1 else 0) /\
     failed_checks (srv w')
       = (if rise (srv w) <? health (srv w)
          then failed_checks (srv w) + 1 else failed_checks (srv w)) /\
     down_trans (srv w')
       = (if health (srv w) =? rise (srv w)
          then down_trans (srv w) + 1 else down_trans (srv w)) /\
     next = expire w' /\ now < expire w').
Proof.
  intros Hi Hd U B. pose proof Hd as (Hc & He & _).
  split; [|split].
  - intros C Hfd.
    pose proof (initiate_accepted now y w U B C) as EW.
    eexists _, _. split.
    { apply tick_started; [exact Hd | | | |]; rewrite EW; cbn; unfold tv_ms_add; lia. }
    rewrite EW. cbn. rewrite !Z.eqb_refl. cbn.
    assert (L : lag now (inter (srv w)) (now + inter (srv w)) = 0)
      by (apply lag_early; lia).
    unfold tv_ms_add. rewrite L. repeat split; lia.
  - intros C T.
    pose proof (initiate_tolerated now y w U B C T) as EW.
    eexists _, _. split.
    { apply tick_absorbed; [exact Hd | | |]; rewrite EW; cbn; [exact Hi | reflexivity | exact Hc]. }
    rewrite EW. cbn. rewrite Z.eqb_refl.
    repeat (split; [reflexivity|]).
    split; [apply lag_past, Hi|].
    exists (lag now (inter (srv w)) (expire w)).
    split; [apply lag_late; assumption | reflexivity].
  - intros C T.
    pose proof (initiate_refused now y w U B C T) as EW.
    set (W := initiate now y w) in *.
    assert (W1 : srv W = set_result (-1) (srv w)) by (rewrite EW; reflexivity).
    eexists _, _. split.
    { apply tick_refused; [exact Hd | | |]; fold W; rewrite W1; cbn;
        [exact Hi | discriminate | exact Hc]. }
    fold W.
    cbn [task_queue settle emit set_expire srv px sessions trace task expire fdtab os_open].
    destruct (chk_failure_counts W) as (K1 & K2 & K3 & _).
    destruct (chk_failure_config W) as (_ & _ & K7 & K8 & K6 & _).
    rewrite W1 in K1, K2, K3. cbn in K1, K2, K3.
    rewrite chk_failure_result, chk_failure_curfd, chk_failure_inter, K1, K2, K3, K6, K7, K8, W1.
    cbn [result curfd inter set_result].
    rewrite EW. cbn. rewrite Z.eqb_refl.
    repeat (split; [reflexivity|]).
    apply lag_past, Hi.
Qed.

End Connect.

Lemma connect_outcomes_witness :
  0 < inter (srv demo_world) /\ due 1500 demo_world /\
  usable demo_sys demo_world = true /\ bind_fails demo_sys demo_world = false /\
  connect_accepted demo_sys = true /\ 0 <= socket_ret demo_sys /\
  exists w' next, runs demo_dyn 1500 demo_sys demo_world w' next /\
                  curfd (srv w') = 5 /\
                  cb_wr (fdtab w' 5) = cb_event_srv_chk_w /\
                  expire w' = 3500.
Proof.
  assert (H1 : 0 < inter (srv demo_world)) by (apply Z.ltb_lt; reflexivity).
  assert (H2 : due 1500 demo_world).
  { split; [apply Z.ltb_lt; reflexivity|]. split; [apply Z.leb_le; reflexivity|].
    split; [reflexivity | discriminate]. }
  assert (H3 : 0 <= socket_ret demo_sys) by (apply Z.leb_le; reflexivity).
  split; [exact H1|]. split; [exact H2|].
  split; [reflexivity|]. split; [reflexivity|]. split; [reflexivity|].
  split; [exact H3|].
  destruct (proj1 (connect_outcomes demo_dyn 1500 demo_sys demo_world H1 H2 eq_refl eq_refl)
              eq_refl H3)
    as (w' & next & R & A & _ & _ & B & _ & _ & C & _).
  exists w', next. split; [exact R|]. split; [exact A|]. split; [exact B | exact C].
Defined.

(** C7 as stated fails: when [connect] returns -1 with errno EAGAIN the
    descriptor is not recorded in [curfd] and no callback is registered;
    with errno EISCONN no success is recorded either. *)
Lemma connect_eagain_not_in_progress :
  let y := mk_sys 5 0 0 0 (-1) EAGAIN 18 0 0 0 13 0 [] in
  let z := mk_sys 5 0 0 0 (-1) EISCONN 18 0 0 0 13 0 [] in
  (exists w' next, runs demo_dyn 1500 y demo_world w' next /\
                   curfd (srv w') = -1 /\
                   cb_wr (fdtab w' 5) = cb_none /\
                   poll_wr (fdtab w' 5) = false /\
                   expire w' = 3000) /\
  (exists w' next, runs demo_dyn 1500 z demo_world w' next /\
                   result (srv w') = 0 /\ curfd (srv w') = -1).
Proof.
  cbn zeta. split.
  - assert (E : exists r,
               process_chk demo_dyn 3 1500 (mk_sys 5 0 0 0 (-1) EAGAIN 18 0 0 0 13 0 [])
                 demo_world = Some r /\
               curfd (srv (fst r)) = -1 /\ cb_wr (fdtab (fst r) 5) = cb_none /\
               poll_wr (fdtab (fst r) 5) = false /\ expire (fst r) = 3000).
    { vm_compute. eexists. repeat split. }
    destruct E as ([w' next] & E & H).
    exists w', next. split; [|exact H].
    exact (runs_of_run demo_dyn 1500 _ 3 _ _ _ E).
  - assert (E : exists r,
               process_chk demo_dyn 3 1500 (mk_sys 5 0 0 0 (-1) EISCONN 18 0 0 0 13 0 [])
                 demo_world = Some r /\
               result (srv (fst r)) = 0 /\ curfd (srv (fst r)) = -1).
    { vm_compute. eexists. repeat split. }
    destruct E as ([w' next] & E & H).
    exists w', next. split; [|exact H].
    exact (runs_of_run demo_dyn 1500 _ 3 _ _ _ E).
Qed.

(** ** The probe socket after registration *)

Section Closed.

Variable dyn : server -> proxy -> Z.

(** C4 fails on the code. When a probe is due, the socket is set up, no
    bind error occurred and [connect] is accepted, [process_chk] returns
    with the descriptor recorded in [curfd] and registered with the
    callbacks of the task, and yet closed: the [close(fd)] of line 419,
    meant for the failure paths, follows the registration of lines
    396-412, which does not return. *)
Theorem probe_socket_closed_after_registration (now : Z) (y : sys) (w : world) :
  0 < inter (srv w) -> due now w ->
  usable y w = true -> bind_fails y w = false ->
  connect_accepted y = true -> 0 <= socket_ret y ->
  exists w' next, runs dyn now y w w' next /\
    curfd (srv w') = socket_ret y /\
    owner (fdtab w' (socket_ret y)) = task w /\
    cb_rd (fdtab w' (socket_ret y)) = cb_event_srv_chk_r /\
    cb_wr (fdtab w' (socket_ret y)) = cb_event_srv_chk_w /\
    fdst (fdtab w' (socket_ret y)) = FD_STCONN /\
    os_open w' (socket_ret y) = false /\
    trace w' = trace w ++ [EvFdInsert (socket_ret y); EvTaskQueue (task w);
                           EvClose (socket_ret y); EvTaskQueue (task w)].
Proof.
  intros Hi Hd U B C Hfd.
  pose proof (initiate_accepted now y w U B C) as EW.
  eexists _, _. split.
  { apply tick_started; [exact Hd | | | |]; rewrite EW; cbn; unfold tv_ms_add; lia. }
  rewrite EW. cbn. rewrite !Z.eqb_refl. cbn. rewrite <- !app_assoc.
  repeat split.
Qed.

End Closed.

Lemma probe_socket_closed_witness :
  0 < inter (srv demo_world) /\ due 1500 demo_world /\
  usable demo_sys demo_world = true /\ bind_fails demo_sys demo_world = false /\
  connect_accepted demo_sys = true /\ 0 <= socket_ret demo_sys /\
  exists w' next, runs demo_dyn 1500 demo_sys demo_world w' next /\
    curfd (srv w') = 5 /\
    cb_rd (fdtab w' 5) = cb_event_srv_chk_r /\
    cb_wr (fdtab w' 5) = cb_event_srv_chk_w /\
    os_open w' 5 = false /\
    trace w' = [EvFdInsert 5; EvTaskQueue 100; EvClose 5; EvTaskQueue 100].
Proof.
  assert (H1 : 0 < inter (srv demo_world)) by (apply Z.ltb_lt; reflexivity).
  assert (H2 : due 1500 demo_world).
  { split; [apply Z.ltb_lt; reflexivity|]. split; [apply Z.leb_le; reflexivity|].
    split; [reflexivity | discriminate]. }
  assert (H3 : 0 <= socket_ret demo_sys) by (apply Z.leb_le; reflexivity).
  split; [exact H1|]. split; [exact H2|].
  split; [reflexivity|]. split; [reflexivity|]. split; [reflexivity|].
  split; [exact H3|].
  destruct (probe_socket_closed_after_registration demo_dyn 1500 demo_sys demo_world
              H1 H2 eq_refl eq_refl eq_refl H3)
    as (w' & next & R & A & _ & B & C & _ & D & E).
  exists w', next. split; [exact R|]. split; [exact A|]. split; [exact B|].
  split; [exact C|]. split; [exact D | exact E].
Defined.

(** ** The deadline after a tick *)


Section Deadline.

Variable dyn : server -> proxy -> Z.

(** The server is not checked, or its backend is stopped (lines 300-306). *)
Lemma tick_unchecked (now : Z) (y : sys) (w : world) :
  0 < inter (srv w) -> curfd (srv w) < 0 -> expire w <= now ->
  flag (state (srv w)) SRV_CHECKED = false \/ px_state (px w) = PR_STSTOPPED ->
  runs dyn now y w (task_queue (settle now w)) (expire (settle now w)).
Proof.
  intros Hi Hc He Hs.
  exists (S (Z.to_nat (lag now (inter (srv w)) (expire w)))).
  intros fuel Hf. destruct fuel as [|f]; [lia|].
  cbn [process_chk]. unfold pass, tv_isle.
  apply Z.ltb_lt in Hc. apply Z.leb_le in He. rewrite Hc, He. cbn [negb].
  assert (E : negb (flag (state (srv w)) SRV_CHECKED)
              || proxy_state_eqb (px_state (px w)) PR_STSTOPPED = true).
  { destruct Hs as [Hs|Hs]; rewrite Hs; [reflexivity | apply orb_true_r]. }
  rewrite E.
  rewrite (advance_lag now (inter (srv w)) Hi _ (expire w) eq_refl f) by lia.
  reflexivity.
Qed.


End Deadline.



(** ** The drain of the backend queue on an UP edge *)

Section DrainClosed.

Variable dyn : server -> proxy -> Z.
Hypothesis dyn_blind : queue_blind dyn.

Lemma dyn_frame (w w' : world) :
  same_frame w w' -> dyn (srv w') (px w') = dyn (srv w) (px w).
Proof.
  intros (F1 & F2 & _).
  rewrite <- (dyn_blind (srv w') (px w')), <- (dyn_blind (srv w) (px w)).
  now rewrite F1, F2.
Qed.

Lemma drain_closed (q : list pendconn) : forall (n : nat) (x : Z) (w : world),
  px_pendconns (px w) = q -> NoDup (map pc_addr q) -> (length q <= n)%nat ->
  let k := share (maxconn (srv w) =? 0) (dyn (srv w) (px w)) x (length q) in
  exists w', drain dyn n x w = Some (x + Z.of_nat k, w') /\
    same_frame w w' /\
    px_pendconns (px w') = skipn k q /\
    px_nbpend (px w') - Z.of_nat (length (px_pendconns (px w')))
      = px_nbpend (px w) - Z.of_nat (length q) /\
    trace w' = trace w ++ wakeups w (firstn k q) /\
    (forall a, sessions w' a
               = if names (firstn k q) a
                 then assign (srv_id (srv w)) (sessions w a) else sessions w a).
Proof.
  induction q as [|p q IH]; intros n x w Hq Hnd Hn; cbn zeta.
  - assert (K : share (maxconn (srv w) =? 0) (dyn (srv w) (px w)) x 0 = 0%nat)
      by (unfold share; destruct (maxconn (srv w) =? 0); reflexivity).
    cbn [length]. rewrite K. exists w.
    split.
    { rewrite Z.add_0_r. destruct n; cbn [drain]; unfold pendconn_from_px; rewrite Hq;
        destruct ((maxconn (srv w) =? 0) || (x <? dyn (srv w) (px w))); reflexivity. }
    split; [apply same_frame_refl|].
    cbn. rewrite app_nil_r, Hq. repeat split.
  - destruct n as [|n]; [cbn in Hn; lia|].
    cbn [drain]. unfold pendconn_from_px at 1. rewrite Hq.
    destruct ((maxconn (srv w) =? 0) || (x <? dyn (srv w) (px w))) eqn:Go.
    + set (w3 := task_wakeup _ _).
      assert (F : same_frame w w3) by (subst w3; repeat split).
      assert (Q3 : px_pendconns (px w3) = q).
      { subst w3. cbn. rewrite Hq. apply unlink_head_nodup, Hnd. }
      assert (Hnd' : NoDup (map pc_addr q)) by (cbn in Hnd; now apply NoDup_cons_iff in Hnd).
      destruct (IH n (x + 1) w3 Q3 Hnd' ltac:(cbn in Hn; lia))
        as (w' & D & F' & P & Nb & T & Ss).
      assert (Em : maxconn (srv w3) = maxconn (srv w)) by reflexivity.
      assert (Ed : dyn (srv w3) (px w3) = dyn (srv w) (px w)) by (apply dyn_frame, F).
      rewrite Em, Ed in *.
      assert (K : share (maxconn (srv w) =? 0) (dyn (srv w) (px w)) x (length (p :: q))
                  = S (share (maxconn (srv w) =? 0) (dyn (srv w) (px w)) (x + 1) (length q))).
      { unfold share. destruct (maxconn (srv w) =? 0); [reflexivity|].
        cbn [orb] in Go. apply Z.ltb_lt in Go.
        replace (Z.to_nat (dyn (srv w) (px w) - x))
          with (S (Z.to_nat (dyn (srv w) (px w) - (x + 1)))) by lia.
        reflexivity. }
      rewrite K.
      set (k := share (maxconn (srv w) =? 0) (dyn (srv w) (px w)) (x + 1) (length q)) in *.
      exists w'. split; [rewrite D; f_equal; f_equal; lia|].
      split; [exact (same_frame_trans _ _ _ F F')|].
      split; [exact P|].
      split.
      { assert (N3 : px_nbpend (px w3)
                     = px_nbpend (px w) - removed p (px_pendconns (px w))) by reflexivity.
        rewrite Nb, N3, Hq. unfold removed. rewrite (unlink_head_nodup p q Hnd).
        cbn [length]. lia. }
      assert (Ht : forall a, sess_task (sessions w3 a) = sess_task (sessions w a)).
      { intros a. subst w3. cbn. destruct (Nat.eqb a (pc_sess p)) eqn:E; [|reflexivity].
        apply Nat.eqb_eq in E. subst a. reflexivity. }
      split.
      { rewrite T. cbn [firstn wakeups map].
        replace (wakeups w3 (firstn k q)) with (wakeups w (firstn k q))
          by (unfold wakeups; apply map_ext; intros c; now rewrite Ht).
        subst w3. cbn. rewrite Nat.eqb_refl. cbn. rewrite <- app_assoc. reflexivity. }
      intros a. rewrite Ss. cbn [firstn names existsb].
      fold (names (firstn k q) a).
      subst w3. cbn. rewrite (Nat.eqb_sym (pc_sess p) a).
      destruct (Nat.eqb a (pc_sess p)) eqn:E; cbn [orb]; [|reflexivity].
      apply Nat.eqb_eq in E. subst a.
      destruct (names (firstn k q) (pc_sess p)); reflexivity.
    + assert (K : share (maxconn (srv w) =? 0) (dyn (srv w) (px w)) x (length (p :: q)) = 0%nat).
      { unfold share. apply orb_false_iff in Go as [G1 G2]. rewrite G1.
        apply Z.ltb_ge in G2. replace (Z.to_nat (dyn (srv w) (px w) - x)) with 0%nat by lia.
        apply Nat.min_0_r. }
      rewrite K. exists w. split; [now rewrite Z.add_0_r|].
      split; [apply same_frame_refl|].
      cbn. rewrite app_nil_r, Hq. repeat split.
Qed.

(** C9. On an UP edge the entries of the backend queue are taken from its
    head, in order, and given to the server now UP: when [maxconn] is 0
    all of them are taken and the queue is left empty; otherwise as many
    as the queue holds, and at most [srv_dynamic_maxconn(s)]. Each entry
    taken has its session's [srv] set to the server, is out of the queue,
    and has its session's task woken, in queue order; the other sessions
    are untouched and the entries not taken stay, in order. (The nodes of
    a queue are distinct, and the capacity does not read the queues.) *)
Theorem up_edge_drain (now : Z) (y : sys) (w : world) :
  0 < inter (srv w) -> 0 <= curfd (srv w) -> 0 < result (srv w) ->
  health (srv w) + 1 = rise (srv w) ->
  NoDup (map pc_addr (px_pendconns (px w))) ->
  let q := px_pendconns (px w) in
  let k := share (maxconn (srv w) =? 0) (capacity dyn w) 0 (length q) in
  exists w' next, runs dyn now y w w' next /\
    px_pendconns (px w') = skipn k q /\
    (maxconn (srv w) = 0 -> k = length q /\ px_pendconns (px w') = []) /\
    (maxconn (srv w) <> 0 ->
       k = Nat.min (length q) (Z.to_nat (capacity dyn w)) /\
       Z.of_nat k <= Z.max 0 (capacity dyn w)) /\
    (forall pc, In pc (firstn k q) ->
       sess_srv (sessions w' (pc_sess pc)) = Some (srv_id (srv w)) /\
       ~ In pc (px_pendconns (px w')) /\
       In (EvTaskWakeup (sess_task (sessions w' (pc_sess pc)))) (trace w')) /\
    (forall a, names (firstn k q) a = false -> sessions w' a = sessions w a) /\
    exists m, trace w' = trace w ++ [EvRecount; EvRecalcMap]
                         ++ wakeups w (firstn k q)
                         ++ [EvWarning m; EvSendLog LOG_NOTICE m]
                         ++ [EvFdDelete (curfd (srv w)); EvTaskQueue (task w)].
Proof.
  intros Hi Hc Hr Hh Hnd. cbn zeta.
  set (q := px_pendconns (px w)).
  set (k := share (maxconn (srv w) =? 0) (capacity dyn w) 0 (length q)).
  destruct (chk_success_edge dyn w Hh) as (w1 & U & E).
  set (w2 := recalc_server_map (recount_servers (risen w))).
  destruct (drain_closed q (length q) 0 w2 eq_refl Hnd (le_n _))
    as (w3 & D & F & P & _ & T & Ss).
  change (maxconn (srv w2)) with (maxconn (srv w)) in D, P, T, Ss.
  change (dyn (srv w2) (px w2)) with (capacity dyn w) in D, P, T, Ss.
  fold k in D, P, T, Ss.
  unfold up_edge in U. fold w2 in U.
  change (px_pendconns (px w2)) with q in U. rewrite D in U.
  injection U as <-.
  eexists _, _. split; [exact (tick_success dyn now y w _ Hi Hc Hr E)|].
  cbn [task_queue settle release fd_delete emit set_open with_fd with_srv set_expire
       send_log Warning srv px sessions trace task].
  destruct F as (_ & _ & Ft & _).
  split; [exact P|].
  split.
  { intros M. assert (K : k = length q) by (unfold k, share; now rewrite M).
    split; [exact K|]. rewrite P, K. apply skipn_all. }
  split.
  { intros M. apply Z.eqb_neq in M.
    assert (K : k = Nat.min (length q) (Z.to_nat (capacity dyn w)))
      by (unfold k, share; rewrite M, Z.sub_0_r; reflexivity).
    split; [exact K | lia]. }
  split.
  { intros pc Hin. rewrite Ss, (names_in _ _ Hin).
    split; [reflexivity|]. split.
    - rewrite P. intros Hout.
      assert (Hq : NoDup q) by (apply (NoDup_map_inv pc_addr), Hnd).
      rewrite <- (firstn_skipn k q) in Hq.
      apply NoDup_app_remove_l in Hq as Hq'.
      clear Hq'. revert Hq Hin Hout. generalize (firstn k q) (skipn k q).
      intros a b. induction a as [|z a IH]; intros Hab Hin Hout; [destruct Hin|].
      cbn in Hab. apply NoDup_cons_iff in Hab as [H1 H2].
      destruct Hin as [<-|Hin].
      + apply H1, in_or_app. right. exact Hout.
      + exact (IH H2 Hin Hout).
    - rewrite T, <- !app_assoc. cbn [assign set_sess_srv sess_task].
      apply in_or_app. right. apply in_or_app. left.
      apply (in_map (fun c => EvTaskWakeup (sess_task (sessions w (pc_sess c))))).
      exact Hin. }
  split.
  { intros a Ha. rewrite Ss, Ha. reflexivity. }
  eexists. rewrite T, Ft. cbn [trace w2 recalc_server_map recount_servers emit with_px risen with_srv task].
  rewrite <- !app_assoc. cbn [app]. reflexivity.
Qed.

End DrainClosed.

Lemma up_edge_drain_witness :
  queue_blind demo_dyn /\
  0 < inter (srv demo_rising) /\ 0 <= curfd (srv demo_rising) /\
  0 < result (srv demo_rising) /\
  health (srv demo_rising) + 1 = rise (srv demo_rising) /\
  NoDup (map pc_addr (px_pendconns (px demo_rising))) /\
  exists w' next, runs demo_dyn 1500 demo_sys demo_rising w' next /\
                  px_pendconns (px w') = [mk_pendconn 3 13].
Proof.
  assert (H0 : queue_blind demo_dyn) by (intros s p; reflexivity).
  assert (H1 : 0 < inter (srv demo_rising)) by (apply Z.ltb_lt; reflexivity).
  assert (H2 : 0 <= curfd (srv demo_rising)) by (apply Z.leb_le; reflexivity).
  assert (H3 : 0 < result (srv demo_rising)) by (apply Z.ltb_lt; reflexivity).
  assert (H4 : health (srv demo_rising) + 1 = rise (srv demo_rising)) by reflexivity.
  assert (H5 : NoDup (map pc_addr (px_pendconns (px demo_rising)))).
  { cbn. repeat constructor; cbn; intuition discriminate. }
  repeat (split; [assumption|]).
  destruct (up_edge_drain demo_dyn H0 1500 demo_sys demo_rising H1 H2 H3 H4 H5)
    as (w' & next & R & P & _).
  exists w', next. split; [exact R | exact P].
Defined.

(** * The handlers, the ticks and the probe cycles *)

(** ** Entries of the descriptor table *)

Lemma with_fd_same (fd : Z) (f : fdentry -> fdentry) (w : world) :
  fdtab (with_fd fd f w) fd = f (fdtab w fd).
Proof. cbn. rewrite Z.eqb_refl. reflexivity. Qed.

Lemma with_fd_other (fd k : Z) (f : fdentry -> fdentry) (w : world) :
  k <> fd -> fdtab (with_fd fd f w) k = fdtab w k.
Proof. intros H. cbn. apply Z.eqb_neq in H. rewrite H. reflexivity. Qed.

Lemma fd_state_eqb_eq (a b : fd_state) : fd_state_eqb a b = true <-> a = b.
Proof. destruct a, b; cbn; split; congruence. Qed.

(** ** The write-side handler *)

Ltac fd_simpl :=
  cbn [orb andb negb fst snd w_out_error w_out_wakeup w_out_nowake w_out_poll r_out_wakeup
       task_wakeup emit with_fd with_srv with_px
       srv px sessions task expire fdtab os_open maxsock trace
       set_result set_fdst set_ev set_poll_rd set_poll_wr set_check_req
       result owner cb_rd cb_wr fdst ev poll_rd poll_wr check_req];
  rewrite ?Z.eqb_refl;
  cbn [fst snd srv px sessions task expire fdtab os_open maxsock trace
       set_result set_fdst set_ev set_poll_rd set_poll_wr set_check_req
       result owner cb_rd cb_wr fdst ev poll_rd poll_wr check_req].

(** X1. A check that sends no request (no HTTP, SSL3 or SMTP option), on
    a descriptor without error and with no failure stored: the write-side
    handler calls [connect] again and reads [errno], taken as 0 when the
    call returns 0. On EALREADY or EINPROGRESS it returns 0 and leaves the
    server, the trace, the state and the write polling of the descriptor
    as they were. On 0 or EISCONN it stores a success, wakes the owner of
    the descriptor, stops the write polling and returns 1. On any other
    value it stores a failure, marks the descriptor FD_STERROR, wakes the
    owner, stops the write polling and returns 1. *)
Theorem write_side_connect (fd now : Z) (y : sys) (w : world) :
  fd_error fd w = false -> result (srv w) <> -1 -> has_request (px w) = false ->
  let e := reconnect_errno y in
  let r := event_srv_chk_w fd now y w in
  (e = EALREADY \/ e = EINPROGRESS ->
     fst r = 0 /\ srv (snd r) = srv w /\ trace (snd r) = trace w /\
     fdst (fdtab (snd r) fd) = fdst (fdtab w fd) /\
     poll_wr (fdtab (snd r) fd) = poll_wr (fdtab w fd)) /\
  (e = 0 \/ e = EISCONN ->
     fst r = 1 /\ result (srv (snd r)) = 1 /\ woken fd w (snd r) /\
     fdst (fdtab (snd r) fd) = fdst (fdtab w fd) /\
     poll_wr (fdtab (snd r) fd) = false) /\
  (e <> EALREADY -> e <> EINPROGRESS -> e <> 0 -> e <> EISCONN ->
     fst r = 1 /\ result (srv (snd r)) = -1 /\ woken fd w (snd r) /\
     fdst (fdtab (snd r) fd) = FD_STERROR /\
     poll_wr (fdtab (snd r) fd) = false).
Proof.
  intros He Hr Hq e r. subst r. unfold event_srv_chk_w.
  unfold fd_error in He. rewrite He.
  apply Z.eqb_neq in Hr. rewrite Hr. cbn [negb].
  unfold has_request in Hq. rewrite Hq.
  fold (reconnect_errno y). fold e. unfold woken.
  split; [|split].
  - intros H.
    assert (E : (e =? EALREADY) || (e =? EINPROGRESS) = true).
    { apply orb_true_iff. destruct H; [left|right]; apply Z.eqb_eq; assumption. }
    rewrite E. fd_simpl. repeat split.
  - intros H.
    assert (E : (e =? EALREADY) || (e =? EINPROGRESS) = false).
    { apply orb_false_iff. split; apply Z.eqb_neq; unfold EALREADY, EINPROGRESS, EISCONN in *;
        destruct H; lia. }
    assert (E' : negb (e =? 0) && negb (e =? EISCONN) = false).
    { destruct H as [H|H]; rewrite H; [reflexivity | apply andb_false_r]. }
    rewrite E, E'. fd_simpl. repeat split.
  - intros H1 H2 H3 H4.
    apply Z.eqb_neq in H1, H2, H3, H4. rewrite H1, H2, H3, H4.
    fd_simpl. repeat split.
Qed.

Lemma write_side_connect_witness :
  fd_error 5 demo_tcp = false /\ result (srv demo_tcp) <> -1 /\
  has_request (px demo_tcp) = false /\
  fst (event_srv_chk_w 5 1500 demo_sys demo_tcp) = 1 /\
  result (srv (snd (event_srv_chk_w 5 1500 demo_sys demo_tcp))) = 1.
Proof.
  assert (H : result (srv demo_tcp) <> -1) by (cbn; lia).
  split; [reflexivity|]. split; [exact H|]. split; [reflexivity|].
  destruct (proj1 (proj2 (write_side_connect 5 1500 demo_sys demo_tcp eq_refl H eq_refl))
              (or_introl eq_refl)) as (A & B & _).
  split; [exact A | exact B].
Defined.

(** X2. A check that sends a request, on a descriptor without error and
    with no failure stored. When [send] takes the whole request, the
    handler starts the read polling, stops the write polling, returns 1,
    stores no result and does not wake the task. When it does not and
    [send] returned 0 or [errno] is EAGAIN, the handler returns 0 and
    changes neither the server nor the polling. In every other case it
    stores a failure, marks the descriptor FD_STERROR, wakes the owner,
    stops the write polling and returns 1. *)
Theorem write_side_request (fd now : Z) (y : sys) (w : world) :
  fd_error fd w = false -> result (srv w) <> -1 -> has_request (px w) = true ->
  let r := event_srv_chk_w fd now y w in
  (send_ret y = check_len (px w) ->
     fst r = 1 /\ srv (snd r) = srv w /\ trace (snd r) = trace w /\
     fdst (fdtab (snd r) fd) = fdst (fdtab w fd) /\
     poll_rd (fdtab (snd r) fd) = true /\ poll_wr (fdtab (snd r) fd) = false) /\
  (send_ret y <> check_len (px w) -> send_ret y = 0 \/ send_errno y = EAGAIN ->
     fst r = 0 /\ srv (snd r) = srv w /\ trace (snd r) = trace w /\
     fdst (fdtab (snd r) fd) = fdst (fdtab w fd) /\
     poll_rd (fdtab (snd r) fd) = poll_rd (fdtab w fd) /\
     poll_wr (fdtab (snd r) fd) = poll_wr (fdtab w fd)) /\
  (send_ret y <> check_len (px w) -> send_ret y <> 0 -> send_errno y <> EAGAIN ->
     fst r = 1 /\ result (srv (snd r)) = -1 /\ woken fd w (snd r) /\
     fdst (fdtab (snd r) fd) = FD_STERROR /\
     poll_rd (fdtab (snd r) fd) = poll_rd (fdtab w fd) /\
     poll_wr (fdtab (snd r) fd) = false).
Proof.
  intros He Hr Hq r. subst r. unfold event_srv_chk_w.
  unfold fd_error in He. rewrite He.
  apply Z.eqb_neq in Hr. rewrite Hr. cbn [negb].
  unfold has_request in Hq. rewrite Hq. unfold woken.
  assert (L : forall b : bool,
            check_len (px (if b then with_px (fun p => set_check_req (patch_time (check_req p) (now / 1000)) p) w else w))
            = check_len (px w)) by (intros []; reflexivity).
  rewrite L.
  split; [|split].
  - intros H. apply Z.eqb_eq in H. rewrite H.
    destruct (flag (px_options (px w)) PR_O_SSL3_CHK); fd_simpl; repeat split.
  - intros H H'. apply Z.eqb_neq in H. rewrite H.
    assert (E : (send_ret y =? 0) || (send_errno y =? EAGAIN) = true).
    { apply orb_true_iff. destruct H'; [left|right]; apply Z.eqb_eq; assumption. }
    rewrite E.
    destruct (flag (px_options (px w)) PR_O_SSL3_CHK); fd_simpl; repeat split.
  - intros H H1 H2. apply Z.eqb_neq in H, H1, H2. rewrite H, H1, H2.
    destruct (flag (px_options (px w)) PR_O_SSL3_CHK); fd_simpl; repeat split.
Qed.

Lemma write_side_request_witness :
  fd_error 5 (demo_running 0) = false /\ result (srv (demo_running 0)) <> -1 /\
  has_request (px (demo_running 0)) = true /\
  fst (event_srv_chk_w 5 1500 demo_sys (demo_running 0)) = 1 /\
  poll_rd (fdtab (snd (event_srv_chk_w 5 1500 demo_sys (demo_running 0))) 5) = true.
Proof.
  assert (H : result (srv (demo_running 0)) <> -1) by (cbn; lia).
  split; [reflexivity|]. split; [exact H|]. split; [reflexivity|].
  destruct (proj1 (write_side_request 5 1500 demo_sys (demo_running 0) eq_refl H eq_refl)
              eq_refl) as (A & _ & _ & _ & B & _).
  split; [exact A | exact B].
Defined.

(** X3. The return contract of the write-side handler. It returns 0 or 1
    and always clears FD_POLL_WR in the events of the descriptor. When it
    returns 0 the descriptor had no error and the server, the trace, the
    state and the polling of the descriptor are unchanged. When it returns
    1 the write polling is stopped and either the owner of the descriptor
    was woken, or the whole request was sent, the read polling is on and
    the server and the trace are unchanged. A descriptor in error gives a
    stored failure, FD_STERROR and a wake-up; a failure stored earlier
    gives a wake-up and leaves the server and the state of the descriptor
    as they were; in both cases nothing is written into the request. *)
Theorem write_side_returns (fd now : Z) (y : sys) (w : world) :
  let r := event_srv_chk_w fd now y w in
  (fst r = 0 \/ fst r = 1) /\
  flag (ev (fdtab (snd r) fd)) FD_POLL_WR = false /\
  (fst r = 0 ->
     fd_error fd w = false /\ srv (snd r) = srv w /\ trace (snd r) = trace w /\
     fdst (fdtab (snd r) fd) = fdst (fdtab w fd) /\
     poll_rd (fdtab (snd r) fd) = poll_rd (fdtab w fd) /\
     poll_wr (fdtab (snd r) fd) = poll_wr (fdtab w fd)) /\
  (fst r = 1 ->
     poll_wr (fdtab (snd r) fd) = false /\
     (woken fd w (snd r) \/
      (trace (snd r) = trace w /\ srv (snd r) = srv w /\
       has_request (px w) = true /\ send_ret y = check_len (px w) /\
       poll_rd (fdtab (snd r) fd) = true))) /\
  (fd_error fd w = true ->
     fst r = 1 /\ result (srv (snd r)) = -1 /\ woken fd w (snd r) /\
     fdst (fdtab (snd r) fd) = FD_STERROR /\ px (snd r) = px w) /\
  (fd_error fd w = false -> result (srv w) = -1 ->
     fst r = 1 /\ srv (snd r) = srv w /\ woken fd w (snd r) /\
     fdst (fdtab (snd r) fd) = fdst (fdtab w fd) /\ px (snd r) = px w).
Proof.
  intros r. subst r. unfold event_srv_chk_w, woken.
  fold (fd_error fd w). fold (has_request (px w)). fold (reconnect_errno y).
  assert (L : forall b : bool,
            check_len (px (if b then with_px (fun p => set_check_req (patch_time (check_req p) (now / 1000)) p) w else w))
            = check_len (px w)) by (intros []; reflexivity).
  rewrite L.
  destruct (fd_error fd w) eqn:He.
  { fd_simpl. rewrite flag_clear.
    repeat split; try discriminate; auto. }
  destruct (result (srv w) =? -1) eqn:Hr; cbn [negb].
  { apply Z.eqb_eq in Hr. fd_simpl. rewrite flag_clear.
    repeat split; try discriminate; auto; intros; try lia. }
  apply Z.eqb_neq in Hr.
  destruct (has_request (px w)) eqn:Hq.
  - destruct (send_ret y =? check_len (px w)) eqn:Hs.
    + apply Z.eqb_eq in Hs.
      destruct (flag (px_options (px w)) PR_O_SSL3_CHK); fd_simpl; rewrite flag_clear;
        (repeat split; try discriminate; auto; intros; try lia;
         right; repeat split; assumption).
    + destruct ((send_ret y =? 0) || (send_errno y =? EAGAIN));
        destruct (flag (px_options (px w)) PR_O_SSL3_CHK); fd_simpl; rewrite flag_clear;
        (repeat split; try discriminate; auto; intros; try lia).
  - destruct ((reconnect_errno y =? EALREADY) || (reconnect_errno y =? EINPROGRESS)).
    + fd_simpl; rewrite flag_clear;
        (repeat split; try discriminate; auto; intros; try lia).
    + destruct (negb (reconnect_errno y =? 0) && negb (reconnect_errno y =? EISCONN));
        fd_simpl; rewrite flag_clear;
        (repeat split; try discriminate; auto; intros; try lia).
Qed.

(** ** What the handlers leave alone *)

Lemma probe_frame_refl (fd : Z) (w : world) : probe_frame fd w w.
Proof. repeat split. Qed.

Lemma probe_frame_trans (fd : Z) (a b c : world) :
  probe_frame fd a b -> probe_frame fd b c -> probe_frame fd a c.
Proof.
  intros (A1 & A2 & A3 & A4 & A5 & A6 & A7 & A8 & A9 & A10 & A11)
         (B1 & B2 & B3 & B4 & B5 & B6 & B7 & B8 & B9 & B10 & B11).
  repeat split; try congruence.
  intros k Hk. rewrite (B8 k Hk). apply A8, Hk.
Qed.

Lemma probe_frame_fd (fd : Z) (f : fdentry -> fdentry) (w : world) :
  (forall e, owner (f e) = owner e /\ cb_rd (f e) = cb_rd e /\ cb_wr (f e) = cb_wr e) ->
  probe_frame fd w (with_fd fd f w).
Proof.
  intros H. destruct (H (fdtab w fd)) as (H1 & H2 & H3).
  repeat split; try (rewrite with_fd_same; assumption).
  intros k Hk. apply with_fd_other, Hk.
Qed.

Lemma probe_frame_result (fd v : Z) (w : world) :
  probe_frame fd w (with_srv (set_result v) w).
Proof. repeat split. Qed.

Lemma probe_frame_req (fd : Z) (f : list byte -> list byte) (w : world) :
  probe_frame fd w (with_px (fun p => set_check_req (f (check_req p)) p) w).
Proof. repeat split. Qed.

Lemma probe_frame_emit (fd : Z) (e : event) (w : world) :
  probe_frame fd w (emit e w).
Proof. repeat split. Qed.

Lemma w_out_nowake_frame (fd : Z) (w : world) : probe_frame fd w (snd (w_out_nowake fd w)).
Proof. apply probe_frame_fd. intros e. repeat split. Qed.

Lemma w_out_wakeup_frame (fd : Z) (w : world) : probe_frame fd w (snd (w_out_wakeup fd w)).
Proof.
  unfold w_out_wakeup.
  eapply probe_frame_trans; [apply (probe_frame_emit fd)|apply w_out_nowake_frame].
Qed.

Lemma w_out_poll_frame (fd : Z) (w : world) : probe_frame fd w (snd (w_out_poll fd w)).
Proof. apply probe_frame_fd. intros e. repeat split. Qed.

Lemma w_out_error_frame (fd : Z) (w : world) : probe_frame fd w (snd (w_out_error fd w)).
Proof.
  unfold w_out_error.
  eapply probe_frame_trans; [apply (probe_frame_result fd (-1))|].
  eapply probe_frame_trans; [|apply w_out_wakeup_frame].
  apply probe_frame_fd. intros e. repeat split.
Qed.

Lemma r_out_wakeup_frame (fd : Z) (w : world) : probe_frame fd w (snd (r_out_wakeup fd w)).
Proof.
  unfold r_out_wakeup. cbn [snd].
  eapply probe_frame_trans; [apply (probe_frame_fd fd (set_poll_rd false)); intros e; repeat split|].
  eapply probe_frame_trans; [apply (probe_frame_emit fd)|].
  apply probe_frame_fd. intros e. repeat split.
Qed.

(** X4. The two handlers leave alone everything but [result], the text of
    the request, the state, events and polling of their descriptor, and
    the trace: the other fields of the server (health, state word,
    [curfd], counters, queue), the counters and queue of the backend, the
    sessions, the task and its deadline, the open descriptors, the other
    entries of [fdtab], and the owner and the callbacks of their own
    entry. The read-side handler does not touch the backend at all; the
    write-side handler touches it only under the SSL3 option. *)
Theorem handlers_frame (fd now : Z) (y : sys) (w : world) :
  probe_frame fd w (snd (event_srv_chk_w fd now y w)) /\
  probe_frame fd w (snd (event_srv_chk_r fd y w)) /\
  px (snd (event_srv_chk_r fd y w)) = px w /\
  (flag (px_options (px w)) PR_O_SSL3_CHK = false ->
   px (snd (event_srv_chk_w fd now y w)) = px w).
Proof.
  split; [|split; [|split]].
  - unfold event_srv_chk_w.
    destruct (_ || _); [apply w_out_error_frame|].
    destruct (negb _); [|apply w_out_wakeup_frame].
    destruct (_ || _ || _).
    + set (w1 := if flag (px_options (px w)) PR_O_SSL3_CHK then _ else w).
      assert (F : probe_frame fd w w1).
      { subst w1. destruct (flag _ _); [|apply probe_frame_refl].
        exact (probe_frame_req fd (fun r => patch_time r (now / 1000)) w). }
      destruct (_ =? _).
      * eapply probe_frame_trans; [exact F|].
        eapply probe_frame_trans; [|apply w_out_nowake_frame].
        apply probe_frame_fd. intros e. repeat split.
      * destruct (_ || _); (eapply probe_frame_trans; [exact F|]);
          [apply w_out_poll_frame | apply w_out_error_frame].
    + destruct (_ || _); [apply w_out_poll_frame|].
      destruct (_ && _); [apply w_out_error_frame|].
      eapply probe_frame_trans; [apply (probe_frame_result fd 1)|apply w_out_wakeup_frame].
  - unfold event_srv_chk_r.
    destruct (read_error fd y w).
    + eapply probe_frame_trans; [apply (probe_frame_result fd (-1))|].
      eapply probe_frame_trans; [|apply r_out_wakeup_frame].
      apply probe_frame_fd. intros e. repeat split.
    + destruct (read_again y).
      * cbn [snd]. apply probe_frame_fd. intros e. repeat split.
      * set (c := classify _ _ _).
        set (w1 := if c =? -1 then _ else w).
        assert (F : probe_frame fd w w1).
        { subst w1. destruct (c =? -1); [|apply probe_frame_refl].
          apply probe_frame_fd. intros e. repeat split. }
        set (w2 := if negb (result (srv w1) =? -1) then _ else w1).
        assert (F2 : probe_frame fd w1 w2).
        { subst w2. destruct (negb _); [apply probe_frame_result|apply probe_frame_refl]. }
        eapply probe_frame_trans; [exact F|].
        eapply probe_frame_trans; [exact F2|]. apply r_out_wakeup_frame.
  - unfold event_srv_chk_r.
    destruct (read_error fd y w); [reflexivity|].
    destruct (read_again y); [reflexivity|].
    destruct (classify _ _ _ =? -1); cbn [with_fd srv result];
      destruct (negb _); reflexivity.
  - intros H. unfold event_srv_chk_w. rewrite H.
    destruct (_ || _); [reflexivity|].
    destruct (negb _); [|reflexivity].
    destruct (_ || _ || _).
    + destruct (_ =? _); [reflexivity|]. destruct (_ || _); reflexivity.
    + destruct (_ || _); [reflexivity|]. destruct (_ && _); reflexivity.
Qed.

(** ** The time stamp of the SSLv3 hello *)

Lemma byte_of_Z_value (z : Z) : Z.of_N (Byte.to_N (byte_of_Z z)) = z mod 256.
Proof.
  unfold byte_of_Z.
  pose proof (Z.mod_pos_bound z 256 ltac:(lia)) as B.
  destruct (Byte.of_N (Z.to_N (z mod 256))) as [b|] eqn:E.
  - apply Byte.to_of_N in E. rewrite E. apply Z2N.id. lia.
  - apply Byte.of_N_None_iff in E. lia.
Qed.

Lemma ntohl_htonl (v : Z) : ntohl_bytes (htonl_bytes v) = v mod 4294967296.
Proof.
  unfold ntohl_bytes, htonl_bytes. cbn [fold_left].
  rewrite !byte_of_Z_value.
  set (u := v mod 4294967296).
  assert (B : 0 <= u < 4294967296) by (apply Z.mod_pos_bound; lia).
  assert (D3 : u / 16777216 = u / 65536 / 256) by (rewrite Z.div_div; [reflexivity | lia | lia]).
  assert (D2 : u / 65536 = u / 256 / 256) by (rewrite Z.div_div; [reflexivity | lia | lia]).
  assert (S3 : (u / 16777216) mod 256 = u / 16777216).
  { apply Z.mod_small. split; [apply Z.div_pos; lia|].
    apply Z.div_lt_upper_bound; lia. }
  rewrite S3.
  pose proof (Z.div_mod u 256 ltac:(lia)) as M0.
  pose proof (Z.div_mod (u / 256) 256 ltac:(lia)) as M1.
  pose proof (Z.div_mod (u / 65536) 256 ltac:(lia)) as M2.
  rewrite <- D2 in M1. rewrite <- D3 in M2. lia.
Qed.

Lemma patch_time_spec (req : list byte) (sec : Z) :
  (15 <= length req)%nat ->
  length (patch_time req sec) = length req /\
  (forall i, (i < 11 \/ 15 <= i)%nat ->
     nth i (patch_time req sec) x00 = nth i req x00) /\
  ntohl_bytes (firstn 4 (skipn 11 (patch_time req sec))) = sec mod 4294967296.
Proof.
  intros H. unfold patch_time.
  assert (L1 : length (firstn 11 req) = 11%nat) by (rewrite length_firstn; lia).
  assert (L2 : length (htonl_bytes sec) = 4%nat) by reflexivity.
  split; [|split].
  - rewrite !length_app, L1, L2, length_skipn. lia.
  - intros i [Hi|Hi].
    + rewrite app_nth1 by lia. rewrite nth_firstn.
      assert (E : (i <? 11)%nat = true) by (apply Nat.ltb_lt; lia).
      rewrite E. reflexivity.
    + rewrite app_nth2 by lia. rewrite app_nth2 by lia.
      rewrite nth_skipn, L1, L2. f_equal. lia.
  - rewrite skipn_app, L1, Nat.sub_diag.
    rewrite (skipn_all2 (n := 11)) by lia.
    cbn [app skipn]. rewrite firstn_app, L2.
    rewrite (firstn_all2 (n := 4)) by (rewrite L2; lia).
    cbn [Nat.sub firstn]. rewrite app_nil_r. apply ntohl_htonl.
Qed.

(** X5. Under the SSL3 option, on a descriptor without error and with no
    failure stored, the write-side handler writes the time into a request
    of at least 15 bytes: the request keeps its length, its bytes outside
    positions 11 to 14 are unchanged, and the four bytes at positions 11
    to 14, read in network order, are [now / 1000], the seconds of [now],
    modulo 2^32. *)
Theorem write_side_ssl3_time (fd now : Z) (y : sys) (w : world) :
  fd_error fd w = false -> result (srv w) <> -1 ->
  flag (px_options (px w)) PR_O_SSL3_CHK = true ->
  (15 <= length (check_req (px w)))%nat ->
  let req' := check_req (px (snd (event_srv_chk_w fd now y w))) in
  length req' = length (check_req (px w)) /\
  (forall i, (i < 11 \/ 15 <= i)%nat -> nth i req' x00 = nth i (check_req (px w)) x00) /\
  ntohl_bytes (firstn 4 (skipn 11 req')) = (now / 1000) mod 4294967296.
Proof.
  intros He Hr Hs Hl req'.
  assert (E : req' = patch_time (check_req (px w)) (now / 1000)).
  { subst req'. unfold event_srv_chk_w.
    unfold fd_error in He. rewrite He.
    apply Z.eqb_neq in Hr. rewrite Hr. cbn [negb]. rewrite Hs.
    rewrite orb_true_r. cbn [orb].
    destruct (send_ret y =? _); [reflexivity|].
    destruct ((send_ret y =? 0) || _); reflexivity. }
  rewrite E. apply patch_time_spec, Hl.
Qed.

Lemma write_side_ssl3_time_witness :
  fd_error 5 demo_ssl3 = false /\ result (srv demo_ssl3) <> -1 /\
  flag (px_options (px demo_ssl3)) PR_O_SSL3_CHK = true /\
  (15 <= length (check_req (px demo_ssl3)))%nat /\
  ntohl_bytes (firstn 4 (skipn 11
    (check_req (px (snd (event_srv_chk_w 5 1500000 demo_sys demo_ssl3)))))) = 1500.
Proof.
  assert (H : result (srv demo_ssl3) <> -1) by (cbn; lia).
  assert (L : (15 <= length (check_req (px demo_ssl3)))%nat) by (cbn; lia).
  split; [reflexivity|]. split; [exact H|]. split; [reflexivity|]. split; [exact L|].
  exact (proj2 (proj2 (write_side_ssl3_time 5 1500000 demo_sys demo_ssl3 eq_refl H eq_refl L))).
Defined.

(** ** The read-side handler *)

Lemma classify_values (options len : Z) (reply : list byte) :
  classify options len reply = 1 \/ classify options len reply = -1.
Proof.
  unfold classify.
  destruct (_ && _ && _ && _); [left; reflexivity|].
  destruct (_ && _ && _); [left; reflexivity|].
  destruct (_ && _ && _); [left|right]; reflexivity.
Qed.

(** X6. The return contract of the read-side handler. It returns 0 or 1,
    and 0 exactly when there is no error on the descriptor and [recv]
    failed with EAGAIN. It always clears FD_POLL_RD in the events of the
    descriptor and never changes the write polling. When it returns 0 the
    server, the trace, the state and the read polling of the descriptor
    are unchanged. When it returns 1 the read polling is stopped and the
    owner of the descriptor is woken, once. An error on the descriptor
    (its state, its events, [getsockopt] or SO_ERROR) gives a stored
    failure and FD_STERROR. *)
Theorem read_side_returns (fd : Z) (y : sys) (w : world) :
  let r := event_srv_chk_r fd y w in
  (fst r = 0 \/ fst r = 1) /\
  (fst r = 0 <-> read_error fd y w = false /\ read_again y = true) /\
  flag (ev (fdtab (snd r) fd)) FD_POLL_RD = false /\
  poll_wr (fdtab (snd r) fd) = poll_wr (fdtab w fd) /\
  (fst r = 0 ->
     srv (snd r) = srv w /\ trace (snd r) = trace w /\
     fdst (fdtab (snd r) fd) = fdst (fdtab w fd) /\
     poll_rd (fdtab (snd r) fd) = poll_rd (fdtab w fd)) /\
  (fst r = 1 -> poll_rd (fdtab (snd r) fd) = false /\ woken fd w (snd r)) /\
  (read_error fd y w = true ->
     result (srv (snd r)) = -1 /\ fdst (fdtab (snd r) fd) = FD_STERROR).
Proof.
  intros r. subst r. unfold event_srv_chk_r, woken.
  destruct (read_error fd y w) eqn:He.
  { fd_simpl. rewrite flag_clear.
    repeat split; try discriminate; auto; intros; try lia. }
  destruct (read_again y) eqn:Ha.
  { fd_simpl. rewrite flag_clear.
    repeat split; try discriminate; auto; intros; try lia. }
  set (c := classify _ _ _).
  destruct (c =? -1); cbn [with_fd srv result]; destruct (negb _);
    fd_simpl; rewrite flag_clear;
    (repeat split; try discriminate; auto; intros; try lia;
     try match goal with H : _ /\ _ |- _ => destruct H; discriminate end).
Qed.

(** X7. A failure goes with the error mark of the descriptor. After
    either handler, a descriptor in state FD_STERROR means that [result]
    is failure; and when [result] was not failure before the call and is
    failure after it, the descriptor is in state FD_STERROR. *)
Theorem failure_marks_descriptor (fd now : Z) (y : sys) (w : world) :
  let ww := snd (event_srv_chk_w fd now y w) in
  let wr := snd (event_srv_chk_r fd y w) in
  (fdst (fdtab ww fd) = FD_STERROR -> result (srv ww) = -1) /\
  (result (srv w) <> -1 -> result (srv ww) = -1 -> fdst (fdtab ww fd) = FD_STERROR) /\
  (fdst (fdtab wr fd) = FD_STERROR -> result (srv wr) = -1) /\
  (result (srv w) <> -1 -> result (srv wr) = -1 -> fdst (fdtab wr fd) = FD_STERROR).
Proof.
  intros ww wr.
  assert (Hw : (fdst (fdtab ww fd) = FD_STERROR -> result (srv ww) = -1) /\
               (result (srv w) <> -1 -> result (srv ww) = -1 ->
                fdst (fdtab ww fd) = FD_STERROR)).
  { subst ww. unfold event_srv_chk_w.
    destruct (fd_state_eqb (fdst (fdtab w fd)) FD_STERROR) eqn:E1; cbn [orb].
    { fd_simpl. split; reflexivity. }
    assert (N : fdst (fdtab w fd) <> FD_STERROR).
    { intros H. apply fd_state_eqb_eq in H. congruence. }
    destruct (flag (ev (fdtab w fd)) FD_POLL_ERR).
    { fd_simpl. split; reflexivity. }
    destruct (result (srv w) =? -1) eqn:Hr; cbn [negb].
    { apply Z.eqb_eq in Hr. fd_simpl. split; [intros; exact Hr | intros; contradiction]. }
    apply Z.eqb_neq in Hr.
    destruct (_ || _ || _).
    - assert (L : forall b : bool,
            check_len (px (if b then with_px (fun p => set_check_req (patch_time (check_req p) (now / 1000)) p) w else w))
            = check_len (px w)) by (intros []; reflexivity).
      rewrite L.
      destruct (send_ret y =? _); [|destruct ((send_ret y =? 0) || _)];
        destruct (flag (px_options (px w)) PR_O_SSL3_CHK); fd_simpl;
        (split; [intros; try contradiction; try reflexivity
                | intros; try contradiction; try reflexivity]).
    - destruct (_ || _); [|destruct (_ && _)]; fd_simpl;
        (split; [intros; try contradiction; try reflexivity
                | intros; try contradiction; try reflexivity; try discriminate]). }
  assert (Hrd : (fdst (fdtab wr fd) = FD_STERROR -> result (srv wr) = -1) /\
               (result (srv w) <> -1 -> result (srv wr) = -1 ->
                fdst (fdtab wr fd) = FD_STERROR)).
  { subst wr. unfold event_srv_chk_r.
    destruct (read_error fd y w) eqn:He.
    { fd_simpl. split; reflexivity. }
    assert (N : fdst (fdtab w fd) <> FD_STERROR).
    { intros H. unfold read_error in He. apply fd_state_eqb_eq in H. rewrite H in He.
      discriminate. }
    destruct (read_again y).
    { fd_simpl. split; intros; contradiction. }
    destruct (classify_values (px_options (px w)) (recv_len y) (recv_reply y)) as [C|C];
      rewrite C; cbn [Z.eqb Pos.eqb]; cbn [with_fd srv result];
      destruct (Z.eqb_spec (result (srv w)) (-1)) as [Hr|Hr]; cbn [negb]; fd_simpl;
      (split; intros; try contradiction; try reflexivity; try discriminate; try assumption). }
  destruct Hw, Hrd. repeat split; assumption.
Qed.

Lemma classify_negative (options len : Z) (reply : list byte) :
  -2147483648 <= len < 0 ->
  classify options len reply
  = if flag options PR_O_HTTP_CHK
       && bytes_eqb (firstn 7 reply) (bytes_of "HTTP/1."%string)
       && (Byte.eqb (byte_at reply 9) "2"%byte || Byte.eqb (byte_at reply 9) "3"%byte)
    then 1 else -1.
Proof.
  intros H. unfold classify.
  assert (E1 : (sizeof_status <=? to_size_t len) = true).
  { apply Z.leb_le. unfold to_size_t.
    replace len with ((len + 18446744073709551616) + (-1) * 18446744073709551616) by lia.
    rewrite Z.mod_add by lia. rewrite Z.mod_small by lia.
    change sizeof_status with 13. lia. }
  assert (E2 : (5 <=? len) = false) by (apply Z.leb_gt; lia).
  assert (E3 : (3 <=? len) = false) by (apply Z.leb_gt; lia).
  rewrite E1, E2, E3, andb_true_r, !andb_false_r. cbn [andb].
  destruct (_ && _ && _); reflexivity.
Qed.

(** X8. When [recv] fails with an error other than EAGAIN (a negative
    length), on a descriptor without error and with no failure stored,
    the read-side handler returns 1 and the length test of the HTTP check
    passes, the negative length being converted to [size_t]: the probe
    succeeds exactly when the HTTP option is set and the buffer holds
    "HTTP/1." followed, at position 9, by '2' or '3'. Otherwise it fails
    and the descriptor is marked FD_STERROR: without the HTTP option the
    probe always fails. *)
Theorem read_side_recv_error (fd : Z) (y : sys) (w : world) :
  read_error fd y w = false -> -2147483648 <= recv_len y < 0 ->
  recv_errno y <> EAGAIN -> result (srv w) <> -1 ->
  let r := event_srv_chk_r fd y w in
  fst r = 1 /\
  (result (srv (snd r)) = 1 <->
     flag (px_options (px w)) PR_O_HTTP_CHK = true /\
     firstn 7 (recv_reply y) = bytes_of "HTTP/1."%string /\
     (byte_at (recv_reply y) 9 = "2"%byte \/ byte_at (recv_reply y) 9 = "3"%byte)) /\
  (result (srv (snd r)) <> 1 ->
     result (srv (snd r)) = -1 /\ fdst (fdtab (snd r) fd) = FD_STERROR).
Proof.
  intros He Hl Hn Hr r. subst r. unfold event_srv_chk_r. rewrite He.
  assert (Ha : read_again y = false).
  { unfold read_again. apply Z.eqb_neq in Hn. rewrite Hn. apply andb_false_r. }
  rewrite Ha, (classify_negative _ _ _ Hl).
  set (b := _ && _ && _).
  assert (Hb : b = true <->
     flag (px_options (px w)) PR_O_HTTP_CHK = true /\
     firstn 7 (recv_reply y) = bytes_of "HTTP/1."%string /\
     (byte_at (recv_reply y) 9 = "2"%byte \/ byte_at (recv_reply y) 9 = "3"%byte)).
  { subst b. rewrite !andb_true_iff, orb_true_iff, bytes_eqb_eq, !byte_eqb_eq. tauto. }
  apply Z.eqb_neq in Hr.
  destruct b; cbn [Z.eqb Pos.eqb with_fd srv result]; rewrite Hr; cbn [negb]; fd_simpl.
  - split; [reflexivity|]. split; [|intros; contradiction].
    split; [intros _; apply Hb; reflexivity | reflexivity].
  - split; [reflexivity|]. split; [|intros _; split; reflexivity].
    split; [discriminate|]. intros H. apply Hb in H. discriminate.
Qed.

Lemma read_side_recv_error_witness :
  read_error 5 demo_recv_failed (demo_running 0) = false /\
  -2147483648 <= recv_len demo_recv_failed < 0 /\
  recv_errno demo_recv_failed <> EAGAIN /\
  result (srv (demo_running 0)) <> -1 /\
  result (srv (snd (event_srv_chk_r 5 demo_recv_failed (demo_running 0)))) = 1.
Proof.
  assert (H1 : -2147483648 <= recv_len demo_recv_failed < 0) by (cbn; lia).
  assert (H2 : recv_errno demo_recv_failed <> EAGAIN) by (cbn; unfold EAGAIN; lia).
  assert (H3 : result (srv (demo_running 0)) <> -1) by (cbn; lia).
  split; [reflexivity|]. split; [exact H1|]. split; [exact H2|]. split; [exact H3|].
  exact (proj2 (proj1 (proj2
           (read_side_recv_error 5 demo_recv_failed (demo_running 0) eq_refl H1 H2 H3)))
           (conj eq_refl (conj eq_refl (or_introl eq_refl)))).
Defined.

Lemma firstn_nth_ext (n : nat) (a b : list byte) :
  length a = length b ->
  (forall i, (i < n)%nat -> nth i a x00 = nth i b x00) ->
  firstn n a = firstn n b.
Proof.
  intros Hl H. apply (nth_ext _ _ x00 x00).
  - rewrite !length_firstn, Hl. reflexivity.
  - intros i Hi. rewrite length_firstn in Hi. rewrite !nth_firstn.
    destruct (Nat.ltb_spec i n); [apply H; assumption | reflexivity].
Qed.

(** X9. The classification of a reply reads its length and eight of its
    bytes, those at positions 0 to 6 and 9: two replies of the same size
    that agree there are classified alike, whatever the minor version,
    the rest of the status code and the rest of the reply. *)
Theorem classify_reads_eight_bytes (options len : Z) (reply reply' : list byte) :
  length reply = length reply' ->
  (forall i, (i < 7)%nat \/ i = 9%nat -> byte_at reply i = byte_at reply' i) ->
  classify options len reply = classify options len reply'.
Proof.
  intros Hl H. unfold classify.
  rewrite (firstn_nth_ext 7 reply reply' Hl) by (intros i Hi; apply H; left; exact Hi).
  rewrite (H 9%nat) by (right; reflexivity).
  rewrite (H 0%nat) by (left; lia).
  reflexivity.
Qed.

Lemma classify_reads_eight_bytes_witness :
  classify PR_O_HTTP_CHK 13 (bytes_of "HTTP/1.0 200 OK"%string)
  = classify PR_O_HTTP_CHK 13 (bytes_of "HTTP/1.9x2zz no"%string).
Proof.
  apply classify_reads_eight_bytes; [reflexivity|].
  intros i [H|H].
  - do 7 (destruct i as [|i]; [reflexivity|]). lia.
  - subst i. reflexivity.
Defined.

(** ** A property kept by every pass of process_chk *)

Section Engine.

Variable dyn : server -> proxy -> Z.

Lemma initiate_frame (now : Z) (y : sys) (w : world) :
  set_result 0 (set_curfd 0 (srv (initiate now y w))) = set_result 0 (set_curfd 0 (srv w)) /\
  px (initiate now y w) = px w /\ sessions (initiate now y w) = sessions w /\
  task (initiate now y w) = task w /\ maxsock (initiate now y w) = maxsock w /\
  (curfd (srv (initiate now y w)) = curfd (srv w) \/
   curfd (srv (initiate now y w)) = socket_ret y) /\
  (expire (initiate now y w) = expire w \/
   expire (initiate now y w) = now + inter (srv w)) /\
  (forall k, k <> socket_ret y ->
     fdtab (initiate now y w) k = fdtab w k /\ os_open (initiate now y w) k = os_open w k) /\
  (socket_ret y <> -1 -> os_open (initiate now y w) (socket_ret y) = false).
Proof.
  assert (K : forall (B : Type) (k : Z) (a b : B), k <> socket_ret y ->
            (if k =? socket_ret y then a else b) = b).
  { intros B k a b H. apply Z.eqb_neq in H. rewrite H. reflexivity. }
  unfold initiate.
  destruct (negb (socket_ret y =? -1)) eqn:Es.
  2:{ cbn. repeat split; auto.
      intros H. apply Z.eqb_neq in H. rewrite H in Es. discriminate. }
  cbn [with_srv srv px sessions task expire fdtab os_open maxsock trace set_open].
  destruct (_ && _ && _).
  2:{ cbn. rewrite Z.eqb_refl. repeat split; auto; rewrite !K by assumption; reflexivity. }
  unfold try_connect, bind_source.
  cbn [with_srv srv px sessions task expire fdtab os_open maxsock trace set_open
       set_result state result].
  destruct (flag (state (srv w)) SRV_BIND_SRC);
    [|destruct (flag (px_options (px w)) PR_O_BIND_SRC)];
    try destruct (bind_ret y =? -1);
    cbn [Alert emit with_srv srv px sessions task expire fdtab os_open maxsock trace
         set_result result Z.eqb];
    try destruct (negb (connect_ret y =? -1) || (connect_errno y =? EINPROGRESS));
    try destruct (negb (connect_errno y =? EALREADY) && negb (connect_errno y =? EISCONN)
                  && negb (connect_errno y =? EAGAIN));
    unfold take_over, tv_ms_add; cbn; rewrite ?Z.eqb_refl;
    (repeat split; auto; rewrite ?K by assumption; reflexivity).
Qed.

Lemma initiate_result_curfd (now : Z) (y : sys) (w : world) :
  curfd (srv (initiate now y w)) <> curfd (srv w) ->
  result (srv (initiate now y w)) = 0 /\
  expire (initiate now y w) = now + inter (srv w).
Proof.
  unfold initiate.
  destruct (negb (socket_ret y =? -1)); [|cbn; congruence].
  cbn [with_srv srv px sessions task expire fdtab os_open maxsock trace set_open].
  destruct (_ && _ && _); [|cbn; congruence].
  unfold try_connect, bind_source.
  cbn [with_srv srv px sessions task expire fdtab os_open maxsock trace set_open
       set_result state result].
  destruct (flag (state (srv w)) SRV_BIND_SRC);
    [|destruct (flag (px_options (px w)) PR_O_BIND_SRC)];
    try destruct (bind_ret y =? -1);
    cbn [Alert emit with_srv srv px sessions task expire fdtab os_open maxsock trace
         set_result result Z.eqb];
    try destruct (negb (connect_ret y =? -1) || (connect_errno y =? EINPROGRESS));
    try destruct (negb (connect_errno y =? EALREADY) && negb (connect_errno y =? EISCONN)
                  && negb (connect_errno y =? EAGAIN));
    unfold take_over, tv_ms_add; cbn; try congruence; intros _; split; reflexivity.
Qed.

(** A property kept by every operation of a pass is kept by [process_chk]. *)
Lemma process_chk_closed (P : world -> Prop) (now : Z) (y : sys) :
  (forall w, P w -> P (task_queue w)) ->
  (forall w e, P w -> P (set_expire e w)) ->
  (forall w, P w -> P (with_srv (set_result 0) w)) ->
  (forall w, P w -> P (initiate now y w)) ->
  (forall w, P w -> P (chk_failure w)) ->
  (forall w w1, P w -> chk_success dyn w = Some w1 -> P w1) ->
  (forall w, P w -> 0 <= curfd (srv w) -> P (release (curfd (srv w)) w)) ->
  forall fuel w w' next,
    P w -> process_chk dyn fuel now y w = Some (w', next) -> P w'.
Proof.
  intros Hq He Hr Hi Hf Hs Hl.
  assert (R : forall fuel w f, P w -> rephase fuel now w = Some f ->
              match f with Again w1 => P w1 | Out w1 _ => P w1 end).
  { intros fuel w f Hw H. unfold rephase in H.
    destruct (advance _ _ _ _); [|discriminate]. injection H as <-. apply He, Hw. }
  assert (Ps : forall fuel w f, P w -> pass dyn fuel now y w = Some f ->
               match f with Again w1 => P w1 | Out w1 _ => P w1 end).
  { intros fuel w f Hw H. unfold pass in H.
    destruct (Z.ltb_spec (curfd (srv w)) 0) as [Hc|Hc].
    - destruct (negb (tv_isle (expire w) now)).
      { injection H as <-. apply Hq, Hw. }
      destruct (_ || _).
      { destruct (advance _ _ _ _); [|discriminate]. injection H as <-.
        apply Hq, He, Hw. }
      destruct (result (srv (initiate now y w)) =? 0).
      + apply (R fuel _ f (Hi w Hw) H).
      + apply (R fuel _ f (Hf _ (Hi w Hw)) H).
    - destruct (0 <? result (srv w)).
      { destruct (chk_success dyn w) as [w1|] eqn:E; [|discriminate].
        refine (R fuel _ f _ H).
        assert (C : curfd (srv w1) = curfd (srv w))
          by exact (f_equal curfd (proj1 (chk_success_config dyn w w1 E))).
        rewrite <- C. apply Hl; [exact (Hs w w1 Hw E) | lia]. }
      destruct (_ || _).
      { refine (R fuel _ f _ H). rewrite <- (chk_failure_curfd w).
        apply Hl; [apply Hf, Hw | rewrite chk_failure_curfd; exact Hc]. }
      injection H as <-. apply Hq, Hr, Hw. }
  induction fuel as [|fuel IH]; intros w w' next Hw H; [discriminate|].
  cbn [process_chk] in H.
  destruct (pass dyn fuel now y w) as [f|] eqn:E; [|discriminate].
  pose proof (Ps fuel w f Hw E) as Hf'.
  destruct f as [w1|w1 n1].
  - exact (IH w1 w' next Hf' H).
  - injection H as <- _. exact Hf'.
Qed.

End Engine.

(** ** The liveness fields under the two steps *)

Lemma chk_failure_live (w : world) :
  rise (srv (chk_failure w)) = rise (srv w) /\
  fall (srv (chk_failure w)) = fall (srv w) /\
  (rise (srv w) < health (srv w) ->
     health (srv (chk_failure w)) = health (srv w) - 1 /\
     state (srv (chk_failure w)) = state (srv w)) /\
  (health (srv w) <= rise (srv w) ->
     health (srv (chk_failure w)) = 0 /\
     state (srv (chk_failure w)) = clear (state (srv w)) SRV_RUNNING).
Proof.
  pose proof (proj1 (chk_failure_config w)) as C.
  split; [exact (f_equal rise C)|]. split; [exact (f_equal fall C)|].
  unfold chk_failure.
  destruct (Z.ltb_spec (rise (srv w)) (health (srv w))) as [L|L].
  - split; [intros _; split; reflexivity | intros; lia].
  - split; [intros; lia|]. intros _.
    destruct (Z.eq_dec (health (srv w)) (rise (srv w))) as [E|E].
    + destruct (set_server_down_edge w E) as (H1 & _).
      split; [exact (f_equal health H1) | exact (f_equal state H1)].
    + rewrite (set_server_down_quiet w E). split; reflexivity.
Qed.

Section Live.

Variable dyn : server -> proxy -> Z.

Lemma chk_success_live (w w1 : world) :
  chk_success dyn w = Some w1 ->
  rise (srv w1) = rise (srv w) /\
  fall (srv w1) = fall (srv w) /\
  (health (srv w) + 1 < rise (srv w) ->
     health (srv w1) = health (srv w) + 1 /\ state (srv w1) = state (srv w)) /\
  (rise (srv w) <= health (srv w) + 1 ->
     health (srv w1) = rise (srv w) + fall (srv w) - 1 /\
     state (srv w1) = raise (state (srv w)) SRV_RUNNING).
Proof.
  intros H.
  pose proof (proj1 (chk_success_config dyn w w1 H)) as C.
  split; [exact (f_equal rise C)|]. split; [exact (f_equal fall C)|].
  destruct (Z.lt_trichotomy (health (srv w) + 1) (rise (srv w))) as [L|[L|L]].
  - rewrite (chk_success_low dyn w L) in H. injection H as <-.
    split; [intros _; split; reflexivity | intros; lia].
  - split; [intros; lia|]. intros _.
    destruct (chk_success_edge dyn w L) as (w2 & U & E).
    rewrite E in H. injection H as <-.
    destruct (up_edge_spec dyn (risen w)) as (w2' & x & tr & U' & F & _).
    rewrite U in U'. injection U' as <-.
    destruct F as (F1 & _).
    cbn [with_srv srv health state set_health].
    rewrite (f_equal rise F1 : rise (srv w2) = _), (f_equal fall F1 : fall (srv w2) = _).
    split; [reflexivity|]. exact (f_equal state F1).
  - rewrite (chk_success_high dyn w L) in H. injection H as <-.
    split; [intros; lia|]. intros _. split; reflexivity.
Qed.

Lemma chk_failure_well_formed (w : world) :
  well_formed (srv w) -> well_formed (srv (chk_failure w)).
Proof.
  intros (R & F & B & S).
  destruct (chk_failure_live w) as (E1 & E2 & Hi & Lo).
  unfold well_formed. rewrite E1, E2.
  destruct (Z_lt_le_dec (rise (srv w)) (health (srv w))) as [L|L].
  - destruct (Hi L) as [Eh Es]. rewrite Eh, Es.
    repeat split; try lia. intros _. apply S. lia.
  - destruct (Lo L) as [Eh Es]. rewrite Eh, Es, flag_clear.
    repeat split; try lia; try discriminate.
Qed.

Lemma chk_success_well_formed (w w1 : world) :
  well_formed (srv w) -> chk_success dyn w = Some w1 -> well_formed (srv w1).
Proof.
  intros (R & F & B & S) H.
  destruct (chk_success_live w w1 H) as (E1 & E2 & Lo & Hi).
  unfold well_formed. rewrite E1, E2.
  destruct (Z_lt_le_dec (health (srv w) + 1) (rise (srv w))) as [L|L].
  - destruct (Lo L) as [Eh Es]. rewrite Eh, Es.
    repeat split; try lia. intros G. apply S in G. lia.
  - destruct (Hi L) as [Eh Es]. rewrite Eh, Es, flag_raise by discriminate.
    repeat split; try lia.
Qed.

(** X10. The liveness fields stay consistent across [process_chk]. When
    [rise >= 1], [fall >= 1], [0 <= health <= rise + fall - 1] and RUNNING
    is set exactly when [health >= rise], the same holds when the call
    returns, whichever path it took. *)
Theorem tick_keeps_well_formed (now : Z) (y : sys) (w w' : world) (next : Z) :
  well_formed (srv w) -> runs dyn now y w w' next -> well_formed (srv w').
Proof.
  intros Hw [n Hn].
  refine (process_chk_closed dyn (fun v => well_formed (srv v)) now y
            _ _ _ _ _ _ _ n w w' next Hw (Hn n (Nat.le_refl n))).
  - intros v H. exact H.
  - intros v e H. exact H.
  - intros v H. exact H.
  - intros v H.
    pose proof (proj1 (initiate_frame now y v)) as E.
    unfold well_formed in *.
    rewrite (f_equal rise E : rise (srv (initiate now y v)) = rise (srv v)),
            (f_equal fall E : fall (srv (initiate now y v)) = fall (srv v)),
            (f_equal health E : health (srv (initiate now y v)) = health (srv v)),
            (f_equal state E : state (srv (initiate now y v)) = state (srv v)).
    exact H.
  - intros v H. apply chk_failure_well_formed, H.
  - intros v v1 H E. exact (chk_success_well_formed v v1 H E).
  - intros v H _. exact H.
Qed.

End Live.

Lemma tick_keeps_well_formed_witness :
  well_formed (srv (demo_running 1)) /\
  exists w' next, runs demo_dyn 1500 demo_sys (demo_running 1) w' next /\
                  well_formed (srv w').
Proof.
  assert (H : well_formed (srv (demo_running 1))).
  { unfold well_formed. cbn. split; [lia|]. split; [lia|]. split; [lia|].
    split; [intros _; lia | reflexivity]. }
  assert (E : exists r, process_chk demo_dyn 3 1500 demo_sys (demo_running 1) = Some r)
    by (vm_compute; eexists; reflexivity).
  destruct E as ([w' next] & E).
  pose proof (runs_of_run demo_dyn 1500 demo_sys 3 _ _ _ E) as R.
  split; [exact H|]. exists w', next. split; [exact R|].
  exact (tick_keeps_well_formed demo_dyn 1500 demo_sys (demo_running 1) w' next H R).
Defined.

(** ** What a tick leaves alone *)

Lemma tick_frame_refl (y : sys) (w : world) : tick_frame y w w.
Proof. repeat split; auto. Qed.

Lemma chk_failure_px (w : world) :
  px_static (px (chk_failure w)) = px_static (px w).
Proof.
  unfold chk_failure.
  destruct (rise (srv w) <? health (srv w)); [reflexivity|].
  destruct (Z.eq_dec (health (srv w)) (rise (srv w))) as [E|E].
  - destruct (set_server_down_edge w E) as (_ & H2 & _).
    change (set_counts 0 0 (set_px_queue 0 [] (px (set_server_down w)))
            = px_static (px w)).
    rewrite H2. reflexivity.
  - rewrite (set_server_down_quiet w E). reflexivity.
Qed.

Section Frame.

Variable dyn : server -> proxy -> Z.

Lemma chk_success_px (w w1 : world) :
  chk_success dyn w = Some w1 -> px_static (px w1) = px_static (px w).
Proof.
  intros H.
  destruct (Z.lt_trichotomy (health (srv w) + 1) (rise (srv w))) as [L|[L|L]].
  - rewrite (chk_success_low dyn w L) in H. injection H as <-. reflexivity.
  - destruct (chk_success_edge dyn w L) as (w2 & U & E).
    rewrite E in H. injection H as <-.
    destruct (up_edge_spec dyn (risen w)) as (w2' & x & tr & U' & F & _).
    rewrite U in U'. injection U' as <-.
    destruct F as (_ & F2 & _).
    change (set_counts 0 0 (set_px_queue 0 [] (px w2)) = px_static (px w)).
    rewrite F2. reflexivity.
  - rewrite (chk_success_high dyn w L) in H. injection H as <-. reflexivity.
Qed.

(** X11. What a call of [process_chk] leaves alone, whichever path it
    takes: the configuration of the server ([rise], [fall], [inter],
    [maxconn], addresses, ...) and of the backend (options, state,
    request, other servers), the task, [maxsock], and the entries of
    [fdtab] and the open descriptors other than the former [curfd] and
    the descriptor that [socket] returns; [curfd] ends as it was, or at
    -1, or at the descriptor that [socket] returns. No descriptor that
    was closed before the call is open after it: the socket of a probe
    never outlives the call that creates it. *)
Theorem tick_leaves_alone (now : Z) (y : sys) (w w' : world) (next : Z) :
  runs dyn now y w w' next ->
  tick_frame y w w' /\
  (forall k, os_open w' k = true -> os_open w k = true).
Proof.
  intros [n Hn].
  pose (P := fun v : world =>
    tick_frame y w v /\ (forall k, os_open v k = true -> os_open w k = true)).
  refine (process_chk_closed dyn P now y _ _ _ _ _ _ _ n w w' next _ (Hn n (Nat.le_refl n))).
  - intros v H. exact H.
  - intros v e H. exact H.
  - intros v H. exact H.
  - intros v ((F1 & F2 & F3 & F4 & F5 & F6) & G).
    destruct (initiate_frame now y v) as (I1 & I2 & I3 & I4 & I5 & I6 & I7 & I8 & I9).
    split; [repeat split|].
    + change (srv_config (set_result 0 (set_curfd 0 (srv (initiate now y v))))
              = srv_static (srv w)).
      rewrite I1. exact F1.
    + rewrite I2. exact F2.
    + congruence.
    + congruence.
    + destruct I6 as [I6|I6]; rewrite I6; [exact F5 | right; right; reflexivity].
    + rewrite (proj1 (I8 k H0)). apply F6; assumption.
    + rewrite (proj2 (I8 k H0)). apply F6; assumption.
    + intros k O. destruct (Z.eq_dec k (socket_ret y)) as [->|N].
      * destruct (Z.eq_dec (socket_ret y) (-1)) as [Q|Q].
        -- rewrite (initiate_no_socket now y v Q) in O. apply G, O.
        -- rewrite (I9 Q) in O. discriminate.
      * rewrite (proj2 (I8 k N)) in O. apply G, O.
  - intros v ((F1 & F2 & F3 & F4 & F5 & F6) & G).
    destruct (chk_failure_config v) as (C1 & C2 & C3 & C4 & C5 & C6).
    split; [repeat split|].
    + change (set_result 0 (set_curfd 0 (srv_config (srv (chk_failure v))))
              = srv_static (srv w)).
      rewrite C1. exact F1.
    + rewrite chk_failure_px. exact F2.
    + congruence.
    + congruence.
    + rewrite chk_failure_curfd. exact F5.
    + rewrite C4. apply F6; assumption.
    + rewrite C5. apply F6; assumption.
    + rewrite C5. exact G.
  - intros v v1 ((F1 & F2 & F3 & F4 & F5 & F6) & G) E.
    destruct (chk_success_config dyn v v1 E) as (C1 & C2 & C3 & C4 & C5 & C6).
    split; [repeat split|].
    + change (set_result 0 (set_curfd 0 (srv_config (srv v1))) = srv_static (srv w)).
      rewrite C1. exact F1.
    + rewrite (chk_success_px v v1 E). exact F2.
    + congruence.
    + congruence.
    + rewrite (f_equal curfd C1 : curfd (srv v1) = curfd (srv v)). exact F5.
    + rewrite C4. apply F6; assumption.
    + rewrite C5. apply F6; assumption.
    + rewrite C5. exact G.
  - intros v ((F1 & F2 & F3 & F4 & F5 & F6) & G) Hc.
    assert (K : forall (B : Type) (k : Z) (a b : B), k <> curfd (srv v) ->
              (if k =? curfd (srv v) then a else b) = b).
    { intros B k a b H. apply Z.eqb_neq in H. rewrite H. reflexivity. }
    assert (D : forall k, k <> curfd (srv w) -> k <> socket_ret y -> k <> curfd (srv v)).
    { intros k H1 H2. destruct F5 as [F5|[F5|F5]]; rewrite F5; try assumption. lia. }
    split; [repeat split|].
    + exact F1.
    + exact F2.
    + exact F3.
    + exact F4.
    + right; left; reflexivity.
    + cbn. rewrite K by (apply D; assumption). apply F6; assumption.
    + cbn. rewrite K by (apply D; assumption). apply F6; assumption.
    + intros k O. cbn in O.
      destruct (k =? curfd (srv v)); [discriminate | apply G, O].
  - split; [apply tick_frame_refl | intros k O; exact O].
Qed.

End Frame.

Lemma tick_leaves_alone_witness :
  exists w' next, runs demo_dyn 1500 demo_sys demo_world w' next /\
                  tick_frame demo_sys demo_world w' /\
                  (forall k, os_open w' k = true -> os_open demo_world k = true).
Proof.
  assert (E : exists r, process_chk demo_dyn 3 1500 demo_sys demo_world = Some r)
    by (vm_compute; eexists; reflexivity).
  destruct E as ([w' next] & E).
  pose proof (runs_of_run demo_dyn 1500 demo_sys 3 _ _ _ E) as R.
  exists w', next. split; [exact R|].
  exact (tick_leaves_alone demo_dyn 1500 demo_sys demo_world w' next R).
Defined.

(** ** A zero interval *)

Lemma advance_stuck (now e : Z) : e <= now -> forall fuel, advance fuel now 0 e = None.
Proof.
  intros H fuel. induction fuel as [|f IH]; cbn [advance]; unfold tv_isle, tv_ms_add;
    apply Z.leb_le in H; rewrite ?Z.add_0_r, H; [reflexivity | exact IH].
Qed.

Section Stuck.

Variable dyn : server -> proxy -> Z.

Lemma rephase_stuck (now : Z) (w : world) :
  inter (srv w) = 0 -> expire w <= now -> forall fuel, rephase fuel now w = None.
Proof.
  intros Hi He fuel. unfold rephase. rewrite Hi, (advance_stuck now _ He). reflexivity.
Qed.

(** X12. With [inter = 0] and a deadline that is reached
    ([expire <= now]), [process_chk] does not return: every path leads to
    a loop [while (tv_isle(&t->expire, &now)) tv_ms_add(..., s->inter)]
    that never moves the deadline, whatever the server, the probe and the
    system calls are. *)
Theorem tick_never_returns (now : Z) (y : sys) (w : world) :
  inter (srv w) = 0 -> expire w <= now ->
  (forall fuel, process_chk dyn fuel now y w = None) /\
  (forall w' next, ~ runs dyn now y w w' next).
Proof.
  intros Hi He.
  assert (Hp : forall fuel, pass dyn fuel now y w = None).
  { intros fuel. unfold pass.
    destruct (curfd (srv w) <? 0).
    - unfold tv_isle. apply Z.leb_le in He. rewrite He. cbn [negb].
      apply Z.leb_le in He.
      destruct (_ || _).
      { rewrite Hi, (advance_stuck now _ He). reflexivity. }
      destruct (initiate_frame now y w) as (I1 & _ & _ & _ & _ & _ & I7 & _).
      assert (Ii : inter (srv (initiate now y w)) = 0).
      { rewrite <- Hi. exact (f_equal inter I1). }
      assert (Ie : expire (initiate now y w) <= now) by (destruct I7 as [E|E]; rewrite E; lia).
      destruct (_ =? 0).
      + apply rephase_stuck; assumption.
      + destruct (chk_failure_config (initiate now y w)) as (_ & _ & C3 & _).
        apply rephase_stuck; [rewrite chk_failure_inter; exact Ii | rewrite C3; exact Ie].
    - destruct (0 <? result (srv w)).
      { destruct (chk_success dyn w) as [w1|] eqn:E; [|reflexivity].
        destruct (chk_success_config dyn w w1 E) as (C1 & _ & C3 & _).
        apply rephase_stuck; cbn.
        - rewrite <- Hi. exact (f_equal inter C1).
        - rewrite C3. exact He. }
      assert (Ex : tv_isle (expire w) now = true) by (apply Z.leb_le; exact He).
      rewrite Ex, orb_true_r.
      destruct (chk_failure_config w) as (_ & _ & C3 & _).
      apply rephase_stuck; cbn; [rewrite chk_failure_inter; exact Hi | rewrite C3; exact He]. }
  assert (Hn : forall fuel, process_chk dyn fuel now y w = None).
  { intros [|fuel]; [reflexivity|]. cbn [process_chk]. rewrite Hp. reflexivity. }
  split; [exact Hn|].
  intros w' next [n H]. specialize (H n (Nat.le_refl n)). rewrite Hn in H. discriminate.
Qed.

End Stuck.

Lemma tick_never_returns_witness :
  inter (srv demo_no_interval) = 0 /\ expire demo_no_interval <= 1500 /\
  forall fuel, process_chk demo_dyn fuel 1500 demo_sys demo_no_interval = None.
Proof.
  assert (H : expire demo_no_interval <= 1500) by (cbn; lia).
  split; [reflexivity|]. split; [exact H|].
  exact (proj1 (tick_never_returns demo_dyn 1500 demo_sys demo_no_interval eq_refl H)).
Defined.

(** ** The queue of the server across a DOWN edge *)

Lemma unlink_all_filter (ps : list pendconn) : forall q,
  unlink_all ps q = filter (fun x => negb (held ps x)) q.
Proof.
  induction ps as [|p ps IH]; intros q.
  - cbn. induction q as [|x q IHq]; [reflexivity|]. cbn. f_equal. exact IHq.
  - change (unlink_all (p :: ps) q) with (unlink_all ps (unlink p q)).
    rewrite IH. unfold unlink.
    induction q as [|x q IHq]; [reflexivity|].
    cbn [filter held existsb].
    destruct (Nat.eqb (pc_addr x) (pc_addr p)); cbn [negb orb filter].
    + exact IHq.
    + fold (held ps x). destruct (negb (held ps x)); [f_equal|]; exact IHq.
Qed.

Lemma held_filter (P : pendconn -> bool) (q : list pendconn) :
  NoDup (map pc_addr q) ->
  forall x, In x q -> held (filter P q) x = P x.
Proof.
  intros N x Hx. unfold held.
  destruct (P x) eqn:E.
  - apply existsb_exists. exists x. split; [|apply Nat.eqb_refl].
    apply filter_In. split; assumption.
  - destruct (existsb _ _) eqn:G; [|reflexivity].
    apply existsb_exists in G as (p & Hp & A).
    apply filter_In in Hp as [Hp Pp]. apply Nat.eqb_eq in A.
    assert (p = x); [|congruence].
    clear E Pp. induction q as [|z q IH]; [destruct Hx|].
    cbn [map] in N. apply NoDup_cons_iff in N as [N1 N2].
    destruct Hx as [<-|Hx], Hp as [<-|Hp]; try reflexivity.
    + exfalso. apply N1. rewrite A. apply in_map, Hp.
    + exfalso. apply N1. rewrite <- A. apply in_map, Hx.
    + apply IH; assumption.
Qed.

(** X15. The queue of the server across a DOWN edge, when its entries
    have distinct addresses: the entries whose session's backend lacks
    REDISP stay, in their order; the others are gone; [nbpend] is
    decremented by their number, which with the number of entries left
    makes the former length; and the queue of the backend loses the
    entries that have the address of one of them, and only those. *)
Theorem down_edge_queue (w : world) :
  health (srv w) = rise (srv w) ->
  NoDup (map pc_addr (pendconns (srv w))) ->
  let w' := chk_failure w in
  pendconns (srv w')
  = filter (fun pc => negb (redispatchable w pc)) (pendconns (srv w)) /\
  (length (rescued w) + length (pendconns (srv w')) = length (pendconns (srv w)))%nat /\
  nbpend (srv w') = nbpend (srv w) - Z.of_nat (length (rescued w)) /\
  px_pendconns (px w')
  = filter (fun pc => negb (held (rescued w) pc)) (px_pendconns (px w)).
Proof.
  intros H N w'.
  assert (E : w' = set_server_down w).
  { subst w'. unfold chk_failure.
    assert (L : (rise (srv w) <? health (srv w)) = false) by (apply Z.ltb_ge; lia).
    now rewrite L. }
  destruct (set_server_down_edge w H) as (_ & _ & D3 & D4 & D5 & _).
  rewrite <- E in D3, D4, D5.
  assert (Q : pendconns (srv w')
              = filter (fun pc => negb (redispatchable w pc)) (pendconns (srv w))).
  { rewrite D3, unlink_all_filter. apply filter_ext_in. intros x Hx.
    unfold rescued, freed. now rewrite (held_filter _ _ N x Hx). }
  assert (Len : (length (rescued w) + length (pendconns (srv w'))
                 = length (pendconns (srv w)))%nat).
  { rewrite Q. unfold rescued, freed. clear.
    induction (pendconns (srv w)) as [|x q IH]; [reflexivity|].
    cbn [filter]. destruct (redispatchable w x); cbn [negb length]; lia. }
  split; [exact Q|]. split; [exact Len|]. split; [lia|].
  rewrite D4. apply unlink_all_filter.
Qed.

Lemma down_edge_queue_witness :
  health (srv demo_queued) = rise (srv demo_queued) /\
  NoDup (map pc_addr (pendconns (srv demo_queued))) /\
  pendconns (srv (chk_failure demo_queued)) = [] /\
  nbpend (srv (chk_failure demo_queued)) = 0.
Proof.
  assert (N : NoDup (map pc_addr (pendconns (srv demo_queued)))).
  { cbn. repeat (constructor; [cbn; intuition lia|]). constructor. }
  split; [reflexivity|]. split; [exact N|].
  destruct (down_edge_queue demo_queued eq_refl N) as (A & _ & B & _).
  split; [exact A | exact B].
Defined.

(** ** The step that a tick applies *)

Lemma is_due_spec (now : Z) (w : world) : is_due now w = true <-> due now w.
Proof.
  unfold is_due, due. rewrite !andb_true_iff, Z.ltb_lt, Z.leb_le, negb_true_iff.
  assert (E : proxy_state_eqb (px_state (px w)) PR_STSTOPPED = false
              <-> px_state (px w) <> PR_STSTOPPED).
  { destruct (px_state (px w)); cbn; split; congruence. }
  rewrite E. tauto.
Qed.

Lemma initiate_result (now : Z) (y : sys) (w : world) :
  result (srv (initiate now y w)) = if start_refused y w then -1 else 0.
Proof.
  unfold start_refused.
  destruct (usable y w) eqn:U; cbn [andb].
  - destruct (bind_fails y w) eqn:B; cbn [orb].
    { rewrite (initiate_bind_fails now y w U B). reflexivity. }
    destruct (connect_accepted y) eqn:C; cbn [negb andb].
    { rewrite (initiate_accepted now y w U B C). reflexivity. }
    destruct (connect_tolerated y) eqn:T; cbn [negb].
    + rewrite (initiate_tolerated now y w U B C T). reflexivity.
    + rewrite (initiate_refused now y w U B C T). reflexivity.
  - destruct (Z.eq_dec (socket_ret y) (-1)) as [S|S].
    + rewrite (initiate_no_socket now y w S). reflexivity.
    + rewrite (initiate_unusable now y w S U). reflexivity.
Qed.

Lemma liveness_failure (w : world) :
  liveness (srv (chk_failure w)) = after_failure (srv w).
Proof.
  destruct (chk_failure_counts w) as (H1 & _ & _ & H4 & _).
  unfold liveness, after_failure. rewrite H1, H4.
  destruct (rise (srv w) <? health (srv w)); reflexivity.
Qed.

Lemma set_result_same (s : server) : result s = 0 -> set_result 0 s = s.
Proof. intros H. destruct s. cbn in *. subst. reflexivity. Qed.

Lemma with_srv_same (w : world) : result (srv w) = 0 -> with_srv (set_result 0) w = w.
Proof.
  intros H. destruct w as [s p ss t e f o m tr]. unfold with_srv. cbn in *.
  rewrite (set_result_same s H). reflexivity.
Qed.

Section Verdict.

Variable dyn : server -> proxy -> Z.

Lemma liveness_success (w w1 : world) :
  chk_success dyn w = Some w1 -> liveness (srv w1) = after_success (srv w).
Proof.
  intros H. destruct (chk_success_live dyn w w1 H) as (_ & _ & Lo & Hi).
  unfold liveness, after_success.
  destruct (Z.leb_spec (rise (srv w)) (health (srv w) + 1)) as [L|L].
  - destruct (Hi L) as [-> ->]. reflexivity.
  - destruct (Lo L) as [-> ->]. reflexivity.
Qed.

(** X16. With a positive interval a call of [process_chk] returns and
    applies at most one step to health and the state word, given by
    [verdict]: the success step when a probe is running with a positive
    result; the failure step when a probe is running with a negative
    result, or with no result and a deadline that is reached, and when
    the probe that is started is refused at once ([bind] fails, or
    [connect] fails with an error that is neither EINPROGRESS, EALREADY,
    EISCONN nor EAGAIN); no step in every other case. *)
Theorem tick_applies_one_step (now : Z) (y : sys) (w : world) :
  0 < inter (srv w) ->
  exists w' next, runs dyn now y w w' next /\
    liveness (srv w')
    = match verdict now y w with
      | Some true => after_success (srv w)
      | Some false => after_failure (srv w)
      | None => liveness (srv w)
      end.
Proof.
  intros Hi. unfold verdict.
  destruct (Z.ltb_spec (curfd (srv w)) 0) as [Hc|Hc].
  - destruct (is_due now w) eqn:D; cbn [andb].
    + apply is_due_spec in D.
      destruct (initiate_frame now y w) as (I1 & _ & _ & _ & _ & I6 & _).
      pose proof (initiate_result now y w) as R.
      assert (Ii : 0 < inter (srv (initiate now y w))).
      { rewrite (f_equal inter I1 : inter (srv (initiate now y w)) = inter (srv w)). exact Hi. }
      assert (Il : liveness (srv (initiate now y w)) = liveness (srv w)).
      { unfold liveness.
        rewrite (f_equal health I1 : health (srv (initiate now y w)) = health (srv w)),
                (f_equal state I1 : state (srv (initiate now y w)) = state (srv w)).
        reflexivity. }
      destruct (start_refused y w).
      * assert (Hc' : curfd (srv (initiate now y w)) < 0).
        { destruct (Z.eq_dec (curfd (srv (initiate now y w))) (curfd (srv w))) as [E|E];
            [rewrite E; exact Hc|].
          destruct (initiate_result_curfd now y w E) as [R0 _]. lia. }
        eexists _, _. split.
        { apply tick_refused; [exact D | exact Ii | lia | exact Hc']. }
        change (liveness (srv (chk_failure (initiate now y w))) = after_failure (srv w)).
        rewrite liveness_failure. unfold after_failure.
        rewrite (f_equal rise I1 : rise (srv (initiate now y w)) = rise (srv w)),
                (f_equal health I1 : health (srv (initiate now y w)) = health (srv w)),
                (f_equal state I1 : state (srv (initiate now y w)) = state (srv w)).
        reflexivity.
      * destruct (Z_lt_le_dec (curfd (srv (initiate now y w))) 0) as [Hc'|Hc'].
        -- eexists _, _. split.
           { apply tick_absorbed; [exact D | exact Ii | exact R | exact Hc']. }
           exact Il.
        -- assert (E : curfd (srv (initiate now y w)) <> curfd (srv w)) by lia.
           destruct (initiate_result_curfd now y w E) as [_ Ex].
           eexists _, _. split.
           { apply tick_started; [exact D | exact Ii | exact R | exact Hc' | lia]. }
           exact Il.
    + assert (N : ~ due now w).
      { intros G. apply is_due_spec in G. congruence. }
      destruct (Z_lt_le_dec now (expire w)) as [He|He].
      * eexists _, _. split; [apply tick_early; assumption|]. reflexivity.
      * eexists _, _. split.
        { apply tick_unchecked; try assumption.
          destruct (flag (state (srv w)) SRV_CHECKED) eqn:F; [|left; reflexivity].
          right. destruct (px_state (px w)) eqn:S; try reflexivity;
            exfalso; apply N; unfold due; rewrite S; repeat split; try assumption;
            discriminate. }
        reflexivity.
  - destruct (Z.ltb_spec 0 (result (srv w))) as [Hr|Hr].
    + destruct (chk_success_total dyn w) as [w1 E].
      eexists _, _. split; [exact (tick_success dyn now y w w1 Hi Hc Hr E)|].
      exact (liveness_success w w1 E).
    + destruct ((result (srv w) <? 0) || (expire w <=? now)) eqn:F.
      * eexists _, _. split.
        { apply tick_failure; try assumption.
          apply orb_true_iff in F as [F|F]; [left; apply Z.ltb_lt | right; apply Z.leb_le];
            exact F. }
        exact (liveness_failure w).
      * apply orb_false_iff in F as [F1 F2].
        apply Z.ltb_ge in F1. apply Z.leb_gt in F2.
        eexists _, _. split; [apply tick_wait; [exact Hc | lia | exact F2]|].
        reflexivity.
Qed.

(** X17. A call with nothing to do. When no probe is running and none is
    due (the deadline is ahead, the server is not checked or its backend
    is stopped), or when the probe that is running has no result yet and
    its deadline is ahead, [process_chk] only queues the task again:
    the state is unchanged but for the deadline, which moves by whole
    intervals past [now] when it was reached and stays otherwise, and
    for one more [task_queue] in the trace. *)
Theorem quiet_tick (now : Z) (y : sys) (w : world) :
  0 < inter (srv w) -> quiet now w = true ->
  exists w' next, runs dyn now y w w' next /\
    w' = task_queue (settle now w) /\ next = expire w' /\ now < next /\
    (now < expire w -> expire w' = expire w).
Proof.
  intros Hi Q. unfold quiet in Q.
  assert (Same : now < expire w -> settle now w = w).
  { intros He. unfold settle. rewrite (lag_early _ _ _ He), Z.mul_0_l, Z.add_0_r.
    destruct w; reflexivity. }
  assert (Fut : now < expire (settle now w)) by (apply settle_future, Hi).
  destruct (Z.ltb_spec (curfd (srv w)) 0) as [Hc|Hc].
  - apply negb_true_iff in Q.
    assert (N : ~ due now w).
    { intros G. apply is_due_spec in G. congruence. }
    destruct (Z_lt_le_dec now (expire w)) as [He|He].
    + exists (task_queue (settle now w)), (expire w).
      rewrite (Same He). repeat split; try assumption.
      apply tick_early; assumption.
    + eexists _, _. split.
      { apply tick_unchecked; try assumption.
        destruct (flag (state (srv w)) SRV_CHECKED) eqn:F; [|left; reflexivity].
        right. destruct (px_state (px w)) eqn:S; try reflexivity;
          exfalso; apply N; unfold due; rewrite S; repeat split; try assumption;
          discriminate. }
      repeat split; try assumption; intros; lia.
  - apply andb_true_iff in Q as [Q1 Q2]. apply Z.eqb_eq in Q1. apply Z.ltb_lt in Q2.
    exists (task_queue (settle now w)), (expire w).
    rewrite (Same Q2). repeat split; try assumption.
    rewrite <- (with_srv_same w Q1) at 2. apply tick_wait; assumption.
Qed.

End Verdict.

Lemma tick_applies_one_step_witness :
  0 < inter (srv (demo_running (-1))) /\
  exists w' next, runs demo_dyn 1500 demo_sys (demo_running (-1)) w' next /\
                  liveness (srv w') = after_failure (srv (demo_running (-1))).
Proof.
  assert (H : 0 < inter (srv (demo_running (-1)))) by (cbn; lia).
  split; [exact H|].
  exact (tick_applies_one_step demo_dyn 1500 demo_sys (demo_running (-1)) H).
Defined.

Lemma quiet_tick_witness :
  0 < inter (srv (demo_running 0)) /\ quiet 500 (demo_running 0) = true /\
  exists w' next, runs demo_dyn 500 demo_sys (demo_running 0) w' next /\
                  w' = task_queue (settle 500 (demo_running 0)) /\
                  next = expire w' /\ 500 < next /\
                  (500 < expire (demo_running 0) -> expire w' = expire (demo_running 0)).
Proof.
  assert (H : 0 < inter (srv (demo_running 0))) by (cbn; lia).
  split; [exact H|]. split; [reflexivity|].
  exact (quiet_tick demo_dyn 500 demo_sys (demo_running 0) H eq_refl).
Defined.

(** ** The gauge across the pieces of a call *)

Lemma logged_quiet (level : Z) (tr tr' : list event) :
  forallb (fun e => match e with EvSendLog _ _ => false | _ => true end) tr' = true ->
  logged level (tr ++ tr') = logged level tr.
Proof.
  intros H. rewrite logged_app.
  assert (E : logged level tr' = 0%nat).
  { induction tr' as [|e tr' IH]; [reflexivity|].
    cbn [forallb] in H. apply andb_true_iff in H as [H1 H2].
    destruct e; try discriminate; unfold logged in *; cbn; apply IH, H2. }
  rewrite E. apply Nat.add_0_r.
Qed.

Lemma gauge_same (w w' : world) :
  set_result 0 (set_curfd 0 (srv w')) = set_result 0 (set_curfd 0 (srv w)) ->
  (forall level, logged level (trace w') = logged level (trace w)) ->
  gauge_of w' = gauge_of w.
Proof.
  intros H L. unfold gauge_of. rewrite !L.
  rewrite (f_equal health H : health (srv w') = health (srv w)),
          (f_equal state H : state (srv w') = state (srv w)),
          (f_equal rise H : rise (srv w') = rise (srv w)),
          (f_equal fall H : fall (srv w') = fall (srv w)),
          (f_equal inter H : inter (srv w') = inter (srv w)),
          (f_equal failed_checks H : failed_checks (srv w') = failed_checks (srv w)),
          (f_equal down_trans H : down_trans (srv w') = down_trans (srv w)).
  reflexivity.
Qed.

Lemma gauge_task_queue (w : world) : gauge_of (task_queue w) = gauge_of w.
Proof.
  apply gauge_same; [reflexivity|]. intros level. apply logged_quiet. reflexivity.
Qed.

Lemma gauge_set_expire (e : Z) (w : world) : gauge_of (set_expire e w) = gauge_of w.
Proof. reflexivity. Qed.

Lemma gauge_set_result (v : Z) (w : world) : gauge_of (with_srv (set_result v) w) = gauge_of w.
Proof. reflexivity. Qed.

Lemma gauge_release (fd : Z) (w : world) : gauge_of (release fd w) = gauge_of w.
Proof.
  apply gauge_same; [reflexivity|]. intros level. apply (logged_quiet level (trace w)).
  reflexivity.
Qed.

Lemma gauge_settled (now : Z) (w : world) : gauge_of (task_queue (settle now w)) = gauge_of w.
Proof. rewrite gauge_task_queue. reflexivity. Qed.

Lemma initiate_logged (level now : Z) (y : sys) (w : world) :
  logged level (trace (initiate now y w)) = logged level (trace w).
Proof.
  assert (Q : forall tr,
            forallb (fun e => match e with EvSendLog _ _ => false | _ => true end) tr = true ->
            logged level (trace w ++ tr) = logged level (trace w))
    by (intros tr; apply logged_quiet).
  assert (Go : forall v tr, trace v = trace w ++ tr ->
            forallb (fun e => match e with EvSendLog _ _ => false | _ => true end) tr = true ->
            logged level (trace v) = logged level (trace w)).
  { intros v tr E H. rewrite E. apply Q, H. }
  destruct (usable y w) eqn:U.
  - destruct (bind_fails y w) eqn:B.
    { rewrite (initiate_bind_fails now y w U B).
      apply (Go _ [EvAlert (bind_alert w); EvClose (socket_ret y)]); [|reflexivity].
      cbn. rewrite <- app_assoc. reflexivity. }
    destruct (connect_accepted y) eqn:C.
    { rewrite (initiate_accepted now y w U B C).
      apply (Go _ [EvFdInsert (socket_ret y); EvTaskQueue (task w); EvClose (socket_ret y)]);
        [|reflexivity].
      cbn. rewrite <- !app_assoc. reflexivity. }
    destruct (connect_tolerated y) eqn:T.
    + rewrite (initiate_tolerated now y w U B C T).
      apply (Go _ [EvClose (socket_ret y)]); reflexivity.
    + rewrite (initiate_refused now y w U B C T).
      apply (Go _ [EvClose (socket_ret y)]); reflexivity.
  - destruct (Z.eq_dec (socket_ret y) (-1)) as [S|S].
    + rewrite (initiate_no_socket now y w S). reflexivity.
    + rewrite (initiate_unusable now y w S U).
      apply (Go _ [EvClose (socket_ret y)]); reflexivity.
Qed.

Lemma initiate_srv (now : Z) (y : sys) (w : world) :
  set_result 0 (set_curfd 0 (srv (initiate now y w))) = set_result 0 (set_curfd 0 (srv w)).
Proof.
  destruct (usable y w) eqn:U.
  - destruct (bind_fails y w) eqn:B.
    { rewrite (initiate_bind_fails now y w U B). reflexivity. }
    destruct (connect_accepted y) eqn:C.
    { rewrite (initiate_accepted now y w U B C). reflexivity. }
    destruct (connect_tolerated y) eqn:T.
    + rewrite (initiate_tolerated now y w U B C T). reflexivity.
    + rewrite (initiate_refused now y w U B C T). reflexivity.
  - destruct (Z.eq_dec (socket_ret y) (-1)) as [S|S].
    + rewrite (initiate_no_socket now y w S). reflexivity.
    + rewrite (initiate_unusable now y w S U). reflexivity.
Qed.

Lemma gauge_initiate (now : Z) (y : sys) (w : world) :
  gauge_of (initiate now y w) = gauge_of w.
Proof.
  apply gauge_same; [apply initiate_srv|]. intros level. apply initiate_logged.
Qed.

Lemma gauge_chk_failure (w : world) : gauge_of (chk_failure w) = fail_step (gauge_of w).
Proof.
  destruct (chk_failure_counts w) as (H1 & H2 & H3 & H4 & _).
  destruct (chk_failure_config w) as (C & _).
  unfold gauge_of at 1. rewrite H1, H2, H3, H4.
  rewrite (f_equal rise C : rise (srv (chk_failure w)) = rise (srv w)),
          (f_equal fall C : fall (srv (chk_failure w)) = fall (srv w)),
          (f_equal inter C : inter (srv (chk_failure w)) = inter (srv w)).
  unfold fail_step, gauge_of.
  cbn [g_health g_state g_rise g_fall g_inter g_failed g_down g_alert g_notice].
  destruct (Z.ltb_spec (rise (srv w)) (health (srv w))) as [L|L].
  - assert (E : (health (srv w) =? rise (srv w)) = false) by (apply Z.eqb_neq; lia).
    rewrite E. unfold chk_failure.
    assert (E' : (rise (srv w) <? health (srv w)) = true) by (apply Z.ltb_lt; lia).
    rewrite E'. reflexivity.
  - destruct (Z.eq_dec (health (srv w)) (rise (srv w))) as [E|E].
    + rewrite E, Z.eqb_refl.
      assert (T : chk_failure w = set_server_down w).
      { unfold chk_failure.
        assert (E' : (rise (srv w) <? health (srv w)) = false) by (apply Z.ltb_ge; lia).
        now rewrite E'. }
      destruct (set_server_down_edge w E) as (_ & _ & _ & _ & _ & _ & D7 & _).
      rewrite T, D7, !logged_app, !(logged_wakeups _ _ (wakeups_are_wakeups w (rescued w))).
      f_equal; destruct (emptied w); unfold logged; cbn; lia.
    + assert (T : chk_failure w
                  = with_srv (fun s => set_health 0 (set_state (clear (state s) SRV_RUNNING) s)) w).
      { unfold chk_failure.
        assert (E' : (rise (srv w) <? health (srv w)) = false) by (apply Z.ltb_ge; lia).
        rewrite E'. apply set_server_down_quiet, E. }
      apply Z.eqb_neq in E. rewrite E, T. reflexivity.
Qed.

Section GaugeOfSuccess.

Variable dyn : server -> proxy -> Z.

Lemma gauge_chk_success (w w1 : world) :
  chk_success dyn w = Some w1 -> gauge_of w1 = ok_step (gauge_of w).
Proof.
  intros H.
  unfold ok_step, gauge_of.
  cbn [g_health g_state g_rise g_fall g_inter g_failed g_down g_alert g_notice].
  destruct (Z.lt_trichotomy (health (srv w) + 1) (rise (srv w))) as [L|[L|L]].
  - rewrite (chk_success_low dyn w L) in H. injection H as <-.
    assert (E : (rise (srv w) <=? health (srv w) + 1) = false) by (apply Z.leb_gt; lia).
    rewrite E. reflexivity.
  - assert (E : (rise (srv w) <=? health (srv w) + 1) = true) by (apply Z.leb_le; lia).
    rewrite E, L, Z.eqb_refl.
    destruct (chk_success_edge dyn w L) as (w2 & U & Es).
    rewrite Es in H. injection H as <-.
    destruct (up_edge_spec dyn (risen w)) as (w2' & x & tr & U' & F & T & W).
    rewrite U in U'. injection U' as <-.
    destruct F as (F1 & _).
    cbn [with_srv srv trace health state rise fall inter failed_checks down_trans set_health].
    rewrite (f_equal state F1 : state (srv w2) = _),
            (f_equal rise F1 : rise (srv w2) = _),
            (f_equal fall F1 : fall (srv w2) = _),
            (f_equal inter F1 : inter (srv w2) = _),
            (f_equal failed_checks F1 : failed_checks (srv w2) = _),
            (f_equal down_trans F1 : down_trans (srv w2) = _).
    rewrite T, !logged_app, !(logged_wakeups _ _ W).
    change (trace (risen w)) with (trace w).
    f_equal; unfold logged; cbn; lia.
  - rewrite (chk_success_high dyn w L) in H. injection H as <-.
    assert (E : (rise (srv w) <=? health (srv w) + 1) = true) by (apply Z.leb_le; lia).
    assert (E' : (health (srv w) + 1 =? rise (srv w)) = false) by (apply Z.eqb_neq; lia).
    rewrite E, E'. reflexivity.
Qed.

End GaugeOfSuccess.

(** ** The gauge across the handlers *)

Lemma gauge_w_out_wakeup (fd : Z) (w : world) :
  gauge_of (snd (w_out_wakeup fd w)) = gauge_of w.
Proof.
  apply gauge_same; [reflexivity|]. intros level.
  apply (logged_quiet level (trace w) [_]). reflexivity.
Qed.

Lemma gauge_r_out_wakeup (fd : Z) (w : world) :
  gauge_of (snd (r_out_wakeup fd w)) = gauge_of w.
Proof.
  apply gauge_same; [reflexivity|]. intros level.
  apply (logged_quiet level (trace w) [_]). reflexivity.
Qed.

Lemma gauge_write (fd now : Z) (y : sys) (w : world) :
  gauge_of (snd (event_srv_chk_w fd now y w)) = gauge_of w.
Proof.
  unfold event_srv_chk_w.
  destruct (_ || _).
  { unfold w_out_error. rewrite gauge_w_out_wakeup. reflexivity. }
  destruct (negb _); [|apply gauge_w_out_wakeup].
  destruct (_ || _ || _).
  - set (w1 := if flag (px_options (px w)) PR_O_SSL3_CHK then _ else w).
    assert (G : gauge_of w1 = gauge_of w)
      by (subst w1; destruct (flag _ _); reflexivity).
    destruct (_ =? _); [rewrite <- G; reflexivity|].
    destruct (_ || _); [rewrite <- G; reflexivity|].
    unfold w_out_error. rewrite gauge_w_out_wakeup. exact G.
  - destruct (_ || _); [reflexivity|].
    destruct (_ && _).
    + unfold w_out_error. rewrite gauge_w_out_wakeup. reflexivity.
    + rewrite gauge_w_out_wakeup. reflexivity.
Qed.

Lemma gauge_read (fd : Z) (y : sys) (w : world) :
  gauge_of (snd (event_srv_chk_r fd y w)) = gauge_of w.
Proof.
  unfold event_srv_chk_r.
  destruct (read_error fd y w); [rewrite gauge_r_out_wakeup; reflexivity|].
  destruct (read_again y); [reflexivity|].
  rewrite gauge_r_out_wakeup.
  destruct (classify _ _ _ =? -1); cbn [with_fd srv result];
    destruct (negb _); reflexivity.
Qed.

(** ** The gauge across a call of process_chk *)

Section TickGauge.

Variable dyn : server -> proxy -> Z.

Lemma tick_gauge (now : Z) (y : sys) (w : world) :
  0 < inter (srv w) ->
  exists w' next, runs dyn now y w w' next /\
    gauge_of w' = steps (outcome (verdict now y w)) (gauge_of w).
Proof.
  intros Hi. unfold verdict.
  destruct (Z.ltb_spec (curfd (srv w)) 0) as [Hc|Hc].
  - destruct (is_due now w) eqn:D; cbn [andb].
    + apply is_due_spec in D.
      pose proof (initiate_srv now y w) as I1.
      pose proof (initiate_result now y w) as R.
      pose proof (gauge_initiate now y w) as G.
      assert (Ii : 0 < inter (srv (initiate now y w))).
      { rewrite (f_equal inter I1 : inter (srv (initiate now y w)) = inter (srv w)). exact Hi. }
      destruct (start_refused y w).
      * assert (Hc' : curfd (srv (initiate now y w)) < 0).
        { destruct (Z.eq_dec (curfd (srv (initiate now y w))) (curfd (srv w))) as [E|E];
            [rewrite E; exact Hc|].
          destruct (initiate_result_curfd now y w E) as [R0 _]. lia. }
        eexists _, _. split.
        { apply tick_refused; [exact D | exact Ii | lia | exact Hc']. }
        rewrite gauge_settled, gauge_chk_failure, G. reflexivity.
      * destruct (Z_lt_le_dec (curfd (srv (initiate now y w))) 0) as [Hc'|Hc'].
        -- eexists _, _. split.
           { apply tick_absorbed; [exact D | exact Ii | exact R | exact Hc']. }
           rewrite gauge_settled. exact G.
        -- assert (E : curfd (srv (initiate now y w)) <> curfd (srv w)) by lia.
           destruct (initiate_result_curfd now y w E) as [_ Ex].
           eexists _, _. split.
           { apply tick_started; [exact D | exact Ii | exact R | exact Hc' | lia]. }
           rewrite gauge_task_queue. exact G.
    + assert (N : ~ due now w).
      { intros G. apply is_due_spec in G. congruence. }
      destruct (Z_lt_le_dec now (expire w)) as [He|He].
      * eexists _, _. split; [apply tick_early; assumption|]. apply gauge_task_queue.
      * eexists _, _. split.
        { apply tick_unchecked; try assumption.
          destruct (flag (state (srv w)) SRV_CHECKED) eqn:F; [|left; reflexivity].
          right. destruct (px_state (px w)) eqn:S; try reflexivity;
            exfalso; apply N; unfold due; rewrite S; repeat split; try assumption;
            discriminate. }
        apply gauge_settled.
  - destruct (Z.ltb_spec 0 (result (srv w))) as [Hr|Hr].
    + destruct (chk_success_total dyn w) as [w1 E].
      eexists _, _. split; [exact (tick_success dyn now y w w1 Hi Hc Hr E)|].
      rewrite gauge_settled, gauge_release. exact (gauge_chk_success dyn w w1 E).
    + destruct ((result (srv w) <? 0) || (expire w <=? now)) eqn:F.
      * eexists _, _. split.
        { apply tick_failure; try assumption.
          apply orb_true_iff in F as [F|F]; [left; apply Z.ltb_lt | right; apply Z.leb_le];
            exact F. }
        rewrite gauge_settled, gauge_release. apply gauge_chk_failure.
      * apply orb_false_iff in F as [F1 F2].
        apply Z.ltb_ge in F1. apply Z.leb_gt in F2.
        eexists _, _. split; [apply tick_wait; [exact Hc | lia | exact F2]|].
        apply gauge_task_queue.
Qed.

Lemma advance_after (now step : Z) : forall (fuel : nat) (e r : Z),
  advance fuel now step e = Some r -> now < r.
Proof.
  induction fuel as [|f IH]; intros e r; cbn [advance]; unfold tv_isle;
    destruct (Z.leb_spec e now) as [L|L]; intros H.
  - discriminate.
  - injection H as <-. exact L.
  - exact (IH _ _ H).
  - injection H as <-. exact L.
Qed.

(** After the loop on the deadline, the pass that follows the jump to
    [new_chk] returns and applies no step. *)
Lemma rephased_gauge (f : nat) (now : Z) (y : sys) (w2 w' : world) (next : Z) :
  curfd (srv w2) < 0 \/ result (srv w2) = 0 ->
  match rephase f now w2 with
  | None => None
  | Some (Out v n) => Some (v, n)
  | Some (Again v) => process_chk dyn f now y v
  end = Some (w', next) ->
  gauge_of w' = gauge_of w2.
Proof.
  intros Hc. unfold rephase.
  destruct (advance f now (inter (srv w2)) (expire w2)) as [e|] eqn:A; [|discriminate].
  apply advance_after in A.
  destruct f as [|f]; [discriminate|].
  cbn [process_chk]. unfold pass.
  cbn [set_expire srv expire px].
  assert (T : tv_isle e now = false) by (unfold tv_isle; apply Z.leb_gt; exact A).
  rewrite T. cbn [negb].
  destruct (Z.ltb_spec (curfd (srv w2)) 0) as [L|L].
  - intros H. injection H as <- _. apply (gauge_task_queue (set_expire e w2)).
  - assert (R : result (srv w2) = 0) by lia.
    rewrite R. cbn [Z.ltb Z.compare orb].
    intros H. injection H as <- _.
    rewrite gauge_task_queue. reflexivity.
Qed.

(** A call of [process_chk] that returns has applied the step that
    [verdict] names, and nothing else, to the gauge. *)
Lemma run_gauge (fuel : nat) (now : Z) (y : sys) (w w' : world) (next : Z) :
  process_chk dyn fuel now y w = Some (w', next) ->
  gauge_of w' = steps (outcome (verdict now y w)) (gauge_of w).
Proof.
  destruct fuel as [|f]; [discriminate|].
  cbn [process_chk]. unfold pass, verdict, is_due.
  destruct (Z.ltb_spec (curfd (srv w)) 0) as [Hc|Hc]; cbn [andb].
  - unfold tv_isle.
    destruct (expire w <=? now) eqn:E; cbn [negb andb].
    + destruct (flag (state (srv w)) SRV_CHECKED) eqn:F; cbn [negb orb andb].
      * destruct (proxy_state_eqb (px_state (px w)) PR_STSTOPPED) eqn:S; cbn [negb andb].
        -- destruct (advance f now (inter (srv w)) (expire w)) as [e|]; [|discriminate].
           intros H. injection H as <- _. apply (gauge_task_queue (set_expire e w)).
        -- pose proof (initiate_result now y w) as R.
           destruct (start_refused y w).
           ++ rewrite R. cbn [Z.eqb].
              intros H. apply rephased_gauge in H.
              ** rewrite H, gauge_chk_failure, gauge_initiate. reflexivity.
              ** left. rewrite chk_failure_curfd.
                 destruct (Z.eq_dec (curfd (srv (initiate now y w))) (curfd (srv w)))
                   as [Q|Q]; [rewrite Q; exact Hc|].
                 destruct (initiate_result_curfd now y w Q) as [R0 _]. lia.
           ++ rewrite R. cbn [Z.eqb].
              intros H. apply rephased_gauge in H; [|right; exact R].
              rewrite H. apply gauge_initiate.
      * destruct (advance f now (inter (srv w)) (expire w)) as [e|]; [|discriminate].
        intros H. injection H as <- _. apply (gauge_task_queue (set_expire e w)).
    + intros H. injection H as <- _. apply gauge_task_queue.
  - destruct (0 <? result (srv w)).
    + destruct (chk_success dyn w) as [w1|] eqn:E; [|discriminate].
      intros H. apply rephased_gauge in H; [|left; cbn; lia].
      rewrite H, gauge_release. exact (gauge_chk_success dyn w w1 E).
    + unfold tv_isle. destruct ((result (srv w) <? 0) || (expire w <=? now)).
      * intros H. apply rephased_gauge in H; [|left; cbn; lia].
        rewrite H, gauge_release. apply gauge_chk_failure.
      * intros H. injection H as <- _. rewrite gauge_task_queue. reflexivity.
Qed.

Lemma runs_gauge (now : Z) (y : sys) (w w' : world) (next : Z) :
  runs dyn now y w w' next ->
  gauge_of w' = steps (outcome (verdict now y w)) (gauge_of w).
Proof.
  intros [n R]. exact (run_gauge n now y w w' next (R n (Nat.le_refl n))).
Qed.

Lemma steps_inter (l : list bool) : forall g, g_inter (steps l g) = g_inter g.
Proof.
  induction l as [|b l IH]; intros g; [reflexivity|].
  unfold steps in *. cbn [fold_left]. rewrite IH.
  destruct b; unfold probe_step, ok_step, fail_step.
  - destruct (_ <=? _); reflexivity.
  - destruct (_ <? _); reflexivity.
Qed.

Lemma steps_app (l l' : list bool) (g : gauge) : steps (l ++ l') g = steps l' (steps l g).
Proof. apply fold_left_app. Qed.

Lemma history_gauge (w : world) (l : list bool) (w' : world) :
  history dyn w l w' -> gauge_of w' = steps l (gauge_of w).
Proof.
  induction 1 as [w|now y w w1 next l w' R H IH|fd now y w l w' H IH|fd y w l w' H IH].
  - reflexivity.
  - rewrite steps_app, <- (runs_gauge now y w w1 next R). exact IH.
  - rewrite <- (gauge_write fd now y w). exact IH.
  - rewrite <- (gauge_read fd y w). exact IH.
Qed.

Lemma history_returns (w : world) (l : list bool) (w' : world) :
  history dyn w l w' -> 0 < inter (srv w) ->
  forall now y, exists w'' next, runs dyn now y w' w'' next.
Proof.
  intros H Hi now y.
  assert (Hi' : 0 < inter (srv w')).
  { change (0 < g_inter (gauge_of w')).
    rewrite (history_gauge w l w' H), steps_inter. exact Hi. }
  destruct (tick_gauge now y w' Hi') as (w2 & n2 & R & _). exists w2, n2. exact R.
Qed.

Lemma play_history (fuel : nat) (acts : list action) : forall w w' l,
  play dyn fuel acts w = Some (w', l) -> history dyn w l w'.
Proof.
  induction acts as [|a acts IH]; intros w w' l H; cbn [play] in H.
  - injection H as <- <-. constructor.
  - destruct (perform dyn fuel a w) as [[w1 l1]|] eqn:E; [|discriminate].
    destruct (play dyn fuel acts w1) as [[w2 l2]|] eqn:P; [|discriminate].
    injection H as <- <-. apply IH in P.
    destruct a as [now y|fd now y|fd y]; cbn [perform] in E.
    + destruct (process_chk dyn fuel now y w) as [[v n]|] eqn:R; [|discriminate].
      injection E as <- <-.
      exact (history_tick dyn now y w v n l2 w2 (runs_of_run dyn now y fuel w v n R) P).
    + injection E as <- <-. apply history_write with (fd := fd) (now := now) (y := y). exact P.
    + injection E as <- <-. apply history_read with (fd := fd) (y := y). exact P.
Qed.

End TickGauge.

(** ** Runs of failures and of successes on the gauge *)

Lemma steps_failures (n : nat) : forall g,
  Z.of_nat n <= g_health g - g_rise g ->
  steps (repeat false n) g
  = mk_gauge (g_health g - Z.of_nat n) (g_state g) (g_rise g) (g_fall g) (g_inter g)
      (g_failed g + Z.of_nat n) (g_down g) (g_alert g) (g_notice g).
Proof.
  induction n as [|n IH]; intros g H.
  - destruct g. cbn. f_equal; lia.
  - cbn [repeat]. unfold steps in *. cbn [fold_left]. rewrite IH.
    + unfold probe_step, fail_step.
      assert (E : (g_rise g <? g_health g) = true) by (apply Z.ltb_lt; lia).
      rewrite E. cbn. f_equal; lia.
    + unfold probe_step, fail_step.
      assert (E : (g_rise g <? g_health g) = true) by (apply Z.ltb_lt; lia).
      rewrite E. cbn. lia.
Qed.

Lemma steps_successes (n : nat) : forall g,
  g_health g + Z.of_nat n < g_rise g ->
  steps (repeat true n) g
  = mk_gauge (g_health g + Z.of_nat n) (g_state g) (g_rise g) (g_fall g) (g_inter g)
      (g_failed g) (g_down g) (g_alert g) (g_notice g).
Proof.
  induction n as [|n IH]; intros g H.
  - destruct g. cbn. f_equal; lia.
  - cbn [repeat]. unfold steps in *. cbn [fold_left]. rewrite IH.
    + unfold probe_step, ok_step.
      assert (E : (g_rise g <=? g_health g + 1) = false) by (apply Z.leb_gt; lia).
      rewrite E. cbn. f_equal; lia.
    + unfold probe_step, ok_step.
      assert (E : (g_rise g <=? g_health g + 1) = false) by (apply Z.leb_gt; lia).
      rewrite E. cbn. lia.
Qed.

Lemma repeat_snoc (b : bool) (n : nat) : repeat b (S n) = repeat b n ++ [b].
Proof. induction n as [|n IH]; [reflexivity|]. cbn [repeat app] in *. now rewrite <- IH. Qed.

Section HysteresisOfCalls.

Variable dyn : server -> proxy -> Z.

(** C1. Hysteresis of the liveness state machine, over the calls of
    [process_chk]. Take any sequence of calls of [process_chk] and of the
    two handlers, whatever the times and whatever the system calls
    answer. From steady UP ([health = rise + fall - 1], at or above
    [rise]): when the probes that the calls consume are [n] failed probes
    and no successful one, then for [n < fall] no DOWN edge is taken
    (nothing is logged at ALERT, [down_trans] and the state word are
    unchanged, health is [rise + fall - 1 - n], at or above [rise]), and
    for [n = fall] it is taken, once. From fully DOWN ([health = 0],
    below [rise]): when the probes consumed are [n] successful probes and
    no failed one, then for [n < rise] no UP edge is taken (nothing is
    logged at NOTICE, the state word is unchanged, health is [n]), and
    for [n = rise] it is taken, once. A probe is consumed as failed when
    it runs with a failure stored or with no result at its deadline, and
    when it is refused at its start; as successful when it runs with a
    success stored ([verdict]). With a positive interval every call of
    [process_chk] in such a sequence returns. *)
Theorem hysteresis (w : world) :
  (rise (srv w) <= health (srv w) ->
   health (srv w) = rise (srv w) + fall (srv w) - 1 ->
   forall n w', history dyn w (repeat false n) w' ->
     (Z.of_nat n < fall (srv w) ->
        logged LOG_ALERT (trace w') = logged LOG_ALERT (trace w) /\
        down_trans (srv w') = down_trans (srv w) /\
        state (srv w') = state (srv w) /\
        health (srv w') = health (srv w) - Z.of_nat n /\
        rise (srv w) <= health (srv w')) /\
     (Z.of_nat n = fall (srv w) ->
        logged LOG_ALERT (trace w') = S (logged LOG_ALERT (trace w)) /\
        down_trans (srv w') = down_trans (srv w) + 1 /\
        flag (state (srv w')) SRV_RUNNING = false /\
        health (srv w') = 0)) /\
  (health (srv w) < rise (srv w) ->
   health (srv w) = 0 ->
   forall n w', history dyn w (repeat true n) w' ->
     (Z.of_nat n < rise (srv w) ->
        logged LOG_NOTICE (trace w') = logged LOG_NOTICE (trace w) /\
        state (srv w') = state (srv w) /\
        health (srv w') = Z.of_nat n) /\
     (Z.of_nat n = rise (srv w) ->
        logged LOG_NOTICE (trace w') = S (logged LOG_NOTICE (trace w)) /\
        flag (state (srv w')) SRV_RUNNING = true /\
        health (srv w') = rise (srv w) + fall (srv w) - 1)) /\
  (0 < inter (srv w) ->
   forall l w', history dyn w l w' ->
     forall now y, exists w'' next, runs dyn now y w' w'' next).
Proof.
  split; [|split].
  - intros Hup Hh n w' H.
    pose proof (history_gauge dyn w _ w' H) as G.
    split.
    + intros Hn. rewrite steps_failures in G by (cbn; lia).
      pose proof (f_equal g_alert G) as G1. pose proof (f_equal g_down G) as G2.
      pose proof (f_equal g_state G) as G3. pose proof (f_equal g_health G) as G4.
      cbn in G1, G2, G3, G4. rewrite G1, G2, G3, G4. repeat split. lia.
    + intros Hn. destruct n as [|n]; [cbn in Hn; lia|].
      rewrite repeat_snoc, steps_app, steps_failures in G by (cbn; lia).
      cbn [steps fold_left probe_step] in G. unfold fail_step in G.
      cbn [g_health g_state g_rise g_fall g_inter g_failed g_down g_alert g_notice gauge_of] in G.
      assert (E1 : (rise (srv w) <? health (srv w) - Z.of_nat n) = false)
        by (apply Z.ltb_ge; lia).
      assert (E2 : (health (srv w) - Z.of_nat n =? rise (srv w)) = true)
        by (apply Z.eqb_eq; lia).
      rewrite E1, E2 in G.
      pose proof (f_equal g_alert G) as G1. pose proof (f_equal g_down G) as G2.
      pose proof (f_equal g_state G) as G3. pose proof (f_equal g_health G) as G4.
      cbn in G1, G2, G3, G4. rewrite G1, G2, G3, G4. repeat split. apply flag_clear.
  - intros Hdown Hh n w' H.
    pose proof (history_gauge dyn w _ w' H) as G.
    split.
    + intros Hn. rewrite steps_successes in G by (cbn; lia).
      pose proof (f_equal g_notice G) as G1.
      pose proof (f_equal g_state G) as G3. pose proof (f_equal g_health G) as G4.
      cbn in G1, G3, G4. rewrite G1, G3, G4. repeat split. lia.
    + intros Hn. destruct n as [|n]; [cbn in Hn; lia|].
      rewrite repeat_snoc, steps_app, steps_successes in G by (cbn; lia).
      cbn [steps fold_left probe_step] in G. unfold ok_step in G.
      cbn [g_health g_state g_rise g_fall g_inter g_failed g_down g_alert g_notice gauge_of] in G.
      assert (E1 : (rise (srv w) <=? health (srv w) + Z.of_nat n + 1) = true)
        by (apply Z.leb_le; lia).
      assert (E2 : (health (srv w) + Z.of_nat n + 1 =? rise (srv w)) = true)
        by (apply Z.eqb_eq; lia).
      rewrite E1, E2 in G.
      pose proof (f_equal g_notice G) as G1.
      pose proof (f_equal g_state G) as G3. pose proof (f_equal g_health G) as G4.
      cbn in G1, G3, G4. rewrite G1, G3, G4. repeat split.
      apply flag_raise. discriminate.
  - intros Hi l w' H. exact (history_returns dyn w l w' H Hi).
Qed.

End HysteresisOfCalls.

Lemma hysteresis_witness :
  (rise (srv demo_steady) <= health (srv demo_steady) /\
   health (srv demo_steady) = rise (srv demo_steady) + fall (srv demo_steady) - 1 /\
   Z.of_nat 3 = fall (srv demo_steady) /\
   exists w', history demo_dyn demo_steady (repeat false 3) w' /\
     logged LOG_ALERT (trace w') = S (logged LOG_ALERT (trace demo_steady)) /\
     down_trans (srv w') = down_trans (srv demo_steady) + 1 /\
     flag (state (srv w')) SRV_RUNNING = false /\
     health (srv w') = 0) /\
  (health (srv demo_down_running) < rise (srv demo_down_running) /\
   health (srv demo_down_running) = 0 /\
   Z.of_nat 1 < rise (srv demo_down_running) /\
   exists w', history demo_dyn demo_down_running (repeat true 1) w' /\
     logged LOG_NOTICE (trace w') = logged LOG_NOTICE (trace demo_down_running) /\
     state (srv w') = state (srv demo_down_running) /\
     health (srv w') = 1).
Proof.
  split.
  - assert (H2 : rise (srv demo_steady) <= health (srv demo_steady)) by (cbn; lia).
    assert (H3 : Z.of_nat 3 = fall (srv demo_steady)) by reflexivity.
    assert (E : exists r, play demo_dyn 4 demo_three_probes demo_steady = Some r /\
                          snd r = repeat false 3)
      by (vm_compute; eexists; split; reflexivity).
    destruct E as ([w' l] & E & El). cbn [snd] in El. subst l.
    pose proof (play_history demo_dyn 4 demo_three_probes _ _ _ E) as H.
    split; [exact H2|]. split; [reflexivity|]. split; [exact H3|].
    exists w'. split; [exact H|].
    exact (proj2 (proj1 (hysteresis demo_dyn demo_steady) H2 eq_refl 3%nat w' H) H3).
  - assert (H1 : health (srv demo_down_running) < rise (srv demo_down_running))
      by (cbn; lia).
    assert (H3 : Z.of_nat 1 < rise (srv demo_down_running)) by (cbn; lia).
    assert (E : exists r, play demo_dyn 4 [Tick 1500 demo_sys] demo_down_running = Some r /\
                          snd r = repeat true 1)
      by (vm_compute; eexists; split; reflexivity).
    destruct E as ([w' l] & E & El). cbn [snd] in El. subst l.
    pose proof (play_history demo_dyn 4 [Tick 1500 demo_sys] _ _ _ E) as H.
    split; [exact H1|]. split; [reflexivity|]. split; [exact H3|].
    exists w'. split; [exact H|].
    exact (proj1 (proj1 (proj2 (hysteresis demo_dyn demo_down_running)) H1 eq_refl 1%nat w' H)
             H3).
Defined.

(** ** Successes that a failure cancels *)

Section CancelOfCalls.

Variable dyn : server -> proxy -> Z.

(** X14. From fully DOWN ([health = 0], RUNNING clear), when the probes
    that a sequence of calls of [process_chk] and of the handlers
    consumes are [n < rise] successful probes, health is [n]; and when
    one failed probe follows them, the liveness fields are back where
    they were: health is 0, the state word, [failed_checks] and
    [down_trans] are unchanged, and nothing was logged at ALERT or at
    NOTICE. With [n = 0]: a failed probe leaves a DOWN server as it is. *)
Theorem rise_round_trip (w : world) (n : nat) :
  flag (state (srv w)) SRV_RUNNING = false ->
  health (srv w) = 0 ->
  Z.of_nat n < rise (srv w) ->
  (forall w1, history dyn w (repeat true n) w1 -> health (srv w1) = Z.of_nat n) /\
  (forall w', history dyn w (repeat true n ++ [false]) w' ->
     health (srv w') = 0 /\
     state (srv w') = state (srv w) /\
     failed_checks (srv w') = failed_checks (srv w) /\
     down_trans (srv w') = down_trans (srv w) /\
     logged LOG_ALERT (trace w') = logged LOG_ALERT (trace w) /\
     logged LOG_NOTICE (trace w') = logged LOG_NOTICE (trace w)).
Proof.
  intros Hs Hh Hn. split.
  - intros w1 H.
    pose proof (history_gauge dyn w _ w1 H) as G.
    rewrite steps_successes in G by (cbn; lia).
    pose proof (f_equal g_health G) as G4. cbn in G4. lia.
  - intros w' H.
    pose proof (history_gauge dyn w _ w' H) as G.
    rewrite steps_app, steps_successes in G by (cbn; lia).
    cbn [steps fold_left probe_step] in G. unfold fail_step in G.
    cbn [g_health g_state g_rise g_fall g_inter g_failed g_down g_alert g_notice gauge_of] in G.
    assert (E1 : (rise (srv w) <? health (srv w) + Z.of_nat n) = false)
      by (apply Z.ltb_ge; lia).
    assert (E2 : (health (srv w) + Z.of_nat n =? rise (srv w)) = false)
      by (apply Z.eqb_neq; lia).
    rewrite E1, E2, (clear_absent _ _ Hs) in G.
    pose proof (f_equal g_health G) as G1. pose proof (f_equal g_state G) as G2.
    pose proof (f_equal g_failed G) as G3. pose proof (f_equal g_down G) as G4.
    pose proof (f_equal g_alert G) as G5. pose proof (f_equal g_notice G) as G6.
    cbn in G1, G2, G3, G4, G5, G6. repeat split; assumption.
Qed.

End CancelOfCalls.

Lemma rise_round_trip_witness :
  flag (state (srv demo_down_running)) SRV_RUNNING = false /\
  health (srv demo_down_running) = 0 /\
  Z.of_nat 1 < rise (srv demo_down_running) /\
  exists w', history demo_dyn demo_down_running (repeat true 1 ++ [false]) w' /\
    health (srv w') = 0 /\
    logged LOG_ALERT (trace w') = logged LOG_ALERT (trace demo_down_running).
Proof.
  assert (H4 : Z.of_nat 1 < rise (srv demo_down_running)) by (cbn; lia).
  assert (E : exists r, play demo_dyn 4 demo_success_failure demo_down_running = Some r /\
                        snd r = repeat true 1 ++ [false])
    by (vm_compute; eexists; split; reflexivity).
  destruct E as ([w' l] & E & El). cbn [snd] in El. subst l.
  pose proof (play_history demo_dyn 4 demo_success_failure _ _ _ E) as H.
  split; [reflexivity|]. split; [reflexivity|]. split; [exact H4|].
  exists w'. split; [exact H|].
  destruct (proj2 (rise_round_trip demo_dyn demo_down_running 1 eq_refl eq_refl H4) w' H)
    as (A & _ & _ & _ & B & _).
  split; [exact A | exact B].
Defined.

(** ** The start of a probe *)

Section StartOfProbe.

Variable dyn : server -> proxy -> Z.

Lemma started_runs (now : Z) (y : sys) (w : world) :
  startable now y w ->
  runs dyn now y w (started now y w) (now + inter (srv w)).
Proof.
  intros (Hi & Hd & U & B & C & Hfd).
  pose proof (initiate_accepted now y w U B C) as EW.
  unfold started. rewrite <- EW.
  replace (now + inter (srv w)) with (expire (initiate now y w))
    by (rewrite EW; reflexivity).
  apply tick_started; [exact Hd | | | |]; rewrite EW; cbn; unfold tv_ms_add; lia.
Qed.

Lemma started_fields (now : Z) (y : sys) (w : world) :
  srv (started now y w) = set_result 0 (set_curfd (socket_ret y) (srv w)) /\
  px (started now y w) = px w /\
  task (started now y w) = task w /\
  (0 < inter (srv w) -> expire (started now y w) = now + inter (srv w)) /\
  fdtab (started now y w) (socket_ret y)
  = mk_fdentry (task w) cb_event_srv_chk_r cb_event_srv_chk_w FD_STCONN 0
      (poll_rd (fdtab w (socket_ret y))) true.
Proof.
  unfold started. cbn. rewrite Z.eqb_refl. repeat split.
  intros Hi. unfold tv_ms_add. rewrite lag_early by lia. lia.
Qed.

End StartOfProbe.

Lemma demo_startable (w : world) :
  srv w = demo_server -> px_state (px w) = PR_STRUN ->
  flag (px_options (px w)) PR_O_BIND_SRC = false ->
  expire w = 1000 -> maxsock w = 1024 ->
  startable 1500 demo_sys w.
Proof.
  intros Hs Hp Hb He Hm. unfold startable, due, usable, bind_fails.
  rewrite Hs, Hp, Hb, He, Hm. cbn.
  repeat split; try lia; try reflexivity. discriminate.
Qed.

(** ** A probe after its start *)

Lemma started_closed (now : Z) (y : sys) (w : world) :
  os_open (started now y w) (socket_ret y) = false.
Proof. unfold started. cbn. rewrite Z.eqb_refl. reflexivity. Qed.

Lemma write_on_closed (fd now : Z) (y : sys) (w : world) :
  fd_error fd w = false -> result (srv w) <> -1 -> 0 <= check_len (px w) ->
  bad_descriptor y ->
  fst (event_srv_chk_w fd now y w) = 1 /\
  srv (snd (event_srv_chk_w fd now y w)) = set_result (-1) (srv w) /\
  fdst (fdtab (snd (event_srv_chk_w fd now y w)) fd) = FD_STERROR /\
  trace (snd (event_srv_chk_w fd now y w))
  = trace w ++ [EvTaskWakeup (owner (fdtab w fd))].
Proof.
  intros He Hr Hl (B1 & B2 & B3 & B4 & _).
  assert (Out : forall v, srv v = srv w -> fdtab v = fdtab w -> trace v = trace w ->
            fst (w_out_error fd v) = 1 /\
            srv (snd (w_out_error fd v)) = set_result (-1) (srv w) /\
            fdst (fdtab (snd (w_out_error fd v)) fd) = FD_STERROR /\
            trace (snd (w_out_error fd v)) = trace w ++ [EvTaskWakeup (owner (fdtab w fd))]).
  { intros v E1 E2 E3.
    cbn [w_out_error w_out_wakeup w_out_nowake task_wakeup emit with_fd with_srv
         fst snd srv trace fdtab].
    rewrite !Z.eqb_refl, E1, E2, E3. repeat split. }
  unfold event_srv_chk_w.
  unfold fd_error in He. rewrite He.
  apply Z.eqb_neq in Hr. rewrite Hr. cbn [negb].
  fold (has_request (px w)). destruct (has_request (px w)).
  - set (w1 := if flag (px_options (px w)) PR_O_SSL3_CHK then _ else w).
    assert (L : check_len (px w1) = check_len (px w))
      by (subst w1; destruct (flag (px_options (px w)) PR_O_SSL3_CHK); reflexivity).
    assert (E : (send_ret y =? check_len (px w1)) = false)
      by (apply Z.eqb_neq; lia).
    assert (E' : (send_ret y =? 0) || (send_errno y =? EAGAIN) = false)
      by (rewrite B3, B4; reflexivity).
    rewrite E, E'.
    apply Out; subst w1; destruct (flag (px_options (px w)) PR_O_SSL3_CHK); reflexivity.
  - rewrite B1, B2. cbn [Z.eqb].
    change ((EBADF =? EALREADY) || (EBADF =? EINPROGRESS)) with false.
    change (negb (EBADF =? 0) && negb (EBADF =? EISCONN)) with true.
    cbn iota. apply Out; reflexivity.
Qed.

Lemma read_on_closed (fd : Z) (y : sys) (w : world) :
  bad_descriptor y ->
  fst (event_srv_chk_r fd y w) = 1 /\
  srv (snd (event_srv_chk_r fd y w)) = set_result (-1) (srv w) /\
  fdst (fdtab (snd (event_srv_chk_r fd y w)) fd) = FD_STERROR /\
  trace (snd (event_srv_chk_r fd y w))
  = trace w ++ [EvTaskWakeup (owner (fdtab w fd))].
Proof.
  intros (_ & _ & _ & _ & B5 & _).
  unfold event_srv_chk_r.
  assert (E : read_error fd y w = true).
  { unfold read_error. rewrite B5. cbn [Z.eqb Pos.eqb]. rewrite orb_true_r. reflexivity. }
  rewrite E.
  cbn [r_out_wakeup task_wakeup emit with_fd with_srv fst snd srv trace fdtab].
  rewrite ?Z.eqb_refl. repeat split.
Qed.

Section StartedProbe.

Variable dyn : server -> proxy -> Z.

(** A probe that runs on [fd] with a failure stored, or with no result at
    its deadline, is consumed by the next call. *)
Lemma failed_probe_consumed (t fd : Z) (y : sys) (w w2 : world) :
  0 < inter (srv w) -> 0 <= fd ->
  srv w2 = set_result (result (srv w2)) (set_curfd fd (srv w)) ->
  result (srv w2) < 0 \/ (result (srv w2) = 0 /\ expire w2 <= t) ->
  exists w3 n3, runs dyn t y w2 w3 n3 /\
    liveness (srv w3) = after_failure (srv w) /\
    curfd (srv w3) = -1 /\ fdst (fdtab w3 fd) = FD_STCLOSE /\
    os_open w3 fd = false /\ t < n3.
Proof.
  intros Hi Hfd S2 Hr.
  assert (Ii : 0 < inter (srv w2)) by (rewrite S2; exact Hi).
  assert (Ic : 0 <= curfd (srv w2)) by (rewrite S2; exact Hfd).
  assert (Cf : curfd (srv w2) = fd) by (rewrite S2; reflexivity).
  assert (Ir : result (srv w2) <= 0) by lia.
  assert (Io : result (srv w2) < 0 \/ expire w2 <= t) by lia.
  eexists _, _. split; [exact (tick_failure dyn t y w2 Ii Ic Ir Io)|].
  split; [|split; [reflexivity|split; [|split]]].
  - change (liveness (srv (chk_failure w2)) = after_failure (srv w)).
    rewrite liveness_failure, S2. reflexivity.
  - rewrite Cf.
    cbn [task_queue settle release fd_delete emit set_expire set_open with_fd with_srv fdtab].
    rewrite Z.eqb_refl. reflexivity.
  - rewrite Cf.
    cbn [task_queue settle release fd_delete emit set_expire set_open with_fd with_srv
         os_open].
    rewrite Z.eqb_refl. reflexivity.
  - apply settle_future. change (0 < inter (srv (chk_failure w2))).
    rewrite chk_failure_inter. exact Ii.
Qed.

Lemma write_fails_from (t1 t2 fd : Z) (y1 y2 : sys) (w w1 : world) :
  0 < inter (srv w) -> 0 <= fd -> 0 <= check_len (px w) ->
  srv w1 = set_result 0 (set_curfd fd (srv w)) -> px w1 = px w ->
  fdtab w1 fd
  = mk_fdentry (task w) cb_event_srv_chk_r cb_event_srv_chk_w FD_STCONN 0
      (poll_rd (fdtab w fd)) true ->
  bad_descriptor y1 ->
  fst (event_srv_chk_w fd t1 y1 w1) = 1 /\
  result (srv (snd (event_srv_chk_w fd t1 y1 w1))) = -1 /\
  fdst (fdtab (snd (event_srv_chk_w fd t1 y1 w1)) fd) = FD_STERROR /\
  trace (snd (event_srv_chk_w fd t1 y1 w1)) = trace w1 ++ [EvTaskWakeup (task w)] /\
  exists w3 n3, runs dyn t2 y2 (snd (event_srv_chk_w fd t1 y1 w1)) w3 n3 /\
    liveness (srv w3) = after_failure (srv w) /\
    curfd (srv w3) = -1 /\ fdst (fdtab w3 fd) = FD_STCLOSE /\
    os_open w3 fd = false /\ t2 < n3.
Proof.
  intros Hi Hfd Hl S1 S2 S5 B.
  destruct (write_on_closed fd t1 y1 w1) as (A1 & A2 & A3 & A4); [| | |exact B|].
  { unfold fd_error. rewrite S5. reflexivity. }
  { rewrite S1. cbn. lia. }
  { rewrite S2. exact Hl. }
  split; [exact A1|]. split; [rewrite A2; reflexivity|]. split; [exact A3|].
  split; [rewrite A4, S5; reflexivity|].
  apply (failed_probe_consumed t2 fd y2 w _ Hi Hfd).
  - rewrite A2, S1. reflexivity.
  - left. rewrite A2. cbn. lia.
Qed.

Lemma read_fails_from (t2 fd : Z) (y1 y2 : sys) (w w1 : world) :
  0 < inter (srv w) -> 0 <= fd ->
  srv w1 = set_result 0 (set_curfd fd (srv w)) ->
  fdtab w1 fd
  = mk_fdentry (task w) cb_event_srv_chk_r cb_event_srv_chk_w FD_STCONN 0
      (poll_rd (fdtab w fd)) true ->
  bad_descriptor y1 ->
  fst (event_srv_chk_r fd y1 w1) = 1 /\
  result (srv (snd (event_srv_chk_r fd y1 w1))) = -1 /\
  fdst (fdtab (snd (event_srv_chk_r fd y1 w1)) fd) = FD_STERROR /\
  trace (snd (event_srv_chk_r fd y1 w1)) = trace w1 ++ [EvTaskWakeup (task w)] /\
  exists w3 n3, runs dyn t2 y2 (snd (event_srv_chk_r fd y1 w1)) w3 n3 /\
    liveness (srv w3) = after_failure (srv w) /\
    curfd (srv w3) = -1 /\ fdst (fdtab w3 fd) = FD_STCLOSE /\
    os_open w3 fd = false /\ t2 < n3.
Proof.
  intros Hi Hfd S1 S5 B.
  destruct (read_on_closed fd y1 w1 B) as (A1 & A2 & A3 & A4).
  split; [exact A1|]. split; [rewrite A2; reflexivity|]. split; [exact A3|].
  split; [rewrite A4, S5; reflexivity|].
  apply (failed_probe_consumed t2 fd y2 w _ Hi Hfd).
  - rewrite A2, S1. reflexivity.
  - left. rewrite A2. cbn. lia.
Qed.

Lemma idle_from (t0 t1 fd : Z) (y1 : sys) (w w1 : world) :
  0 < inter (srv w) -> 0 <= fd ->
  srv w1 = set_result 0 (set_curfd fd (srv w)) ->
  expire w1 = t0 + inter (srv w) ->
  t1 < t0 + inter (srv w) ->
  runs dyn t1 y1 w1 (task_queue w1) (t0 + inter (srv w)).
Proof.
  intros Hi Hfd S1 S4 Ht.
  assert (Ic : 0 <= curfd (srv w1)) by (rewrite S1; exact Hfd).
  assert (Ir : result (srv w1) = 0) by (rewrite S1; reflexivity).
  rewrite <- S4. rewrite <- (with_srv_same w1 Ir) at 2.
  apply tick_wait; [exact Ic | exact Ir | lia].
Qed.

(** X18. A probe that is started fails in the write-side handler. When
    [process_chk] starts a probe it registers the descriptor and closes
    it (line 419). The write-side handler, called next and answered as
    the operating system answers on a descriptor that is not open (-1
    and EBADF), returns 1, stores a failure, marks the descriptor
    FD_STERROR and wakes the task of the check, with or without a
    request to send; the next call of [process_chk], whenever it comes,
    returns, applies the failure step to the server and releases the
    probe. *)
Theorem started_probe_write_fails (t0 t1 t2 : Z) (y0 y1 y2 : sys) (w : world) :
  startable t0 y0 w -> 0 <= check_len (px w) ->
  let fd := socket_ret y0 in
  os_answers fd (started t0 y0 w) y1 ->
  let h := event_srv_chk_w fd t1 y1 (started t0 y0 w) in
  runs dyn t0 y0 w (started t0 y0 w) (t0 + inter (srv w)) /\
  os_open (started t0 y0 w) fd = false /\
  fst h = 1 /\ result (srv (snd h)) = -1 /\
  fdst (fdtab (snd h) fd) = FD_STERROR /\
  trace (snd h) = trace (started t0 y0 w) ++ [EvTaskWakeup (task w)] /\
  exists w3 n3, runs dyn t2 y2 (snd h) w3 n3 /\
    liveness (srv w3) = after_failure (srv w) /\
    curfd (srv w3) = -1 /\ fdst (fdtab w3 fd) = FD_STCLOSE /\
    os_open w3 fd = false /\ t2 < n3.
Proof.
  intros St Hl fd Ho.
  pose proof St as (Hi & Hd & U & B & C & Hfd).
  destruct (started_fields t0 y0 w) as (S1 & S2 & S3 & S4 & S5).
  split; [apply started_runs, St|].
  split; [apply started_closed|].
  exact (write_fails_from t1 t2 (socket_ret y0) y1 y2 w (started t0 y0 w)
           Hi Hfd Hl S1 S2 S5 (Ho (started_closed t0 y0 w))).
Qed.

(** X19. A probe that is started fails in the read-side handler as well.
    After the start of a probe by [process_chk], the read-side handler,
    answered as the operating system answers on a descriptor that is not
    open, returns 1, stores a failure, marks the descriptor FD_STERROR
    and wakes the task of the check; the next call of [process_chk]
    returns, applies the failure step and releases the probe. *)
Theorem started_probe_read_fails (t0 t2 : Z) (y0 y1 y2 : sys) (w : world) :
  startable t0 y0 w ->
  let fd := socket_ret y0 in
  os_answers fd (started t0 y0 w) y1 ->
  let h := event_srv_chk_r fd y1 (started t0 y0 w) in
  fst h = 1 /\ result (srv (snd h)) = -1 /\
  fdst (fdtab (snd h) fd) = FD_STERROR /\
  trace (snd h) = trace (started t0 y0 w) ++ [EvTaskWakeup (task w)] /\
  exists w3 n3, runs dyn t2 y2 (snd h) w3 n3 /\
    liveness (srv w3) = after_failure (srv w) /\
    curfd (srv w3) = -1 /\ fdst (fdtab w3 fd) = FD_STCLOSE /\
    os_open w3 fd = false /\ t2 < n3.
Proof.
  intros St fd Ho.
  pose proof St as (Hi & Hd & U & B & C & Hfd).
  destruct (started_fields t0 y0 w) as (S1 & S2 & S3 & S4 & S5).
  exact (read_fails_from t2 (socket_ret y0) y1 y2 w (started t0 y0 w)
           Hi Hfd S1 S5 (Ho (started_closed t0 y0 w))).
Qed.

(** X20. The deadline of a probe on which no handler is called. After the
    start of a probe at [t0], a call of [process_chk] before
    [t0 + inter] changes nothing but the queueing of the task and
    returns [t0 + inter]; a call at or after [t0 + inter] returns,
    applies the failure step to the server and releases the probe:
    [curfd = -1], descriptor closed and in state FD_STCLOSE. *)
Theorem started_probe_times_out (t0 t1 : Z) (y0 y1 : sys) (w : world) :
  startable t0 y0 w ->
  let fd := socket_ret y0 in
  runs dyn t0 y0 w (started t0 y0 w) (t0 + inter (srv w)) /\
  (t1 < t0 + inter (srv w) ->
     runs dyn t1 y1 (started t0 y0 w) (task_queue (started t0 y0 w))
       (t0 + inter (srv w))) /\
  (t0 + inter (srv w) <= t1 ->
     exists w2 n2, runs dyn t1 y1 (started t0 y0 w) w2 n2 /\
       liveness (srv w2) = after_failure (srv w) /\
       curfd (srv w2) = -1 /\ fdst (fdtab w2 fd) = FD_STCLOSE /\
       os_open w2 fd = false /\ t1 < n2).
Proof.
  intros St fd.
  pose proof St as (Hi & Hd & U & B & C & Hfd).
  destruct (started_fields t0 y0 w) as (S1 & S2 & S3 & S4 & S5).
  split; [apply started_runs, St|]. split.
  - exact (idle_from t0 t1 (socket_ret y0) y1 w (started t0 y0 w) Hi Hfd S1 (S4 Hi)).
  - intros Ht.
    apply (failed_probe_consumed t1 (socket_ret y0) y1 w (started t0 y0 w) Hi Hfd).
    + rewrite S1. reflexivity.
    + right. rewrite S1. split; [reflexivity|]. rewrite (S4 Hi). exact Ht.
Qed.

End StartedProbe.

Lemma demo_answers_closed (fd : Z) (w : world) : os_answers fd w demo_closed.
Proof. intros _. unfold bad_descriptor. repeat split. Qed.

Lemma started_probe_write_fails_witness :
  startable 1500 demo_sys demo_world /\
  0 <= check_len (px demo_world) /\
  os_answers (socket_ret demo_sys) (started 1500 demo_sys demo_world) demo_closed /\
  result (srv (snd (event_srv_chk_w (socket_ret demo_sys) 1600 demo_closed
                      (started 1500 demo_sys demo_world)))) = -1 /\
  exists w3 n3,
    runs demo_dyn 1700 demo_sys
      (snd (event_srv_chk_w (socket_ret demo_sys) 1600 demo_closed
              (started 1500 demo_sys demo_world))) w3 n3 /\
    liveness (srv w3) = after_failure (srv demo_world).
Proof.
  assert (S : startable 1500 demo_sys demo_world)
    by (apply demo_startable; reflexivity).
  assert (L : 0 <= check_len (px demo_world)) by (cbn; lia).
  pose proof (demo_answers_closed (socket_ret demo_sys) (started 1500 demo_sys demo_world))
    as A.
  split; [exact S|]. split; [exact L|]. split; [exact A|].
  destruct (started_probe_write_fails demo_dyn 1500 1600 1700 demo_sys demo_closed demo_sys
              demo_world S L A) as (_ & _ & _ & R1 & _ & _ & w3 & n3 & R & Lv & _).
  split; [exact R1|]. exists w3, n3. split; [exact R | exact Lv].
Defined.

Lemma started_probe_read_fails_witness :
  startable 1500 demo_sys demo_world /\
  os_answers (socket_ret demo_sys) (started 1500 demo_sys demo_world) demo_closed /\
  result (srv (snd (event_srv_chk_r (socket_ret demo_sys) demo_closed
                      (started 1500 demo_sys demo_world)))) = -1 /\
  exists w3 n3,
    runs demo_dyn 1700 demo_sys
      (snd (event_srv_chk_r (socket_ret demo_sys) demo_closed
              (started 1500 demo_sys demo_world))) w3 n3 /\
    liveness (srv w3) = after_failure (srv demo_world).
Proof.
  assert (S : startable 1500 demo_sys demo_world)
    by (apply demo_startable; reflexivity).
  pose proof (demo_answers_closed (socket_ret demo_sys) (started 1500 demo_sys demo_world))
    as A.
  split; [exact S|]. split; [exact A|].
  destruct (started_probe_read_fails demo_dyn 1500 1700 demo_sys demo_closed demo_sys
              demo_world S A) as (_ & R1 & _ & _ & w3 & n3 & R & Lv & _).
  split; [exact R1|]. exists w3, n3. split; [exact R | exact Lv].
Defined.

Lemma started_probe_times_out_witness :
  startable 1500 demo_sys demo_world /\
  1500 + inter (srv demo_world) <= 4000 /\
  exists w2 n2,
    runs demo_dyn 4000 demo_sys (started 1500 demo_sys demo_world) w2 n2 /\
    liveness (srv w2) = after_failure (srv demo_world) /\ curfd (srv w2) = -1.
Proof.
  assert (S : startable 1500 demo_sys demo_world)
    by (apply demo_startable; reflexivity).
  assert (Ht : 1500 + inter (srv demo_world) <= 4000) by (cbn; lia).
  split; [exact S|]. split; [exact Ht|].
  destruct (proj2 (proj2 (started_probe_times_out demo_dyn 1500 4000 demo_sys demo_sys
                            demo_world S)) Ht) as (w2 & n2 & R & L & Cf & _).
  exists w2, n2. split; [exact R|]. split; [exact L | exact Cf].
Defined.

(** ** The count of the DOWN transitions *)

Ltac log_simpl :=
  cbn [trace sys_close emit set_open with_srv with_fd with_px task_queue fd_insert
       fd_delete set_expire Alert Warning send_log take_over release srv down_trans
       set_curfd set_result];
  rewrite ?logged_app;
  change (logged LOG_ALERT [EvClose _]) with 0%nat;
  change (logged LOG_ALERT [EvFdInsert _]) with 0%nat;
  change (logged LOG_ALERT [EvFdDelete _]) with 0%nat;
  change (logged LOG_ALERT [EvTaskQueue _]) with 0%nat;
  change (logged LOG_ALERT [EvAlert _]) with 0%nat;
  try lia.

Lemma initiate_logs_nothing (now : Z) (y : sys) (w : world) :
  logged LOG_ALERT (trace (initiate now y w)) = logged LOG_ALERT (trace w).
Proof.
  destruct (usable y w) eqn:U.
  - destruct (bind_fails y w) eqn:B.
    { rewrite (initiate_bind_fails now y w U B). unfold opened. log_simpl. }
    destruct (connect_accepted y) eqn:C.
    { rewrite (initiate_accepted now y w U B C). unfold opened. log_simpl. }
    destruct (connect_tolerated y) eqn:T.
    + rewrite (initiate_tolerated now y w U B C T). unfold opened. log_simpl.
    + rewrite (initiate_refused now y w U B C T). unfold opened. log_simpl.
  - destruct (Z.eq_dec (socket_ret y) (-1)) as [S|S].
    + rewrite (initiate_no_socket now y w S). reflexivity.
    + rewrite (initiate_unusable now y w S U). unfold opened. log_simpl.
Qed.

Lemma chk_failure_accounts (w : world) :
  unlogged_downs (chk_failure w) = unlogged_downs w.
Proof.
  unfold unlogged_downs.
  destruct (Z.eq_dec (health (srv w)) (rise (srv w))) as [E|E].
  - destruct (down_edge_logged w E) as (L & D & _). rewrite L, D. lia.
  - unfold chk_failure. destruct (rise (srv w) <? health (srv w)); [reflexivity|].
    rewrite (set_server_down_quiet w E). reflexivity.
Qed.

Section Accounts.

Variable dyn : server -> proxy -> Z.

Lemma chk_success_accounts (w w1 : world) :
  chk_success dyn w = Some w1 -> unlogged_downs w1 = unlogged_downs w.
Proof.
  intros H. unfold unlogged_downs.
  destruct (Z.lt_trichotomy (health (srv w) + 1) (rise (srv w))) as [L|[L|L]].
  - rewrite (chk_success_low dyn w L) in H. injection H as <-. reflexivity.
  - destruct (chk_success_edge dyn w L) as (w2 & U & E).
    rewrite E in H. injection H as <-.
    destruct (up_edge_spec dyn (risen w)) as (w2' & x & tr & U' & F & T & W).
    rewrite U in U'. injection U' as <-.
    destruct F as (F1 & _).
    cbn [with_srv srv trace down_trans set_health].
    rewrite (f_equal down_trans F1 : down_trans (srv w2) = _).
    rewrite T, !logged_app, (logged_wakeups _ _ W).
    change (trace (risen w)) with (trace w).
    change (logged LOG_ALERT [EvRecount; EvRecalcMap]) with 0%nat.
    change (logged LOG_ALERT [EvWarning (up_msg x w2); EvSendLog LOG_NOTICE (up_msg x w2)])
      with 0%nat.
    change (down_trans (set_queue 0 [] (srv (recalc_server_map (recount_servers (risen w))))))
      with (down_trans (srv w)).
    lia.
  - rewrite (chk_success_high dyn w L) in H. injection H as <-. reflexivity.
Qed.

(** X21. [down_trans] counts the DOWN messages: across any call of
    [process_chk] that returns, [down_trans] grows by the number of
    messages that the call logs at ALERT. *)
Theorem down_transitions_logged (now : Z) (y : sys) (w w' : world) (next : Z) :
  runs dyn now y w w' next ->
  down_trans (srv w') - down_trans (srv w)
  = Z.of_nat (logged LOG_ALERT (trace w')) - Z.of_nat (logged LOG_ALERT (trace w)).
Proof.
  intros [n Hn].
  enough (unlogged_downs w' = unlogged_downs w) by (unfold unlogged_downs in *; lia).
  refine (process_chk_closed dyn (fun v => unlogged_downs v = unlogged_downs w) now y
            _ _ _ _ _ _ _ n w w' next eq_refl (Hn n (Nat.le_refl n))).
  - intros v H. rewrite <- H. unfold unlogged_downs. log_simpl.
  - intros v e H. exact H.
  - intros v H. exact H.
  - intros v H. rewrite <- H. unfold unlogged_downs.
    rewrite initiate_logs_nothing.
    rewrite (f_equal down_trans (proj1 (initiate_frame now y v))
             : down_trans (srv (initiate now y v)) = down_trans (srv v)).
    reflexivity.
  - intros v H. rewrite chk_failure_accounts. exact H.
  - intros v v1 H E. rewrite (chk_success_accounts v v1 E). exact H.
  - intros v H _. rewrite <- H. unfold unlogged_downs. log_simpl.
Qed.

End Accounts.

Lemma down_transitions_logged_witness :
  exists w' next, runs demo_dyn 1500 demo_sys (demo_running (-1)) w' next /\
    down_trans (srv w') - down_trans (srv (demo_running (-1)))
    = Z.of_nat (logged LOG_ALERT (trace w'))
      - Z.of_nat (logged LOG_ALERT (trace (demo_running (-1)))).
Proof.
  assert (E : exists r, process_chk demo_dyn 3 1500 demo_sys (demo_running (-1)) = Some r)
    by (vm_compute; eexists; reflexivity).
  destruct E as ([w' next] & E).
  pose proof (runs_of_run demo_dyn 1500 demo_sys 3 _ _ _ E) as R.
  exists w', next. split; [exact R|].
  exact (down_transitions_logged demo_dyn 1500 demo_sys (demo_running (-1)) w' next R).
Defined.
